(** * Axelera/Hailo benchmark analysis: statistics, validation, peaks, scaling

    A shallow embedding of the two analysis scripts

      - [src/analysis/extract_real_data_only.py]  (class [RealDataExtractor]),
      - [src/validation/validate_calculations.py] (module-level functions),

    and the properties their specification states about them.

    Modelling conventions.
      - A Python [float] is a binary64 number, held as its exact rational
        value [Q].  The scalar arithmetic of the two consistency checks
        ([/], [-], [*] on floats) rounds every result to binary64 ([b64]):
        53 significant bits, to nearest, ties to even.  The exponent range
        is not modelled: the rounding is the one of the hardware for
        results of magnitude between 2^-1022 and 2^1024, and overflow to
        [inf] and underflow are left out.  Comparisons and [abs] are exact.
      - The reductions of numpy and pandas ([mean], [std], [min], [max])
        and the statistics derived from them are modelled by their exact
        values: the order in which numpy adds is not reproduced.
      - A Python [int] is a [Z]; a [str] is a [string].
      - A [dict] is an association list in insertion order, because the
        scripts iterate over their dictionaries and the order is observable.
      - A raised exception is the [inl] of a sum; [inr] is a normal return.
      - A numpy scalar is an [npf]: a rational or a non-finite value
        ([inf] or [nan]); numpy divides by zero with a warning, Python
        raises [ZeroDivisionError]. *)

From Stdlib Require Import ZArith QArith Qabs Qminmax Lqa Lia List String Ascii Bool.
From Stdlib Require Import DecimalString DecimalZ Permutation.
Import ListNotations.

Local Open Scope string_scope.
Local Open Scope Z_scope.

(** ** Python values *)

(** The exceptions the two scripts can raise on well-typed records. *)
Inductive exn : Set :=
| ZeroDivisionError   (* an [int] or [float] divided by zero *)
| ValueError          (* a numpy reduction over an empty array *)
| KeyError.           (* a missing dictionary key or data-frame column *)

Definition result (A : Type) : Type := (exn + A)%type.

Definition raise {A : Type} (e : exn) : result A := inl e.
Definition ret {A : Type} (a : A) : result A := inr a.
Definition bind {A B : Type} (c : result A) (k : A -> result B) : result B :=
  match c with
  | inl e => inl e
  | inr a => k a
  end.

Notation "x <- c ;; k" := (bind c (fun x => k))
  (at level 61, c at next level, right associativity).

Definition len {A : Type} (l : list A) : Z := Z.of_nat (List.length l).

(** [enumerate(l)], counting from [i]. *)
Fixpoint enumerate_from {A : Type} (i : Z) (l : list A) : list (Z * A) :=
  match l with
  | [] => []
  | x :: l' => (i, x) :: enumerate_from (i + 1) l'
  end.

Definition enumerate {A : Type} (l : list A) : list (Z * A) :=
  enumerate_from 0 l.

(** [sub in s] on Python strings: [sub] occurs in [s] as a contiguous run. *)
Fixpoint str_in (sub s : string) : bool :=
  match s with
  | EmptyString => prefix sub s
  | String _ s' => prefix sub s || str_in sub s'
  end.

(** [str(z)] for an [int]. *)
Definition str_of_int (z : Z) : string :=
  NilZero.string_of_int (Z.to_int z).

(** ** Python floats *)

Definition Qltb (x y : Q) : bool := negb (Qle_bool y x).

(** *** Rounding to binary64 *)

(** [n / d] rounded to the nearest integer, ties to the even one, for
    [0 <= n] and [0 < d]. *)
Definition nearest_even (n d : Z) : Z :=
  let q := n / d in
  match 2 * (n mod d) ?= d with
  | Lt => q
  | Eq => if Z.even q then q else q + 1
  | Gt => q + 1
  end.

(** The exponent [e] with [2^e <= n / d < 2^(e+1)], for [0 < n] and
    [0 < d]: [Z.log2 n - Z.log2 d] or one less. *)
Definition binade (n d : Z) : Z :=
  let e := Z.log2 n - Z.log2 d in
  if (if 0 <=? e then d * 2 ^ e <=? n else d <=? n * 2 ^ (- e))
  then e else e - 1.

(** [n / d] rounded to 53 significant bits, for [0 < n] and [0 < d]: the
    significand [n / d * 2^s], which lies between [2^52] and [2^53], is
    rounded to an integer and scaled back. *)
Definition round_pos (n d : Z) : Q :=
  let s := 52 - binade n d in
  if 0 <=? s
  then Qmake (nearest_even (n * 2 ^ s) d) (Z.to_pos (2 ^ s))
  else inject_Z (nearest_even n (d * 2 ^ (- s)) * 2 ^ (- s)).

(** The binary64 number nearest to [x]. *)
Definition b64 (x : Q) : Q :=
  let q := Qred x in
  match Qnum q with
  | Z0 => 0%Q
  | Zpos n => Qred (round_pos (Zpos n) (Zpos (Qden q)))
  | Zneg n => Qred (- round_pos (Zpos n) (Zpos (Qden q)))
  end.

(** A float literal of the source, such as [0.01], and an [int] operand of
    a float operation: the binary64 number nearest to it. *)
Definition py_float (x : Q) : Q := b64 x.

(** [a / b], [a - b] and [a * b] on floats; [fdiv] is used where the
    divisor is known not to be zero. *)
Definition fdiv (a b : Q) : Q := b64 (a / b).
Definition fsub (a b : Q) : Q := b64 (a - b).
Definition fmul (a b : Q) : Q := b64 (a * b).

Arguments b64 : simpl never.

(** [max(a, b)] of the Python builtins: [a] unless [b > a]. *)
Definition py_max (a b : Q) : Q := if Qltb a b then b else a.

(** [a / b] on Python numbers. *)
Definition py_div (a b : Q) : result Q :=
  if Qeq_bool b 0 then raise ZeroDivisionError else ret (a / b)%Q.

Definition Qsum (xs : list Q) : Q := fold_right Qplus 0%Q xs.

Definition Qsquare (x : Q) : Q := (x * x)%Q.

(** ** numpy scalars *)

Inductive npf : Type :=
| Fin (q : Q)
| Inf (positive : bool)
| NaN.

Definition np_neg (a : npf) : npf :=
  match a with
  | Fin x => Fin (- x)%Q
  | Inf s => Inf (negb s)
  | NaN => NaN
  end.

Definition np_add (a b : npf) : npf :=
  match a, b with
  | Fin x, Fin y => Fin (x + y)%Q
  | Fin _, Inf s => Inf s
  | Inf s, Fin _ => Inf s
  | Inf s, Inf s' => if Bool.eqb s s' then Inf s else NaN
  | _, _ => NaN
  end.

Definition np_sub (a b : npf) : npf := np_add a (np_neg b).

Definition inf_times (s : bool) (y : Q) : npf :=
  if Qeq_bool y 0 then NaN else if Qltb 0 y then Inf s else Inf (negb s).

Definition np_mul (a b : npf) : npf :=
  match a, b with
  | Fin x, Fin y => Fin (x * y)%Q
  | Fin x, Inf s => inf_times s x
  | Inf s, Fin y => inf_times s y
  | Inf s, Inf s' => Inf (Bool.eqb s s')
  | _, _ => NaN
  end.

(** numpy division: a zero divisor gives [inf] or [nan] and a warning. *)
Definition np_div (a b : npf) : npf :=
  match a, b with
  | Fin x, Fin y =>
      if Qeq_bool y 0 then
        if Qeq_bool x 0 then NaN else Inf (Qltb 0 x)
      else Fin (x / y)%Q
  | Fin _, Inf _ => Fin 0
  | Inf s, Fin y => if Qltb y 0 then Inf (negb s) else Inf s
  | _, _ => NaN
  end.

Definition of_int (z : Z) : npf := Fin (inject_Z z).

(** The numeric routines of numpy and scipy that the scripts call and that
    are not rational: the square root and the quantile function of the
    Student-t distribution.  [sqrtQ] stands for [np.sqrt] on a finite
    non-negative argument and [t_quantile p df] for [scipy.stats.t.ppf(p, df)]
    with [df >= 1]; both depend only on the value of their argument. *)
Class SciPy : Type := {
  sqrtQ : Q -> Q;
  sqrtQ_nonzero : forall x : Q, (0 < x)%Q -> ~ (sqrtQ x == 0)%Q;
  t_quantile : Q -> Z -> Q;
  t_quantile_ext :
    forall (p q : Q) (df : Z), (p == q)%Q -> t_quantile p df = t_quantile q df
}.

Section Numpy.
Context {scipy : SciPy}.

Definition np_sqrt (a : npf) : npf :=
  match a with
  | Fin x => if Qltb x 0 then NaN else Fin (sqrtQ x)
  | Inf true => Inf true
  | _ => NaN
  end.

(** [scipy.stats.t.ppf(p, df)]: [nan] unless there is a degree of freedom. *)
Definition stats_t_ppf (p : Q) (df : Z) : npf :=
  if df <=? 0 then NaN else Fin (t_quantile p df).

(** [np.mean(xs)]: the sum over the length, [nan] for an empty list.  This
    is the exact value, which numpy approximates on floats: its pairwise
    summation is not reproduced, so the float mean can differ from this one
    in its last bits (and overflow where this one does not). *)
Definition np_mean (xs : list Q) : npf :=
  np_div (Fin (Qsum xs)) (of_int (len xs)).

(** [np.std(xs, ddof=ddof)]: the squared deviations from the mean, summed
    and divided by [max(n - ddof, 0)], then the root. *)
Definition np_std (xs : list Q) (ddof : Z) : npf :=
  match np_mean xs with
  | Fin m =>
      np_sqrt (np_div (Fin (Qsum (map (fun x => Qsquare (x - m)) xs)))
                      (of_int (Z.max (len xs - ddof) 0)))
  | _ => NaN
  end.

End Numpy.

(** [np.max(xs)] and [np.min(xs)]: an empty array has no identity. *)
Definition np_max (xs : list Q) : result Q :=
  match xs with
  | [] => raise ValueError
  | x :: xs' => ret (fold_left (fun a b => if Qltb a b then b else a) xs' x)
  end.

Definition np_min (xs : list Q) : result Q :=
  match xs with
  | [] => raise ValueError
  | x :: xs' => ret (fold_left (fun a b => if Qltb b a then b else a) xs' x)
  end.

(** ** Dictionaries in insertion order *)

Section Dict.
Context {K V : Type} (eqb : K -> K -> bool).

(** [d.get(k)] *)
Fixpoint dict_get (d : list (K * V)) (k : K) : option V :=
  match d with
  | [] => None
  | (k', v) :: d' => if eqb k' k then Some v else dict_get d' k
  end.

(** [k in d] *)
Definition dict_mem (d : list (K * V)) (k : K) : bool :=
  match dict_get d k with
  | Some _ => true
  | None => false
  end.

(** [d[k] = v]: an existing key keeps its place, a new one goes last. *)
Fixpoint dict_set (d : list (K * V)) (k : K) (v : V) : list (K * V) :=
  match d with
  | [] => [(k, v)]
  | (k', v') :: d' =>
      if eqb k' k then (k', v) :: d' else (k', v') :: dict_set d' k v
  end.

End Dict.

(** [d[k].append(x)] after [if k not in d: d[k] = []]. *)
Definition dict_append {K A : Type} (eqb : K -> K -> bool)
    (d : list (K * list A)) (k : K) (x : A) : list (K * list A) :=
  let d := if dict_mem eqb d k then d else dict_set eqb d k [] in
  match dict_get eqb d k with
  | Some l => dict_set eqb d k (l ++ [x])%list
  | None => d
  end.

(** [mapM] and [foldM] of the exception monad: a [for] loop whose body can
    raise. *)
Fixpoint mapM {A B : Type} (f : A -> result B) (l : list A) : result (list B) :=
  match l with
  | [] => ret []
  | x :: l' => y <- f x ;; ys <- mapM f l' ;; ret (y :: ys)
  end.

Fixpoint foldM {S A : Type} (f : S -> A -> result S) (l : list A) (s : S)
    : result S :=
  match l with
  | [] => ret s
  | x :: l' => s' <- f s x ;; foldM f l' s'
  end.

(** ** The input records

    One measurement of the benchmark file.  The five metrics are always
    present; [is_valid], [model_name], [core_count] and [batch_size] are
    optional keys, read with [dict.get] and a default. *)
Module Json.

Record measurement : Type := {
  timestamp : string;
  latency_ms : Q;
  throughput_fps : Q;
  power_consumption_watts : Q;
  efficiency_fps_per_watt : Q;
  temperature_celsius : Q;
  is_valid : option bool;
  model_name : option string;
  core_count : option Z;
  batch_size : option Z
}.

(** [d.get(key, default)] on an optional key. *)
Definition get {A : Type} (field : option A) (default : A) : A :=
  match field with
  | Some a => a
  | None => default
  end.

(** [detailed_results]: model name, then configuration name, then the
    [measurements] list of that configuration, when it has one. *)
Definition detailed_results : Type :=
  list (string * list (string * option (list measurement))).

(** The benchmark file; [detailed_results] can be missing. *)
Record benchmark : Type := {
  reported_total_measurements : Z;
  results : option detailed_results
}.

End Json.

(** ** validate_calculations.py *)

Module Validate.
Import Json.

(** [extract_all_measurements] *)
Definition extract_all_measurements (data : benchmark) : list measurement :=
  match results data with
  | Some detailed =>
      flat_map (fun model_item : string * list (string * option (list measurement)) =>
        flat_map (fun config_item : string * option (list measurement) =>
          match snd config_item with
          | Some measurements =>
              filter (fun measurement => get (is_valid measurement) true)
                     measurements
          | None => []
          end) (snd model_item)) detailed
  | None => []
  end.

(** *** validate_mathematical_consistency *)

Inductive test_name : Set := efficiency_calculation | throughput_calculation.

Record failed_measurement : Type := {
  measurement_index : Z;
  test : test_name;
  expected : Q;
  actual : Q;
  error : Q
}.

Record validation_results : Type := {
  total_measurements : Z;
  consistency_checks : Z;
  consistency_failures : Z;
  failed_measurements : list failed_measurement
}.

(** [consistency_checks += 1] *)
Definition count_check (vr : validation_results) : validation_results :=
  {| total_measurements := total_measurements vr;
     consistency_checks := consistency_checks vr + 1;
     consistency_failures := consistency_failures vr;
     failed_measurements := failed_measurements vr |}.

(** [consistency_failures += 1] and [failed_measurements.append(f)] *)
Definition record_failure (vr : validation_results) (f : failed_measurement)
    : validation_results :=
  {| total_measurements := total_measurements vr;
     consistency_checks := consistency_checks vr;
     consistency_failures := consistency_failures vr + 1;
     failed_measurements := (failed_measurements vr ++ [f])%list |}.

(** The body of the loop over [enumerate(measurements)]. *)
Definition check_measurement (vr : validation_results)
    (item : Z * measurement) : validation_results :=
  let (i, measurement) := item in
  let vr := count_check vr in
  let throughput := throughput_fps measurement in
  let power := power_consumption_watts measurement in
  let efficiency := efficiency_fps_per_watt measurement in
  let latency := latency_ms measurement in
  let batch_size := get (batch_size measurement) 1 in
  (* Consistency check 1: Efficiency = Throughput / Power *)
  let expected_efficiency :=
    if Qltb 0 power then fdiv throughput power else 0%Q in
  let efficiency_error := Qabs (fsub efficiency expected_efficiency) in
  let efficiency_tolerance := py_float 0.01 in
  let vr :=
    if Qltb efficiency_tolerance efficiency_error && Qltb 0 efficiency then
      record_failure vr
        {| measurement_index := i;
           test := efficiency_calculation;
           expected := expected_efficiency;
           actual := efficiency;
           error := efficiency_error |}
    else vr in
  (* Consistency check 2: Throughput = Batch_size / (Latency_ms / 1000);
     the positive latency keeps [latency / 1000] away from zero *)
  if Qltb 0 latency then
    let expected_throughput :=
      fdiv (py_float (inject_Z batch_size)) (fdiv latency 1000) in
    let throughput_error := Qabs (fsub throughput expected_throughput) in
    let throughput_tolerance := fmul throughput (py_float 0.05) in
    if Qltb throughput_tolerance throughput_error then
      record_failure vr
        {| measurement_index := i;
           test := throughput_calculation;
           expected := expected_throughput;
           actual := throughput;
           error := throughput_error |}
    else vr
  else vr.

(** [(checks - failures) / checks * 100] on two [int] counters. *)
Definition success_rate (vr : validation_results) : result Q :=
  ratio <- py_div (inject_Z (consistency_checks vr - consistency_failures vr))
                  (inject_Z (consistency_checks vr)) ;;
  ret (ratio * 100)%Q.

Definition validate_mathematical_consistency (measurements : list measurement)
    : result validation_results :=
  let validation_results :=
    fold_left check_measurement (enumerate measurements)
      {| total_measurements := len measurements;
         consistency_checks := 0;
         consistency_failures := 0;
         failed_measurements := [] |} in
  _ <- success_rate validation_results ;;
  ret validation_results.

(** *** reproduce_summary_statistics

    The median and the quartiles of each entry are left out: numpy
    returns them without raising, and nothing below reads them. *)

Section Statistics.
Context {scipy : SciPy}.

Record metric_stats : Type := {
  count : Z;
  mean : npf;
  std : npf;
  min : Q;
  max : Q;
  confidence_interval_95 : option (npf * npf);
  margin_of_error : option npf
}.

(** One entry of the [stats_results] literal. *)
Definition describe (xs : list Q) : result metric_stats :=
  let count := len xs in
  let mean := np_mean xs in
  let std := np_std xs 1 in
  min <- np_min xs ;;
  max <- np_max xs ;;
  ret {| count := count; mean := mean; std := std; min := min; max := max;
         confidence_interval_95 := None; margin_of_error := None |}.

(** The body of the loop that adds the 95% confidence intervals. *)
Definition add_interval (data_arrays : list (string * list Q))
    (item : string * metric_stats) : result (string * metric_stats) :=
  let (metric_name, metric_data) := item in
  if String.eqb metric_name "temperature_celsius" then
    ret item  (* Skip CI for temperature *)
  else
    match dict_get String.eqb data_arrays metric_name with
    | None => raise KeyError
    | Some data_array =>
        let n := len data_array in
        let mean := mean metric_data in
        let std := std metric_data in
        (* t-distribution confidence interval *)
        let t_value := stats_t_ppf 0.975 (n - 1) in
        let margin_error := np_mul t_value (np_div std (np_sqrt (of_int n))) in
        let ci_lower := np_sub mean margin_error in
        let ci_upper := np_add mean margin_error in
        ret (metric_name,
             {| count := count metric_data;
                mean := mean;
                std := std;
                min := min metric_data;
                max := max metric_data;
                confidence_interval_95 := Some (ci_lower, ci_upper);
                margin_of_error := Some margin_error |})
    end.

Definition reproduce_summary_statistics (measurements : list measurement)
    : result (list (string * metric_stats)) :=
  let latencies := map latency_ms measurements in
  let throughputs := map throughput_fps measurements in
  let powers := map power_consumption_watts measurements in
  let efficiencies := map efficiency_fps_per_watt measurements in
  let temperatures := map temperature_celsius measurements in
  power_stats <- describe powers ;;
  throughput_stats <- describe throughputs ;;
  efficiency_stats <- describe efficiencies ;;
  temperature_stats <- describe temperatures ;;
  let stats_results :=
    [("power_consumption_watts", power_stats);
     ("throughput_fps", throughput_stats);
     ("efficiency_fps_per_watt", efficiency_stats);
     ("temperature_celsius", temperature_stats)] in
  mapM (add_interval
          [("power_consumption_watts", powers);
           ("throughput_fps", throughputs);
           ("efficiency_fps_per_watt", efficiencies)])
       stats_results.

End Statistics.

(** *** identify_peak_configurations

    The returned dictionary; the top-five listing is only printed. *)

(** [f"{model}_cores{cores}_batch{batch}"] *)
Definition config_key_of (measurement : measurement) : string :=
  let model := get (model_name measurement) "unknown" in
  let cores := get (core_count measurement) 1 in
  let batch := get (batch_size measurement) 1 in
  model ++ "_cores" ++ str_of_int cores ++ "_batch" ++ str_of_int batch.

(** Group measurements by configuration. *)
Definition config_groups (measurements : list measurement)
    : list (string * list measurement) :=
  fold_left
    (fun groups measurement =>
       dict_append String.eqb groups (config_key_of measurement) measurement)
    measurements [].

Record config_summary : Type := {
  measurement_count : Z;
  avg_throughput : npf;
  max_throughput : Q;
  avg_efficiency : npf;
  max_efficiency : Q;
  avg_power : npf
}.

Record peak_configurations : Type := {
  peak_throughput : Q;
  peak_throughput_config : option string;
  peak_throughput_measurement : option measurement;
  peak_efficiency : Q;
  peak_efficiency_config : option string;
  peak_efficiency_measurement : option measurement;
  config_summaries : list (string * config_summary)
}.

(** The inner [for m in config_measurements: if ...: best = m; break]. *)
Definition first_with (test : measurement -> bool)
    (config_measurements : list measurement) (best : option measurement)
    : option measurement :=
  match find test config_measurements with
  | Some m => Some m
  | None => best
  end.

(** The body of the loop over [config_groups.items()]. *)
Definition scan_config (st : peak_configurations)
    (item : string * list measurement) : result peak_configurations :=
  let (config_key, config_measurements) := item in
  let throughputs := map throughput_fps config_measurements in
  let efficiencies := map efficiency_fps_per_watt config_measurements in
  let powers := map power_consumption_watts config_measurements in
  summary_max_throughput <- np_max throughputs ;;
  summary_max_efficiency <- np_max efficiencies ;;
  let config_summary :=
    {| measurement_count := len config_measurements;
       avg_throughput := np_mean throughputs;
       max_throughput := summary_max_throughput;
       avg_efficiency := np_mean efficiencies;
       max_efficiency := summary_max_efficiency;
       avg_power := np_mean powers |} in
  let summaries := dict_set String.eqb (config_summaries st) config_key config_summary in
  (* Check for peak throughput *)
  max_tp <- np_max throughputs ;;
  let throughput_won := Qltb (peak_throughput st) max_tp in
  (* Check for peak efficiency *)
  max_eff <- np_max efficiencies ;;
  let efficiency_won := Qltb (peak_efficiency st) max_eff in
  ret {| peak_throughput :=
           if throughput_won then max_tp else peak_throughput st;
         peak_throughput_config :=
           if throughput_won then Some config_key
           else peak_throughput_config st;
         peak_throughput_measurement :=
           if throughput_won then
             first_with (fun m => Qeq_bool (throughput_fps m) max_tp)
                        config_measurements (peak_throughput_measurement st)
           else peak_throughput_measurement st;
         peak_efficiency :=
           if efficiency_won then max_eff else peak_efficiency st;
         peak_efficiency_config :=
           if efficiency_won then Some config_key
           else peak_efficiency_config st;
         peak_efficiency_measurement :=
           if efficiency_won then
             first_with (fun m => Qeq_bool (efficiency_fps_per_watt m) max_eff)
                        config_measurements (peak_efficiency_measurement st)
           else peak_efficiency_measurement st;
         config_summaries := summaries |}.

Definition no_peaks : peak_configurations :=
  {| peak_throughput := 0;
     peak_throughput_config := None;
     peak_throughput_measurement := None;
     peak_efficiency := 0;
     peak_efficiency_config := None;
     peak_efficiency_measurement := None;
     config_summaries := [] |}.

Definition identify_peak_configurations (measurements : list measurement)
    : result peak_configurations :=
  foldM scan_config (config_groups measurements) no_peaks.

(** *** analyze_scaling_performance *)

(** [f"{model}_batch{batch}"] *)
Definition combo_key_of (measurement : measurement) : string :=
  let model := get (model_name measurement) "unknown" in
  let batch := get (batch_size measurement) 1 in
  model ++ "_batch" ++ str_of_int batch.

(** Group by model and batch size, then by core count. *)
Definition scaling_groups (measurements : list measurement)
    : list (string * list (Z * list measurement)) :=
  fold_left
    (fun scaling_analysis measurement =>
       let key := combo_key_of measurement in
       let cores := get (core_count measurement) 1 in
       let scaling_analysis :=
         if dict_mem String.eqb scaling_analysis key then scaling_analysis
         else dict_set String.eqb scaling_analysis key [] in
       match dict_get String.eqb scaling_analysis key with
       | Some by_cores =>
           dict_set String.eqb scaling_analysis key
             (dict_append Z.eqb by_cores cores measurement)
       | None => scaling_analysis
       end)
    measurements [].

Record core_perf : Type := {
  core_avg_throughput : npf;
  core_avg_power : npf;
  core_avg_efficiency : npf;
  core_measurement_count : Z
}.

Record scaling_metric : Type := {
  scaling_factor : npf;
  scaling_efficiency_percent : npf;
  throughput_improvement : npf
}.

Record scaling_result : Type := {
  core_performance : list (Z * core_perf);
  scaling_metrics : list (Z * scaling_metric)
}.

(** Average performance for each core count. *)
Definition core_performance_of (core_data : list (Z * list measurement))
    : list (Z * core_perf) :=
  fold_left
    (fun core_performance (item : Z * list measurement) =>
       let (cores, measurements_list) := item in
       let throughputs := map throughput_fps measurements_list in
       let powers := map power_consumption_watts measurements_list in
       let efficiencies := map efficiency_fps_per_watt measurements_list in
       dict_set Z.eqb core_performance cores
         {| core_avg_throughput := np_mean throughputs;
            core_avg_power := np_mean powers;
            core_avg_efficiency := np_mean efficiencies;
            core_measurement_count := len measurements_list |})
    core_data [].

(** Scaling metrics relative to 1 core. *)
Definition scaling_metrics_of (baseline_throughput : npf)
    (core_performance : list (Z * core_perf)) : list (Z * scaling_metric) :=
  fold_left
    (fun scaling_metrics (item : Z * core_perf) =>
       let (cores, perf_data) := item in
       if 1 <? cores then
         let scaling_factor :=
           np_div (core_avg_throughput perf_data) baseline_throughput in
         let scaling_efficiency := np_div scaling_factor (of_int cores) in
         dict_set Z.eqb scaling_metrics cores
           {| scaling_factor := scaling_factor;
              scaling_efficiency_percent := np_mul scaling_efficiency (of_int 100);
              throughput_improvement :=
                np_mul (np_sub scaling_factor (of_int 1)) (of_int 100) |}
       else scaling_metrics)
    core_performance [].

(** The body of the loop over [scaling_analysis.items()]. *)
Definition analyze_combo (scaling_results : list (string * scaling_result))
    (item : string * list (Z * list measurement))
    : list (string * scaling_result) :=
  let (combo_key, core_data) := item in
  if len core_data <? 2 then scaling_results  (* continue *)
  else
    let core_performance := core_performance_of core_data in
    match dict_get Z.eqb core_performance 1 with
    | Some baseline =>
        let baseline_throughput := core_avg_throughput baseline in
        dict_set String.eqb scaling_results combo_key
          {| core_performance := core_performance;
             scaling_metrics :=
               scaling_metrics_of baseline_throughput core_performance |}
    | None => scaling_results
    end.

Definition analyze_scaling_performance (measurements : list measurement)
    : list (string * scaling_result) :=
  fold_left analyze_combo (scaling_groups measurements) [].

End Validate.

(** ** extract_real_data_only.py *)

Module Extract.

(** [RealDataExtractor._extract_cores_from_config] *)
Definition _extract_cores_from_config (config_name : string) : Z :=
  if str_in "cores1" config_name then 1
  else if str_in "cores2" config_name then 2
  else if str_in "cores4" config_name then 4
  else 1.

(** [RealDataExtractor._extract_batch_from_config] *)
Definition _extract_batch_from_config (config_name : string) : Z :=
  if str_in "batch1" config_name then 1
  else if str_in "batch4" config_name then 4
  else if str_in "batch8" config_name then 8
  else if str_in "batch16" config_name then 16
  else 1.

(** One row of [measurements_df]; the columns are never missing, so
    [dropna()] keeps every row. *)
Record row : Type := {
  model : string;
  configuration : string;
  timestamp : string;
  latency_ms : Q;
  throughput_fps : Q;
  power_watts : Q;
  efficiency_fps_per_watt : Q;
  temperature_celsius : Q;
  cores : Z;
  batch_size : Z
}.

(** [RealDataExtractor.extract_performance_metrics]: the rows of the data
    frame, in the order they are appended. *)
Definition extract_performance_metrics (detailed : Json.detailed_results)
    : list row :=
  flat_map (fun model_item : string * list (string * option (list Json.measurement)) =>
    let (model_name, model_data) := model_item in
    flat_map (fun config_item : string * option (list Json.measurement) =>
      let (config_name, config_data) := config_item in
      let measurements := Json.get config_data [] in
      flat_map (fun measurement =>
        if Json.get (Json.is_valid measurement) true then
          [{| model := model_name;
              configuration := config_name;
              timestamp := Json.timestamp measurement;
              latency_ms := Json.latency_ms measurement;
              throughput_fps := Json.throughput_fps measurement;
              power_watts := Json.power_consumption_watts measurement;
              efficiency_fps_per_watt := Json.efficiency_fps_per_watt measurement;
              temperature_celsius := Json.temperature_celsius measurement;
              cores := _extract_cores_from_config config_name;
              batch_size := _extract_batch_from_config config_name |}]
        else []) measurements) model_data) detailed.

(** pandas reductions of a column: [nan] on an empty column, no exception. *)
Definition series_max (xs : list Q) : npf :=
  match np_max xs with
  | inr x => Fin x
  | inl _ => NaN
  end.

Definition series_min (xs : list Q) : npf :=
  match np_min xs with
  | inr x => Fin x
  | inl _ => NaN
  end.

(** [x != 0] on a numpy scalar; [nan] differs from everything. *)
Definition np_nonzero (a : npf) : bool :=
  match a with
  | Fin x => negb (Qeq_bool x 0)
  | _ => true
  end.

(** *** _analyze_multicore_scaling *)

Record scaling_detail : Type := {
  detail_throughput_fps : npf;
  scaling_factor : npf;
  efficiency : npf;
  sample_count : Z
}.

Record multicore_scaling : Type := {
  cores_tested : list Z;
  scaling_details : list (string * scaling_detail);
  overall_scaling_efficiency : npf
}.

(** Truth value of [baseline_throughput]: [None] and [0.0] are false. *)
Definition truthy (baseline_throughput : option npf) : bool :=
  match baseline_throughput with
  | Some a => np_nonzero a
  | None => false
  end.

(** The body of the loop [for cores in [1, 2, 4]]; the state is
    [scaling_data] and [baseline_throughput]. *)
Definition scale_cores (resnet18_batch1 : list row)
    (st : list (string * scaling_detail) * option npf) (cores : Z)
    : list (string * scaling_detail) * option npf :=
  let (scaling_data, baseline_throughput) := st in
  let core_data := filter (fun r => Extract.cores r =? cores) resnet18_batch1 in
  if 0 <? len core_data then
    let mean_throughput := np_mean (map throughput_fps core_data) in
    let baseline_throughput :=
      if cores =? 1 then Some mean_throughput else baseline_throughput in
    let scaling_factor :=
      if cores =? 1 then Fin 1
      else if truthy baseline_throughput
           then np_div mean_throughput (Json.get baseline_throughput NaN)
           else Fin 0 in
    let efficiency :=
      if cores =? 1 then Fin 1 else np_div scaling_factor (of_int cores) in
    (dict_set String.eqb scaling_data (str_of_int cores ++ "_cores")
       {| detail_throughput_fps := mean_throughput;
          scaling_factor := scaling_factor;
          efficiency := efficiency;
          sample_count := len core_data |},
     baseline_throughput)
  else st.

Definition _analyze_multicore_scaling (measurements_df : list row)
    : multicore_scaling :=
  (* Filter ResNet-18, batch 1 for clean scaling analysis *)
  let resnet18_batch1 :=
    filter (fun r => String.eqb (model r) "resnet18-imagenet"
                     && (batch_size r =? 1))
           measurements_df in
  let scaling_data :=
    fst (fold_left (scale_cores resnet18_batch1) [1; 2; 4] ([], None)) in
  let overall_efficiency :=
    match dict_get String.eqb scaling_data "4_cores" with
    | Some detail => efficiency detail
    | None => Fin 0
    end in
  {| cores_tested := [1; 2; 3; 4];
     scaling_details := scaling_data;
     overall_scaling_efficiency := overall_efficiency |}.

(** *** calculate_real_statistics

    Of [overall_statistics] only the number of rows is kept, and the
    median of each metric is left out. *)

Section Statistics.
Context {scipy : SciPy}.

Record confidence_interval : Type := {
  lower : npf;
  upper : npf;
  margin_of_error : npf
}.

Record performance_stat : Type := {
  count : Z;
  mean : npf;
  std : npf;
  min : npf;
  max : npf;
  confidence_interval_95 : confidence_interval;
  coefficient_of_variation : npf
}.

Record peak_performance : Type := {
  peak_throughput_fps : npf;
  peak_efficiency_fps_per_watt : npf;
  min_latency_ms : npf;
  max_temperature_celsius : npf;
  power_range_min_watts : npf;
  power_range_max_watts : npf
}.

Record processed_data : Type := {
  total_measurements : Z;
  performance_statistics : list (string * performance_stat);
  peak : peak_performance;
  multicore_scaling_analysis : multicore_scaling
}.

(** The five columns the statistics loop runs over. *)
Definition metrics : list (string * (row -> Q)) :=
  [("latency_ms", latency_ms);
   ("throughput_fps", throughput_fps);
   ("power_watts", power_watts);
   ("efficiency_fps_per_watt", efficiency_fps_per_watt);
   ("temperature_celsius", temperature_celsius)].

(** The body of the loop [for metric in metrics]. *)
Definition metric_statistics (measurements_df : list row)
    (performance_stats : list (string * performance_stat))
    (metric : string * (row -> Q)) : list (string * performance_stat) :=
  let data := map (snd metric) measurements_df in
  if 1 <? len data then
    (* Calculate 95% confidence interval *)
    let confidence_level := 0.95%Q in
    let degrees_freedom := len data - 1 in
    let sample_mean := np_mean data in
    let sample_std := np_std data 1 in
    let t_critical :=
      stats_t_ppf ((1 + confidence_level) / 2)%Q degrees_freedom in
    let margin_of_error :=
      np_mul t_critical (np_div sample_std (np_sqrt (of_int (len data)))) in
    dict_set String.eqb performance_stats (fst metric)
      {| count := len data;
         mean := sample_mean;
         std := sample_std;
         min := series_min data;
         max := series_max data;
         confidence_interval_95 :=
           {| lower := np_sub sample_mean margin_of_error;
              upper := np_add sample_mean margin_of_error;
              margin_of_error := margin_of_error |};
         coefficient_of_variation :=
           if np_nonzero sample_mean then np_div sample_std sample_mean
           else Fin 0 |}
  else performance_stats.

(** An empty data frame has no columns: the first column access raises. *)
Definition calculate_real_statistics (measurements_df : list row)
    : result processed_data :=
  match measurements_df with
  | [] => raise KeyError
  | _ :: _ =>
      let performance_stats :=
        fold_left (metric_statistics measurements_df) metrics [] in
      let peak_performance :=
        {| peak_throughput_fps :=
             series_max (map throughput_fps measurements_df);
           peak_efficiency_fps_per_watt :=
             series_max (map efficiency_fps_per_watt measurements_df);
           min_latency_ms := series_min (map latency_ms measurements_df);
           max_temperature_celsius :=
             series_max (map temperature_celsius measurements_df);
           power_range_min_watts :=
             series_min (map power_watts measurements_df);
           power_range_max_watts :=
             series_max (map power_watts measurements_df) |} in
      let scaling_analysis := _analyze_multicore_scaling measurements_df in
      ret {| total_measurements := len measurements_df;
             performance_statistics := performance_stats;
             peak := peak_performance;
             multicore_scaling_analysis := scaling_analysis |}
  end.

End Statistics.

(** *** validate_measurements *)

Inductive failed_validation : Type :=
| mathematical_consistency (index : Z) (expected actual difference : Q)
| invalid_latency (index : Z) (value : Q)
| invalid_throughput (index : Z) (value : Q).

Record validation_checks : Type := {
  passed_mathematical_consistency : Z;
  passed_physical_validity : Z;
  passed_range_validation : Z;
  failed_validations : list failed_validation
}.

Record validation_percentages : Type := {
  pct_mathematical_consistency : Q;
  pct_physical_validity : Q;
  pct_range_validation : Q
}.

Definition in_range (lo x hi : Q) : bool := Qle_bool lo x && Qle_bool x hi.

(** The body of the loop over [measurements_df.iterrows()]. *)
Definition validate_row (vc : validation_checks) (item : Z * row)
    : validation_checks :=
  let (idx, row) := item in
  (* Mathematical consistency: efficiency = throughput / power *)
  let expected_efficiency :=
    if Qltb 0 (power_watts row)
    then fdiv (throughput_fps row) (power_watts row) else 0%Q in
  let efficiency_diff :=
    Qabs (fsub expected_efficiency (efficiency_fps_per_watt row)) in
  let tolerance :=
    py_max (py_float 0.001)
           (fmul (efficiency_fps_per_watt row) (py_float 0.001)) in
  let consistent := Qle_bool efficiency_diff tolerance in
  let failed1 :=
    if consistent then failed_validations vc
    else (failed_validations vc ++
          [mathematical_consistency idx expected_efficiency
             (efficiency_fps_per_watt row) efficiency_diff])%list in
  (* Physical validity checks *)
  let latency_ok := in_range 0.1 (latency_ms row) 1000 in
  let failed2 :=
    if latency_ok then failed1
    else (failed1 ++ [invalid_latency idx (latency_ms row)])%list in
  let throughput_ok := in_range 1 (throughput_fps row) 10000 in
  let failed3 :=
    if throughput_ok then failed2
    else (failed2 ++ [invalid_throughput idx (throughput_fps row)])%list in
  let physical_valid := latency_ok && throughput_ok in
  (* Range validation *)
  let in_ranges :=
    in_range 10 (power_watts row) 100
    && in_range 20 (temperature_celsius row) 100 in
  {| passed_mathematical_consistency :=
       passed_mathematical_consistency vc + (if consistent then 1 else 0);
     passed_physical_validity :=
       passed_physical_validity vc + (if physical_valid then 1 else 0);
     passed_range_validation :=
       passed_range_validation vc + (if in_ranges then 1 else 0);
     failed_validations := failed3 |}.

(** [(passed / total_measurements) * 100] on two [int]s. *)
Definition percentage (passed total : Z) : result Q :=
  ratio <- py_div (inject_Z passed) (inject_Z total) ;;
  ret (ratio * 100)%Q.

Definition validate_measurements (measurements_df : list row)
    : result (validation_checks * validation_percentages) :=
  let total_measurements := len measurements_df in
  let checks :=
    fold_left validate_row (enumerate measurements_df)
      {| passed_mathematical_consistency := 0;
         passed_physical_validity := 0;
         passed_range_validation := 0;
         failed_validations := [] |} in
  p1 <- percentage (passed_mathematical_consistency checks) total_measurements ;;
  p2 <- percentage (passed_physical_validity checks) total_measurements ;;
  p3 <- percentage (passed_range_validation checks) total_measurements ;;
  ret (checks,
       {| pct_mathematical_consistency := p1;
          pct_physical_validity := p2;
          pct_range_validation := p3 |}).

End Extract.

(** ** validate_calculations.py: the report *)

Module Report.
Import Json Validate.

Inductive data_quality : Set := EXCELLENT | GOOD | POOR.
Inductive statistical_validity : Set := HIGH | MEDIUM | LOW.
Inductive validation_status : Set := PASSED | FAILED.

Record original_dataset_info : Type := {
  total_measurements : Z;
  extracted_valid_measurements : Z;
  success_rate : Q
}.

Record overall_assessment : Type := {
  mathematical_consistency_rate : Q;
  quality : data_quality;
  validity : statistical_validity;
  status : validation_status
}.

(** The [overall_assessment] entry, from the success rate and the number of
    valid measurements. *)
Definition assess (math_success_rate : Q) (n : Z) : overall_assessment :=
  {| mathematical_consistency_rate := math_success_rate;
     quality :=
       if Qle_bool 95 math_success_rate then EXCELLENT
       else if Qle_bool 90 math_success_rate then GOOD
       else POOR;
     validity :=
       if 1000 <? n then HIGH else if 100 <? n then MEDIUM else LOW;
     status :=
       if Qle_bool 95 math_success_rate && (1000 <? n) then PASSED
       else FAILED |}.

Section WithSciPy.
Context {scipy : SciPy}.

Record report : Type := {
  dataset_info : original_dataset_info;
  mathematical_consistency : validation_results;
  reproduced_statistics : list (string * metric_stats);
  peak_configurations_found : peak_configurations;
  scaling_analysis : list (string * scaling_result);
  overall : overall_assessment
}.

(** [generate_validation_report]; [summary_total] is
    [summary_statistics.total_measurements] of the file, when the file has
    it.  The time stamp of the report and the file it is saved to are left
    out. *)
Definition generate_validation_report (summary_total : option Z)
    (data : benchmark) : result report :=
  let measurements := extract_all_measurements data in
  rate <- py_div (inject_Z (len measurements))
                 (inject_Z (get summary_total 1)) ;;
  let info :=
    {| total_measurements := get summary_total 0;
       extracted_valid_measurements := len measurements;
       success_rate := rate |} in
  consistency_results <- validate_mathematical_consistency measurements ;;
  stats_results <- reproduce_summary_statistics measurements ;;
  peak_results <- identify_peak_configurations measurements ;;
  let scaling_results := analyze_scaling_performance measurements in
  math_success_rate <- Validate.success_rate consistency_results ;;
  ret {| dataset_info := info;
         mathematical_consistency := consistency_results;
         reproduced_statistics := stats_results;
         peak_configurations_found := peak_results;
         scaling_analysis := scaling_results;
         overall := assess math_success_rate (len measurements) |}.

(** [main], once the file is loaded: whether the verdict is [PASSED]. *)
Definition main (summary_total : option Z) (data : benchmark) : result bool :=
  report <- generate_validation_report summary_total data ;;
  ret (match status (overall report) with
       | PASSED => true
       | FAILED => false
       end).

End WithSciPy.

End Report.

(** ** extract_real_data_only.py: the run *)

Module ExtractRun.
Import Extract.

Section WithSciPy.
Context {scipy : SciPy}.

(** The steps of [main] after the file is read: the data frame, its
    statistics, and the validation that [save_processed_data] runs.  Reading
    and writing the files is left out. *)
Definition run (data : Json.benchmark)
    : result (processed_data * (validation_checks * validation_percentages)) :=
  let measurements_df :=
    extract_performance_metrics (Json.get (Json.results data) []) in
  processed <- calculate_real_statistics measurements_df ;;
  validation_results <- validate_measurements measurements_df ;;
  ret (processed, validation_results).

(** [main]: [True] unless a step raised. *)
Definition main (data : Json.benchmark) : bool :=
  match run data with
  | inr _ => true
  | inl _ => false
  end.

End WithSciPy.

End ExtractRun.

(** ** The checks and formulas in the words of the specification *)

Module Spec.

(** The formulas of the efficiency check are evaluated on floats, as any
    implementation of them is. *)

(** [expected = throughput_fps / power_watts] (0 if power is 0). *)
Definition expected_efficiency (throughput power : Q) : Q :=
  if Qeq_bool power 0 then 0%Q else fdiv throughput power.

(** Pass if [|expected - efficiency| <= max(absoluteFloor, efficiency *
    relativeTolerance)]; a regime can skip the check when the efficiency
    is not positive. *)
Definition within_tolerance (absolute_floor relative_tolerance : Q)
    (skip_nonpositive : bool) (expected efficiency : Q) : bool :=
  (skip_nonpositive && Qle_bool efficiency 0)
  || Qle_bool (Qabs (fsub expected efficiency))
              (Qmax (py_float absolute_floor)
                    (fmul efficiency (py_float relative_tolerance))).

Definition efficiency_consistent (absolute_floor relative_tolerance : Q)
    (skip_nonpositive : bool) (throughput power efficiency : Q) : bool :=
  within_tolerance absolute_floor relative_tolerance skip_nonpositive
    (expected_efficiency throughput power) efficiency.

(** The strict regime: absolute floor 0.001, relative 0.1%. *)
Definition strict_regime : Q -> Q -> Q -> bool :=
  efficiency_consistent 0.001 0.001 false.

(** The looser regime: absolute floor 0.01, no relative term, skipped when
    the efficiency is not positive. *)
Definition loose_regime : Q -> Q -> Q -> bool :=
  efficiency_consistent 0.01 0 true.

(** The 95% interval: the mean, the Bessel-corrected standard deviation
    (one degree of freedom subtracted), [margin = t(0.975, n-1) * std/sqrt(n)]
    and [mean - margin, mean + margin]. *)
Section Interval.
Context {scipy : SciPy}.

Definition mean (data : list Q) : Q :=
  (Qsum data / inject_Z (len data))%Q.

Definition bessel_std (data : list Q) : Q :=
  sqrtQ (Qsum (map (fun x => Qsquare (x - mean data)) data)
         / inject_Z (len data - 1))%Q.

Definition margin (data : list Q) : Q :=
  (t_quantile 0.975 (len data - 1)
   * (bessel_std data / sqrtQ (inject_Z (len data))))%Q.

Definition interval (data : list Q) : Q * Q :=
  ((mean data - margin data)%Q, (mean data + margin data)%Q).

End Interval.

End Spec.

(** ** A computable stand-in for numpy's root and scipy's quantile *)

Module Reference.

(** Heron's iteration for the square root, from 1. *)
Fixpoint heron (steps : nat) (x y : Q) : Q :=
  match steps with
  | O => y
  | S steps' => heron steps' x (Qred ((y + x / y) / 2))
  end.

Definition sqrt_approx (x : Q) : Q :=
  if Qle_bool x 0 then 0%Q else heron 6 x 1.

(** The two-sided 95% quantiles of the first degrees of freedom, to three
    decimals, and the normal quantile beyond. *)
Definition t_table (p : Q) (df : Z) : Q :=
  if Qeq_bool p 0.975 then
    match df with
    | 1 => 12.706%Q
    | 2 => 4.303%Q
    | 3 => 3.182%Q
    | 4 => 2.776%Q
    | 5 => 2.571%Q
    | _ => 1.960%Q
    end
  else 0%Q.

Lemma heron_positive (steps : nat) (x y : Q) :
  (0 < x)%Q -> (0 < y)%Q -> (0 < heron steps x y)%Q.
Proof.
  revert y; induction steps as [|steps IH]; intros y X Y; [exact Y|].
  cbn [heron]. apply IH; [exact X|].
  rewrite Qred_correct.
  assert (D : (0 < x / y)%Q) by (apply Qlt_shift_div_l; [exact Y|lra]).
  apply Qlt_shift_div_l; lra.
Qed.

Lemma sqrt_approx_nonzero (x : Q) : (0 < x)%Q -> ~ (sqrt_approx x == 0)%Q.
Proof.
  intros X. unfold sqrt_approx.
  destruct (Qle_bool x 0) eqn:E.
  - apply Qle_bool_iff in E. lra.
  - pose proof (heron_positive 6 x 1 X eq_refl). lra.
Qed.

Lemma t_table_ext (p q : Q) (df : Z) :
  (p == q)%Q -> t_table p df = t_table q df.
Proof. intros E. unfold t_table. now rewrite E. Qed.

Definition scipy : SciPy :=
  {| sqrtQ := sqrt_approx;
     sqrtQ_nonzero := sqrt_approx_nonzero;
     t_quantile := t_table;
     t_quantile_ext := t_table_ext |}.

End Reference.

(** ** Sample inputs *)

Module Samples.
Import Json.

Definition sample (latency throughput power efficiency temperature : Q)
    (model : option string) (cores batch : option Z) : measurement :=
  {| timestamp := "2025-08-03T19:11:18";
     latency_ms := latency;
     throughput_fps := throughput;
     power_consumption_watts := power;
     efficiency_fps_per_watt := efficiency;
     temperature_celsius := temperature;
     is_valid := None;
     model_name := model;
     core_count := cores;
     batch_size := batch |}.

(** 100 fps at 10 W reported as 5 fps/W, and 1 ms of latency for 100 fps
    at batch size 1: both consistency checks fail. *)
Definition doubly_failing : measurement :=
  sample 1 100 10 5 40 None None None.

(** A row of the data frame with every metric in its plausible range and a
    consistent efficiency, but for the given power and temperature. *)
Definition row_with (power temperature : Q) : Extract.row :=
  {| Extract.model := "resnet18-imagenet";
     Extract.configuration := "cores1_batch1";
     Extract.timestamp := "2025-08-03T19:11:18";
     Extract.latency_ms := 10;
     Extract.throughput_fps := 100;
     Extract.power_watts := power;
     Extract.efficiency_fps_per_watt := (100 / power)%Q;
     Extract.temperature_celsius := temperature;
     Extract.cores := 1;
     Extract.batch_size := 1 |}.

(** Records at the boundary of the efficiency tolerance: 5.1 fps at 10 W
    reported as 0.5 fps/W, and 9.99 fps at 10 W reported as 1 fps/W; [5.1]
    and [9.99] are the floats that Python reads. *)
Definition boundary_record : measurement :=
  sample 10 (py_float 5.1) 10 0.5 40 None None None.

Definition boundary_row : Extract.row :=
  {| Extract.model := "resnet18-imagenet";
     Extract.configuration := "cores1_batch1";
     Extract.timestamp := "2025-08-03T19:11:18";
     Extract.latency_ms := 10;
     Extract.throughput_fps := py_float 9.99;
     Extract.power_watts := 10;
     Extract.efficiency_fps_per_watt := 1;
     Extract.temperature_celsius := 40;
     Extract.cores := 1;
     Extract.batch_size := 1 |}.


(** Records with a negative power: -10 fps at -10 W reported as 1 fps/W,
    and 10 fps at -10 W reported as -1 fps/W. *)
Definition negated_record : measurement :=
  sample 10 (-10) (-10) 1 40 None None None.

Definition negative_power_row : Extract.row :=
  {| Extract.model := "resnet18-imagenet";
     Extract.configuration := "cores1_batch1";
     Extract.timestamp := "2025-08-03T19:11:18";
     Extract.latency_ms := 10;
     Extract.throughput_fps := 10;
     Extract.power_watts := -10;
     Extract.efficiency_fps_per_watt := -1;
     Extract.temperature_celsius := 40;
     Extract.cores := 1;
     Extract.batch_size := 1 |}.

(** A benchmark with one model and one configuration, whose only
    measurement is loaded as the row [row_with 20 40]. *)
Definition one_configuration : detailed_results :=
  [("resnet18-imagenet",
    [("cores1_batch1", Some [sample 10 100 20 (100 / 20) 40 None None None])])].

(** Two measurements, and two rows, that differ in every metric. *)
Definition two_measurements : list measurement :=
  [sample 10 100 20 5 40 None None None;
   sample 8 125 25 5 44 None None None].

Definition two_rows : list Extract.row :=
  [row_with 20 40; row_with 25 44].

(** One model at batch size 1: 100 fps on one core, 350 fps on four. *)
Definition scaling_pair : list measurement :=
  [sample 10 100 20 5 40 (Some "resnet18") (Some 1) (Some 1);
   sample 10 350 25 14 45 (Some "resnet18") (Some 4) (Some 1)].

(** A row of the ResNet-18, batch 1 filter of the extraction path. *)
Definition scaling_row (cores : Z) (throughput : Q) : Extract.row :=
  {| Extract.model := "resnet18-imagenet";
     Extract.configuration := "cores" ++ str_of_int cores ++ "_batch1";
     Extract.timestamp := "2025-08-03T19:11:18";
     Extract.latency_ms := 10;
     Extract.throughput_fps := throughput;
     Extract.power_watts := 20;
     Extract.efficiency_fps_per_watt := (throughput / 20)%Q;
     Extract.temperature_celsius := 40;
     Extract.cores := cores;
     Extract.batch_size := 1 |}.

(** Three measurements of one configuration: throughput 100, 150, 120 and
    efficiency 5, 4, 6. *)
Definition slow_record : measurement := sample 10 100 20 5 40 None None None.
Definition fast_record : measurement := sample 10 150 20 4 40 None None None.
Definition frugal_record : measurement := sample 10 120 20 6 40 None None None.

Definition three_records : list measurement :=
  [slow_record; fast_record; frugal_record].

(** A measurement whose reported efficiency is 0. *)
Definition idle_record : measurement := sample 10 100 20 0 40 None None None.

(** A benchmark file with that single measurement. *)
Definition small_benchmark : benchmark :=
  {| reported_total_measurements := 1; results := Some one_configuration |}.

(** Rows of another model at batch size 1: 100 fps on one core, 350 fps on
    four. *)
Definition other_model_row (cores : Z) (throughput : Q) : Extract.row :=
  {| Extract.model := "resnet50-imagenet";
     Extract.configuration := "cores" ++ str_of_int cores ++ "_batch1";
     Extract.timestamp := "2025-08-03T19:11:18";
     Extract.latency_ms := 10;
     Extract.throughput_fps := throughput;
     Extract.power_watts := 20;
     Extract.efficiency_fps_per_watt := (throughput / 20)%Q;
     Extract.temperature_celsius := 40;
     Extract.cores := cores;
     Extract.batch_size := 1 |}.

Definition other_model_rows : list Extract.row :=
  [other_model_row 1 100; other_model_row 4 350].

(** Rows of the ResNet-18, batch 1 filter: no throughput on one core, 350
    fps on four. *)
Definition stalled_rows : list Extract.row :=
  [scaling_row 1 0; scaling_row 4 350].

(** A benchmark whose only configuration is labelled with batch size 16. *)
Definition batch16_configuration : detailed_results :=
  [("resnet18-imagenet",
    [("cores4_batch16", Some [sample 10 100 20 5 40 None None None])])].

(** One model at batch size 1 whose single 1-core measurement reports a
    throughput of 0, beside a 4-core measurement at 350 fps. *)
Definition stalled_pair : list measurement :=
  [sample 10 0 20 0 40 (Some "resnet18") (Some 1) (Some 1);
   sample 10 350 25 14 45 (Some "resnet18") (Some 4) (Some 1)].

End Samples.

(** * Properties *)

Section StringFacts.

Lemma prefix_app_l (a b s : string) :
  prefix (a ++ b) s = true -> prefix a s = true.
Proof.
  revert s; induction a as [|c a IH]; intros s H.
  - destruct s; reflexivity.
  - destruct s as [|d s]; simpl in *; [discriminate|].
    destruct (ascii_dec c d); [auto|discriminate].
Qed.

Lemma str_in_app_l (a b s : string) :
  str_in (a ++ b) s = true -> str_in a s = true.
Proof.
  induction s as [|d s IH]; cbn [str_in]; intros H.
  - exact (prefix_app_l a b "" H).
  - apply orb_true_iff in H; apply orb_true_iff.
    destruct H as [H|H]; [left; exact (prefix_app_l a b _ H)|right; auto].
Qed.

End StringFacts.

(** ** Rounding *)

Module FloatFacts.

Lemma b64_comp (x y : Q) : (x == y)%Q -> b64 x = b64 y.
Proof. intros E. unfold b64. now rewrite (Qred_complete x y E). Qed.

Lemma b64_zero (x : Q) : (x == 0)%Q -> b64 x = 0%Q.
Proof. intros E. now rewrite (b64_comp x 0 E). Qed.

Lemma nearest_even_nonneg (n d : Z) : 0 <= n -> 0 < d -> 0 <= nearest_even n d.
Proof.
  intros N D. unfold nearest_even.
  pose proof (Z.div_pos n d N D).
  destruct (2 * (n mod d) ?= d); [destruct (Z.even (n / d))| |]; lia.
Qed.

Lemma round_pos_nonneg (n d : Z) : 0 < n -> 0 < d -> (0 <= round_pos n d)%Q.
Proof.
  intros N D. unfold round_pos.
  destruct (0 <=? 52 - binade n d) eqn:S.
  - apply Z.leb_le in S.
    assert (P : 0 < 2 ^ (52 - binade n d)) by (apply Z.pow_pos_nonneg; lia).
    unfold Qle. cbn [Qnum Qden]. rewrite Z.mul_0_l, Z.mul_1_r.
    apply nearest_even_nonneg; nia.
  - apply Z.leb_gt in S.
    assert (P : 0 < 2 ^ (- (52 - binade n d)))
      by (apply Z.pow_pos_nonneg; lia).
    change 0%Q with (inject_Z 0). rewrite <- Zle_Qle.
    apply Z.mul_nonneg_nonneg; [|lia].
    apply nearest_even_nonneg; nia.
Qed.

(** Rounding keeps the sign. *)
Lemma b64_nonneg (x : Q) : (0 <= x)%Q -> (0 <= b64 x)%Q.
Proof.
  intros P. unfold b64.
  assert (R : (0 <= Qred x)%Q) by now rewrite Qred_correct.
  destruct (Qred x) as [n d]. cbn [Qnum Qden].
  destruct n as [|n|n].
  - apply Qle_refl.
  - rewrite Qred_correct. apply round_pos_nonneg; reflexivity.
  - exfalso. unfold Qle in R. cbn in R. lia.
Qed.

(** Rounding is odd: [b - a] rounds to the opposite of [a - b]. *)
Lemma b64_opp (x : Q) : (b64 (- x) == - b64 x)%Q.
Proof.
  unfold b64. rewrite Qred_opp.
  destruct (Qred x) as [n d]. cbn [Qnum Qden Qopp].
  destruct n as [|n|n]; cbn [Z.opp].
  - reflexivity.
  - rewrite !Qred_correct. reflexivity.
  - rewrite !Qred_correct. now rewrite Qopp_opp.
Qed.

Lemma fsub_swap (a b : Q) : (Qabs (fsub a b) == Qabs (fsub b a))%Q.
Proof.
  unfold fsub.
  rewrite (b64_comp (b - a) (- (a - b))) by ring.
  now rewrite b64_opp, Qabs_opp.
Qed.

Lemma fsub_same (a b : Q) : (a == b)%Q -> fsub a b = 0%Q.
Proof. intros E. apply b64_zero. rewrite E. ring. Qed.

Lemma fmul_zero (a : Q) : fmul a (py_float 0) = 0%Q.
Proof. apply b64_zero. change (py_float 0) with 0%Q. ring. Qed.

Lemma fmul_nonneg (a b : Q) : (0 <= a)%Q -> (0 <= b)%Q -> (0 <= fmul a b)%Q.
Proof. intros A B. apply b64_nonneg. now apply Qmult_le_0_compat. Qed.

(** The literals of the two checks are the doubles that Python reads. *)
Example literal_one_percent :
  py_float 0.01 = (5764607523034235 # 576460752303423488)%Q.
Proof. vm_compute. reflexivity. Qed.

Example literal_five_percent :
  py_float 0.05 = (3602879701896397 # 72057594037927936)%Q.
Proof. vm_compute. reflexivity. Qed.

Example literal_one_per_mille :
  py_float 0.001 = (1152921504606847 # 1152921504606846976)%Q.
Proof. vm_compute. reflexivity. Qed.

(** Rounding to nearest: one third, a negative number, a large and a small
    one; ties go to the even significand. *)
Example rounded_values :
  b64 (1 # 3) = (6004799503160661 # 18014398509481984)%Q
  /\ b64 (- 0.1) = (- 3602879701896397 # 36028797018963968)%Q
  /\ b64 (inject_Z (10 ^ 30)) = inject_Z 1000000000000000019884624838656
  /\ b64 (1 # 1000000000000000000000000000000)
     = (178405961588245 # 178405961588244985132285746181186892047843328)%Q
  /\ b64 (inject_Z (2 ^ 53 + 1)) = inject_Z (2 ^ 53)
  /\ b64 (inject_Z (2 ^ 53 + 3)) = inject_Z (2 ^ 53 + 4).
Proof. repeat split; vm_compute; reflexivity. Qed.

(** The quotients behind the boundary records: [9.99 / 10], [5.1 / 10] and
    [19 / 0.15625] as Python computes them. *)
Example rounded_quotients :
  fdiv (py_float 9.99) 10 = (8998192055486251 # 9007199254740992)%Q
  /\ fdiv (py_float 5.1) 10 = (2296835809958953 # 4503599627370496)%Q
  /\ fdiv 19 (fdiv 156.25 1000) = (4278419646001971 # 35184372088832)%Q.
Proof. repeat split; vm_compute; reflexivity. Qed.

(** [1 / (10 / 1000)] is [100.0], although [10 / 1000] is not [0.01]. *)
Example quotient_of_rounded_quotient :
  fdiv 10 1000 <> 0.01%Q /\ fdiv 1 (fdiv 10 1000) = 100%Q.
Proof. split; [vm_compute; discriminate|vm_compute; reflexivity]. Qed.

End FloatFacts.

(** ** Labels *)

Module ExtractFacts.
Import Extract.

Lemma batch16_has_batch1 (s : string) :
  str_in "batch16" s = true -> str_in "batch1" s = true.
Proof. apply (str_in_app_l "batch1" "6"). Qed.

Lemma extract_cores_range (s : string) :
  In (_extract_cores_from_config s) [1; 2; 4].
Proof.
  unfold _extract_cores_from_config.
  repeat match goal with |- context [if ?b then _ else _] => destruct b end;
    simpl; auto.
Qed.

(** A label with the marker [cores4] and neither [cores1] nor [cores2]
    gives 4 cores. *)
Lemma extract_cores4 (s : string) :
  str_in "cores4" s = true ->
  str_in "cores1" s = false -> str_in "cores2" s = false ->
  _extract_cores_from_config s = 4.
Proof.
  intros H4 H1 H2; unfold _extract_cores_from_config.
  now rewrite H1, H2, H4.
Qed.

(** A label without any marker falls back to one core and batch size 1. *)
Lemma extract_defaults (s : string) :
  str_in "cores1" s = false -> str_in "cores2" s = false ->
  str_in "cores4" s = false ->
  str_in "batch1" s = false -> str_in "batch4" s = false ->
  str_in "batch8" s = false -> str_in "batch16" s = false ->
  _extract_cores_from_config s = 1 /\ _extract_batch_from_config s = 1.
Proof.
  intros C1 C2 C4 B1 B4 B8 B16.
  unfold _extract_cores_from_config, _extract_batch_from_config.
  now rewrite C1, C2, C4, B1, B4, B8, B16.
Qed.

(** Every row the loader builds has its cores and batch size read from
    its configuration label. *)
Lemma loader_reads_labels (detailed : Json.detailed_results) (r : row) :
  In r (extract_performance_metrics detailed) ->
  cores r = _extract_cores_from_config (configuration r)
  /\ batch_size r = _extract_batch_from_config (configuration r).
Proof.
  unfold extract_performance_metrics. intros I.
  apply in_flat_map in I. destruct I as [[model_name model_data] [_ I]].
  apply in_flat_map in I. destruct I as [[config_name config_data] [_ I]].
  apply in_flat_map in I. destruct I as [measurement [_ I]].
  destruct (Json.get (Json.is_valid measurement) true); cbn [In] in I;
    [|destruct I].
  destruct I as [<-|[]]. split; reflexivity.
Qed.

(** C9.  The batch-size parser tests the marker [batch1] first, and every
    label that contains [batch16] contains [batch1]: the label
    [resnet18_cores4_batch16] is read as batch size 1 (its [cores4] as 4
    cores), no label at all is read as batch size 16, and so no row of the
    loader has batch size 16. *)
Theorem C9_batch16_is_read_as_batch1 :
  _extract_batch_from_config "resnet18_cores4_batch16" = 1
  /\ _extract_cores_from_config "resnet18_cores4_batch16" = 4
  /\ (forall s : string, In (_extract_batch_from_config s) [1; 4; 8])
  /\ (forall (detailed : Json.detailed_results) (r : row),
        In r (extract_performance_metrics detailed) ->
        In (batch_size r) [1; 4; 8]).
Proof.
  assert (R : forall s : string, In (_extract_batch_from_config s) [1; 4; 8]).
  { intros s; unfold _extract_batch_from_config.
    destruct (str_in "batch1" s) eqn:B1; [simpl; auto|].
    destruct (str_in "batch4" s); [simpl; auto|].
    destruct (str_in "batch8" s); [simpl; auto|].
    destruct (str_in "batch16" s) eqn:B16; [|simpl; auto].
    apply batch16_has_batch1 in B16; congruence. }
  split; [reflexivity|]. split; [reflexivity|]. split; [exact R|].
  intros detailed r I.
  destruct (loader_reads_labels detailed r I) as [_ ->]. apply R.
Qed.

Lemma C9_batch16_is_read_as_batch1_witness :
  In (Samples.row_with 20 40)
     (extract_performance_metrics Samples.one_configuration)
  /\ In (batch_size (Samples.row_with 20 40)) [1; 4; 8].
Proof.
  assert (I : In (Samples.row_with 20 40)
                 (extract_performance_metrics Samples.one_configuration))
    by (left; reflexivity).
  split; [exact I|].
  exact (proj2 (proj2 (proj2 C9_batch16_is_read_as_batch1))
           Samples.one_configuration (Samples.row_with 20 40) I).
Defined.

End ExtractFacts.

(** ** Arithmetic and list facts *)

Lemma Qltb_lt (x y : Q) : Qltb x y = true <-> (x < y)%Q.
Proof.
  unfold Qltb; rewrite negb_true_iff.
  split; intros H.
  - apply Qnot_le_lt; intros L; apply Qle_bool_iff in L; congruence.
  - destruct (Qle_bool y x) eqn:E; [|reflexivity].
    apply Qle_bool_iff in E; apply Qlt_not_le in H; contradiction.
Qed.

Lemma Qltb_ge (x y : Q) : Qltb x y = false <-> (y <= x)%Q.
Proof.
  unfold Qltb; rewrite negb_false_iff; apply Qle_bool_iff.
Qed.

Lemma len_app {A : Type} (l l' : list A) : len (l ++ l') = len l + len l'.
Proof. unfold len; rewrite length_app; lia. Qed.

Lemma len_cons {A : Type} (x : A) (l : list A) : len (x :: l) = 1 + len l.
Proof. unfold len; simpl List.length; lia. Qed.

Lemma len_nonneg {A : Type} (l : list A) : 0 <= len l.
Proof. unfold len; lia. Qed.

Lemma len_enumerate_from {A : Type} (l : list A) (i : Z) :
  len (enumerate_from i l) = len l.
Proof.
  revert i; induction l as [|x l IH]; intros i; [reflexivity|].
  cbn [enumerate_from]; rewrite !len_cons, IH; reflexivity.
Qed.

(** The pairs of [enumerate_from i l] are the positions of [l], shifted. *)
Lemma in_enumerate_from {A : Type} (l : list A) (i j : Z) (x : A) :
  In (j, x) (enumerate_from i l) <->
  i <= j /\ nth_error l (Z.to_nat (j - i)) = Some x.
Proof.
  revert i; induction l as [|y l IH]; intros i; cbn [enumerate_from In].
  - split; [tauto|]. intros [_ H]. now destruct (Z.to_nat (j - i)).
  - rewrite IH; split.
    + intros [E|[L N]].
      * inversion E; subst; split; [lia|].
        now replace (j - j) with 0 by lia.
      * split; [lia|].
        replace (Z.to_nat (j - i)) with (S (Z.to_nat (j - (i + 1)))) by lia.
        exact N.
    + intros [L N].
      destruct (Z.eq_dec i j) as [->|Ne].
      * left; replace (j - j) with 0 in N by lia; simpl in N; congruence.
      * right; split; [lia|].
        replace (Z.to_nat (j - i)) with (S (Z.to_nat (j - (i + 1)))) in N by lia.
        exact N.
Qed.

Lemma len_enumerate {A : Type} (l : list A) : len (enumerate l) = len l.
Proof. apply len_enumerate_from. Qed.

Lemma in_enumerate {A : Type} (l : list A) (n : nat) (x : A) :
  In (Z.of_nat n, x) (enumerate l) <-> nth_error l n = Some x.
Proof.
  unfold enumerate; rewrite in_enumerate_from.
  replace (Z.to_nat (Z.of_nat n - 0)) with n by lia.
  split; [tauto|intros; split; [lia|assumption]].
Qed.

Lemma existsb_flat_map {A B : Type} (p : B -> bool) (f : A -> list B)
    (l : list A) :
  existsb p (flat_map f l) = existsb (fun x => existsb p (f x)) l.
Proof.
  induction l as [|x l IH]; [reflexivity|].
  cbn [flat_map existsb]; now rewrite existsb_app, IH.
Qed.

(** A test that can only hold at position [n] is decided at position [n]. *)
Lemma existsb_enumerate_at {A : Type} (g : Z -> A -> bool) (l : list A)
    (n : nat) (x : A) :
  nth_error l n = Some x ->
  (forall j y, j <> Z.of_nat n -> g j y = false) ->
  existsb (fun item => g (fst item) (snd item)) (enumerate l)
  = g (Z.of_nat n) x.
Proof.
  intros N Off. apply eq_true_iff_eq. rewrite existsb_exists. split.
  - intros [[j y] [I G]]; cbn [fst snd] in G.
    destruct (Z.eq_dec j (Z.of_nat n)) as [->|Ne].
    + apply in_enumerate in I. congruence.
    + rewrite (Off j y Ne) in G; discriminate.
  - intros G; exists (Z.of_nat n, x); split; [now apply in_enumerate|exact G].
Qed.

Lemma count_enumerate_from {A : Type} (p : A -> bool) (l : list A) (i : Z) :
  len (filter (fun item : Z * A => p (snd item)) (enumerate_from i l))
  = len (filter p l).
Proof.
  revert i; induction l as [|x l IH]; intros i; [reflexivity|].
  cbn [enumerate_from filter snd]; destruct (p x);
    rewrite ?len_cons, IH; reflexivity.
Qed.

(** ** The mathematical-consistency validation *)

Module ValidateFacts.
Import Json Validate Samples.

(** What one measurement adds to [failed_measurements]. *)
Definition failures_of (i : Z) (m : measurement) : list failed_measurement :=
  let dummy :=
    {| total_measurements := 0; consistency_checks := 0;
       consistency_failures := 0; failed_measurements := [] |} in
  failed_measurements (check_measurement dummy (i, m)).

Lemma check_measurement_checks vr i m :
  consistency_checks (check_measurement vr (i, m)) = consistency_checks vr + 1.
Proof.
  unfold check_measurement.
  repeat match goal with
         | |- context [if ?b then _ else _] => destruct b
         end; reflexivity.
Qed.

Lemma check_measurement_total vr i m :
  total_measurements (check_measurement vr (i, m)) = total_measurements vr.
Proof.
  unfold check_measurement.
  repeat match goal with
         | |- context [if ?b then _ else _] => destruct b
         end; reflexivity.
Qed.

Lemma check_measurement_failed vr i m :
  failed_measurements (check_measurement vr (i, m))
  = (failed_measurements vr ++ failures_of i m)%list.
Proof.
  unfold failures_of, check_measurement.
  repeat match goal with
         | |- context [if ?b then _ else _] => destruct b
         end; cbn; rewrite <- ?app_assoc, ?app_nil_r; reflexivity.
Qed.

Lemma check_measurement_failures vr i m :
  consistency_failures (check_measurement vr (i, m))
  = consistency_failures vr + len (failures_of i m).
Proof.
  unfold failures_of, check_measurement.
  repeat match goal with
         | |- context [if ?b then _ else _] => destruct b
         end; cbn; lia.
Qed.

Lemma failures_of_at_most_two i m : 0 <= len (failures_of i m) <= 2.
Proof.
  unfold failures_of, check_measurement.
  repeat match goal with
         | |- context [if ?b then _ else _] => destruct b
         end; cbn; lia.
Qed.

(** The loop, as a whole. *)
Lemma loop_checks l vr :
  consistency_checks (fold_left check_measurement l vr)
  = consistency_checks vr + len l.
Proof.
  revert vr; induction l as [|[i m] l IH]; intros vr; cbn [fold_left].
  - unfold len; simpl; lia.
  - rewrite IH, check_measurement_checks, len_cons; lia.
Qed.

Lemma loop_failed l vr :
  failed_measurements (fold_left check_measurement l vr)
  = (failed_measurements vr
     ++ flat_map (fun item => failures_of (fst item) (snd item)) l)%list.
Proof.
  revert vr; induction l as [|[i m] l IH]; intros vr; cbn [fold_left flat_map].
  - now rewrite app_nil_r.
  - rewrite IH, check_measurement_failed, <- app_assoc; reflexivity.
Qed.

Lemma loop_failures l vr :
  consistency_failures (fold_left check_measurement l vr)
  = consistency_failures vr
    + len (flat_map (fun item => failures_of (fst item) (snd item)) l).
Proof.
  revert vr; induction l as [|[i m] l IH]; intros vr; cbn [fold_left flat_map].
  - unfold len; simpl; lia.
  - rewrite IH, check_measurement_failures, len_app; cbn [fst snd]; lia.
Qed.

Lemma loop_failures_bound (l : list (Z * measurement)) :
  0 <= len (flat_map (fun item => failures_of (fst item) (snd item)) l)
    <= 2 * len l.
Proof.
  induction l as [|[i m] l IH]; cbn [flat_map].
  - unfold len; simpl; lia.
  - rewrite len_app, len_cons; cbn [fst snd].
    pose proof (failures_of_at_most_two i m); lia.
Qed.

(** The loop result of a run. *)
Definition loop_result (measurements : list measurement) : validation_results :=
  fold_left check_measurement (enumerate measurements)
    {| total_measurements := len measurements;
       consistency_checks := 0;
       consistency_failures := 0;
       failed_measurements := [] |}.

Lemma validate_nonempty m ms :
  validate_mathematical_consistency (m :: ms) = inr (loop_result (m :: ms)).
Proof.
  unfold validate_mathematical_consistency; fold (loop_result (m :: ms)).
  unfold success_rate, py_div.
  assert (C : consistency_checks (loop_result (m :: ms)) = len (m :: ms)).
  { unfold loop_result; rewrite loop_checks; cbn [consistency_checks].
    rewrite len_enumerate; lia. }
  rewrite C.
  destruct (Qeq_bool (inject_Z (len (m :: ms))) 0) eqn:E; [|reflexivity].
  apply Qeq_bool_eq in E. rewrite len_cons in E.
  pose proof (len_nonneg ms) as P.
  change 0%Q with (inject_Z 0) in E; rewrite inject_Z_injective in E; lia.
Qed.

(** C8.  With no valid record the success-rate division is a division of
    [int] 0 by [int] 0: the consistency validation raises
    [ZeroDivisionError], and so does [validate_measurements] of the
    extraction path on its percentages; the statistics raise as well. *)
Theorem C8_empty_dataset_raises :
  validate_mathematical_consistency [] = inl ZeroDivisionError
  /\ Extract.validate_measurements [] = inl ZeroDivisionError
  /\ (forall scipy : SciPy,
        reproduce_summary_statistics [] = inl ValueError
        /\ Extract.calculate_real_statistics [] = inl KeyError).
Proof.
  split; [reflexivity|split; [reflexivity|]].
  intros scipy; split; reflexivity.
Qed.

(** C10.  Each measurement adds exactly one to [consistency_checks] and
    between zero and two entries to the failures; a run over a non-empty
    list returns with as many checks as measurements; and on the single
    measurement [doubly_failing] there are two failures for one check, so
    the success rate is -100. *)
Theorem C10_failures_can_exceed_checks :
  (forall vr i m,
     consistency_checks (check_measurement vr (i, m))
     = consistency_checks vr + 1
     /\ consistency_failures vr
        <= consistency_failures (check_measurement vr (i, m))
        <= consistency_failures vr + 2)
  /\ (forall m ms, exists vr,
        validate_mathematical_consistency (m :: ms) = inr vr
        /\ consistency_checks vr = len (m :: ms)
        /\ consistency_failures vr = len (failed_measurements vr)
        /\ consistency_failures vr <= 2 * consistency_checks vr)
  /\ (exists vr rate,
        validate_mathematical_consistency [doubly_failing] = inr vr
        /\ consistency_checks vr = 1
        /\ consistency_failures vr = 2
        /\ len (failed_measurements vr) = 2
        /\ success_rate vr = inr rate
        /\ (rate == -100)%Q /\ (rate < 0)%Q).
Proof.
  split; [|split].
  - intros vr i m; split; [apply check_measurement_checks|].
    rewrite check_measurement_failures.
    pose proof (failures_of_at_most_two i m); lia.
  - intros m ms; exists (loop_result (m :: ms)).
    split; [apply validate_nonempty|].
    unfold loop_result.
    rewrite loop_checks, loop_failures, loop_failed.
    cbn [consistency_checks consistency_failures failed_measurements app].
    pose proof (loop_failures_bound (enumerate (m :: ms))) as B.
    rewrite len_enumerate in *.
    repeat split; lia.
  - eexists; eexists.
    split; [vm_compute; reflexivity|].
    split; [reflexivity|]. split; [reflexivity|]. split; [reflexivity|].
    split; [vm_compute; reflexivity|].
    split; [reflexivity|reflexivity].
Qed.

(** The failure entries of the efficiency check at position [i]. *)
Definition is_efficiency_at (i : Z) (f : failed_measurement) : bool :=
  (measurement_index f =? i)
  && match test f with
     | efficiency_calculation => true
     | throughput_calculation => false
     end.

Definition efficiency_flagged (vr : validation_results) (i : Z) : bool :=
  existsb (is_efficiency_at i) (failed_measurements vr).

(** [expected_efficiency] as the loop computes it. *)
Definition expected_efficiency_of (m : measurement) : Q :=
  if Qltb 0 (power_consumption_watts m)
  then fdiv (throughput_fps m) (power_consumption_watts m) else 0%Q.

Ltac split_ifs :=
  repeat match goal with
         | |- context [if ?b then _ else _] => destruct b
         end.

Definition efficiency_failure (i : Z) (m : measurement) : failed_measurement :=
  {| measurement_index := i;
     test := efficiency_calculation;
     expected := expected_efficiency_of m;
     actual := efficiency_fps_per_watt m;
     error :=
       Qabs (fsub (efficiency_fps_per_watt m) (expected_efficiency_of m)) |}.

Definition efficiency_fails (m : measurement) : bool :=
  Qltb (py_float 0.01)
       (Qabs (fsub (efficiency_fps_per_watt m) (expected_efficiency_of m)))
  && Qltb 0 (efficiency_fps_per_watt m).

Lemma failures_of_split i m :
  exists rest,
    failures_of i m
    = ((if efficiency_fails m then [efficiency_failure i m] else []) ++ rest)%list
    /\ forall f, In f rest -> test f = throughput_calculation.
Proof.
  unfold failures_of, check_measurement, efficiency_fails, efficiency_failure,
    expected_efficiency_of.
  destruct (Qltb (py_float 0.01) _ && Qltb 0 (efficiency_fps_per_watt m));
    split_ifs; cbn [failed_measurements record_failure count_check app];
    (eexists; split; [reflexivity|]);
    cbn [In]; intros f I;
    repeat match goal with
           | H : _ \/ _ |- _ => destruct H
           | H : False |- _ => destruct H
           end; subst; reflexivity.
Qed.

Lemma throughput_entries_not_efficiency i (rest : list failed_measurement) :
  (forall f, In f rest -> test f = throughput_calculation) ->
  existsb (is_efficiency_at i) rest = false.
Proof.
  intros T. destruct (existsb (is_efficiency_at i) rest) eqn:E; [|reflexivity].
  apply existsb_exists in E. destruct E as [f [I P]].
  unfold is_efficiency_at in P. rewrite (T f I) in P.
  now rewrite andb_false_r in P.
Qed.

Lemma efficiency_off i j m :
  i <> j -> existsb (is_efficiency_at i) (failures_of j m) = false.
Proof.
  intros Ne. assert (E : (j =? i) = false) by (apply Z.eqb_neq; congruence).
  destruct (failures_of_split j m) as [rest [-> T]].
  rewrite existsb_app, (throughput_entries_not_efficiency i rest T).
  destruct (efficiency_fails m); [|reflexivity].
  unfold is_efficiency_at; cbn; now rewrite E.
Qed.

Lemma efficiency_here i m :
  existsb (is_efficiency_at i) (failures_of i m) = efficiency_fails m.
Proof.
  destruct (failures_of_split i m) as [rest [-> T]].
  rewrite existsb_app, (throughput_entries_not_efficiency i rest T).
  destruct (efficiency_fails m); [|reflexivity].
  unfold is_efficiency_at; cbn; now rewrite Z.eqb_refl.
Qed.

Lemma efficiency_entry i j m f :
  In f (failures_of j m) -> is_efficiency_at i f = true ->
  i = j /\ f = efficiency_failure j m.
Proof.
  destruct (failures_of_split j m) as [rest [-> T]].
  intros I P. apply in_app_or in I. destruct I as [I|I].
  - destruct (efficiency_fails m); cbn [In] in I; [|tauto].
    destruct I as [<-|[]]. split; [|reflexivity].
    unfold is_efficiency_at in P; cbn in P.
    apply andb_true_iff in P; destruct P as [P _].
    apply Z.eqb_eq in P; congruence.
  - unfold is_efficiency_at in P. rewrite (T f I) in P.
    now rewrite andb_false_r in P.
Qed.

Lemma efficiency_flagged_at (measurements : list measurement) (n : nat) (m : measurement) :
  nth_error measurements n = Some m ->
  efficiency_flagged (loop_result measurements) (Z.of_nat n)
  = efficiency_fails m.
Proof.
  intros N. rewrite <- (efficiency_here (Z.of_nat n) m).
  unfold efficiency_flagged, loop_result.
  rewrite loop_failed; cbn [failed_measurements app].
  rewrite existsb_flat_map.
  apply (existsb_enumerate_at
           (fun j s => existsb (is_efficiency_at (Z.of_nat n)) (failures_of j s))
           measurements n m N).
  intros j y Ne; apply efficiency_off; congruence.
Qed.

Lemma flagged_entry (measurements : list measurement) (n : nat)
    (m : measurement) (f : failed_measurement) :
  nth_error measurements n = Some m ->
  In f (failed_measurements (loop_result measurements)) ->
  is_efficiency_at (Z.of_nat n) f = true ->
  f = efficiency_failure (Z.of_nat n) m.
Proof.
  intros N I T. unfold loop_result in I.
  rewrite loop_failed in I; cbn [failed_measurements app] in I.
  apply in_flat_map in I. destruct I as [[j m'] [I F]]; cbn [fst snd] in F.
  destruct (efficiency_entry _ _ _ _ F T) as [E R]; subst j.
  apply in_enumerate in I. assert (m' = m) by congruence; subst m'.
  exact R.
Qed.

End ValidateFacts.

(** ** The validation of the extraction path *)

Module ExtractValidationFacts.
Import Extract.

(** What one row adds to [failed_validations]. *)
Definition row_failures (idx : Z) (r : row) : list failed_validation :=
  failed_validations
    (validate_row
       {| passed_mathematical_consistency := 0;
          passed_physical_validity := 0;
          passed_range_validation := 0;
          failed_validations := [] |} (idx, r)).

Definition is_inconsistency_at (i : Z) (f : failed_validation) : bool :=
  match f with
  | mathematical_consistency j _ _ _ => j =? i
  | _ => false
  end.

Definition is_latency_at (i : Z) (f : failed_validation) : bool :=
  match f with
  | invalid_latency j _ => j =? i
  | _ => false
  end.

Definition is_throughput_at (i : Z) (f : failed_validation) : bool :=
  match f with
  | invalid_throughput j _ => j =? i
  | _ => false
  end.

Definition physical_ok (r : row) : bool :=
  in_range 0.1 (latency_ms r) 1000 && in_range 1 (throughput_fps r) 10000.

Definition ranges_ok (r : row) : bool :=
  in_range 10 (power_watts r) 100 && in_range 20 (temperature_celsius r) 100.

Ltac split_ifs :=
  repeat match goal with
         | |- context [if ?b then _ else _] => destruct b
         end.

Lemma validate_row_failed vc idx r :
  failed_validations (validate_row vc (idx, r))
  = (failed_validations vc ++ row_failures idx r)%list.
Proof.
  unfold row_failures, validate_row; cbn [failed_validations].
  split_ifs; cbn; rewrite <- ?app_assoc, ?app_nil_r; reflexivity.
Qed.

Lemma validate_row_range vc idx r :
  passed_range_validation (validate_row vc (idx, r))
  = passed_range_validation vc + (if ranges_ok r then 1 else 0).
Proof. reflexivity. Qed.

Lemma validate_row_physical vc idx r :
  passed_physical_validity (validate_row vc (idx, r))
  = passed_physical_validity vc + (if physical_ok r then 1 else 0).
Proof. reflexivity. Qed.

Lemma rows_failed l vc :
  failed_validations (fold_left validate_row l vc)
  = (failed_validations vc
     ++ flat_map (fun item => row_failures (fst item) (snd item)) l)%list.
Proof.
  revert vc; induction l as [|[i r] l IH]; intros vc; cbn [fold_left flat_map].
  - now rewrite app_nil_r.
  - rewrite IH, validate_row_failed, <- app_assoc; reflexivity.
Qed.

Lemma rows_range l vc :
  passed_range_validation (fold_left validate_row l vc)
  = passed_range_validation vc
    + len (filter (fun item : Z * row => ranges_ok (snd item)) l).
Proof.
  revert vc; induction l as [|[i r] l IH]; intros vc; cbn [fold_left filter].
  - unfold len; simpl; lia.
  - rewrite IH, validate_row_range; cbn [snd].
    destruct (ranges_ok r); rewrite ?len_cons; lia.
Qed.

Lemma rows_physical l vc :
  passed_physical_validity (fold_left validate_row l vc)
  = passed_physical_validity vc
    + len (filter (fun item : Z * row => physical_ok (snd item)) l).
Proof.
  revert vc; induction l as [|[i r] l IH]; intros vc; cbn [fold_left filter].
  - unfold len; simpl; lia.
  - rewrite IH, validate_row_physical; cbn [snd].
    destruct (physical_ok r); rewrite ?len_cons; lia.
Qed.

(** The loop result of a run. *)
Definition rows_result (measurements_df : list row) : validation_checks :=
  fold_left validate_row (enumerate measurements_df)
    {| passed_mathematical_consistency := 0;
       passed_physical_validity := 0;
       passed_range_validation := 0;
       failed_validations := [] |}.

Lemma percentage_nonempty (passed : Z) (r : row) (df : list row) :
  percentage passed (len (r :: df))
  = inr (inject_Z passed / inject_Z (len (r :: df)) * 100)%Q.
Proof.
  unfold percentage, py_div.
  destruct (Qeq_bool (inject_Z (len (r :: df))) 0) eqn:E; [|reflexivity].
  apply Qeq_bool_eq in E. rewrite len_cons in E.
  pose proof (len_nonneg df) as P.
  change 0%Q with (inject_Z 0) in E; rewrite inject_Z_injective in E; lia.
Qed.

(** On a non-empty frame the validation returns, whatever the rows hold. *)
Lemma validate_measurements_nonempty (r : row) (df : list row) :
  exists pct, validate_measurements (r :: df) = inr (rows_result (r :: df), pct).
Proof.
  unfold validate_measurements; fold (rows_result (r :: df)).
  rewrite !percentage_nonempty; cbn [bind ret].
  eexists; reflexivity.
Qed.

Lemma flagged_row_at (test_at : Z -> failed_validation -> bool)
    (df : list row) (n : nat) (r : row) :
  (forall i j s, i <> j -> existsb (test_at i) (row_failures j s) = false) ->
  nth_error df n = Some r ->
  existsb (test_at (Z.of_nat n)) (failed_validations (rows_result df))
  = existsb (test_at (Z.of_nat n)) (row_failures (Z.of_nat n) r).
Proof.
  intros Off N. unfold rows_result.
  rewrite rows_failed; cbn [failed_validations app].
  rewrite existsb_flat_map.
  apply (existsb_enumerate_at
           (fun j s => existsb (test_at (Z.of_nat n)) (row_failures j s))
           df n r N).
  intros j y Ne; apply Off; congruence.
Qed.

Lemma inconsistency_off i j s :
  i <> j -> existsb (is_inconsistency_at i) (row_failures j s) = false.
Proof.
  intros Ne. assert (E : (j =? i) = false) by (apply Z.eqb_neq; congruence).
  unfold row_failures, validate_row; cbn [failed_validations].
  split_ifs; cbn; rewrite ?E; reflexivity.
Qed.

Lemma latency_off i j s :
  i <> j -> existsb (is_latency_at i) (row_failures j s) = false.
Proof.
  intros Ne. assert (E : (j =? i) = false) by (apply Z.eqb_neq; congruence).
  unfold row_failures, validate_row; cbn [failed_validations].
  split_ifs; cbn; rewrite ?E; reflexivity.
Qed.

Lemma throughput_off i j s :
  i <> j -> existsb (is_throughput_at i) (row_failures j s) = false.
Proof.
  intros Ne. assert (E : (j =? i) = false) by (apply Z.eqb_neq; congruence).
  unfold row_failures, validate_row; cbn [failed_validations].
  split_ifs; cbn; rewrite ?E; reflexivity.
Qed.

Lemma inconsistency_here i r :
  existsb (is_inconsistency_at i) (row_failures i r)
  = negb (Qle_bool
            (Qabs (fsub (if Qltb 0 (power_watts r)
                         then fdiv (throughput_fps r) (power_watts r)
                         else 0%Q)
                        (efficiency_fps_per_watt r)))
            (py_max (py_float 0.001)
                    (fmul (efficiency_fps_per_watt r) (py_float 0.001)))).
Proof.
  unfold row_failures, validate_row; cbn [failed_validations].
  split_ifs; cbn; rewrite ?Z.eqb_refl; reflexivity.
Qed.

Lemma latency_here i r :
  existsb (is_latency_at i) (row_failures i r)
  = negb (in_range 0.1 (latency_ms r) 1000).
Proof.
  unfold row_failures, validate_row; cbn [failed_validations].
  split_ifs; cbn; rewrite ?Z.eqb_refl; reflexivity.
Qed.

Lemma throughput_here i r :
  existsb (is_throughput_at i) (row_failures i r)
  = negb (in_range 1 (throughput_fps r) 10000).
Proof.
  unfold row_failures, validate_row; cbn [failed_validations].
  split_ifs; cbn; rewrite ?Z.eqb_refl; reflexivity.
Qed.

Lemma in_range_iff (lo x hi : Q) :
  in_range lo x hi = true <-> (lo <= x <= hi)%Q.
Proof.
  unfold in_range; rewrite andb_true_iff, !Qle_bool_iff; tauto.
Qed.

Definition expected_efficiency_of_row (r : row) : Q :=
  if Qltb 0 (power_watts r)
  then fdiv (throughput_fps r) (power_watts r) else 0%Q.

Definition efficiency_diff_of (r : row) : Q :=
  Qabs (fsub (expected_efficiency_of_row r) (efficiency_fps_per_watt r)).

Definition consistent (r : row) : bool :=
  Qle_bool (efficiency_diff_of r)
           (py_max (py_float 0.001)
                   (fmul (efficiency_fps_per_watt r) (py_float 0.001))).

(** The entries one row appends, in the order it appends them. *)
Lemma row_failures_eq idx r :
  row_failures idx r
  = ((if consistent r then []
      else [mathematical_consistency idx (expected_efficiency_of_row r)
              (efficiency_fps_per_watt r) (efficiency_diff_of r)])
     ++ (if in_range 0.1 (latency_ms r) 1000 then []
         else [invalid_latency idx (latency_ms r)])
     ++ (if in_range 1 (throughput_fps r) 10000 then []
         else [invalid_throughput idx (throughput_fps r)]))%list.
Proof.
  unfold row_failures, validate_row, consistent, efficiency_diff_of,
    expected_efficiency_of_row.
  cbn [failed_validations].
  destruct (Qle_bool _ _); destruct (in_range 0.1 _ _); destruct (in_range 1 _ _);
    reflexivity.
Qed.

Definition inconsistency_flagged (checks : validation_checks) (i : Z) : bool :=
  existsb (is_inconsistency_at i) (failed_validations checks).

Definition latency_flagged (checks : validation_checks) (i : Z) : bool :=
  existsb (is_latency_at i) (failed_validations checks).

Definition throughput_flagged (checks : validation_checks) (i : Z) : bool :=
  existsb (is_throughput_at i) (failed_validations checks).

Lemma inconsistency_entry (df : list row) (n : nat) (r : row) e a d :
  nth_error df n = Some r ->
  In (mathematical_consistency (Z.of_nat n) e a d)
     (failed_validations (rows_result df)) ->
  e = expected_efficiency_of_row r
  /\ a = efficiency_fps_per_watt r
  /\ d = efficiency_diff_of r.
Proof.
  intros N I. unfold rows_result in I.
  rewrite rows_failed in I; cbn [failed_validations app] in I.
  apply in_flat_map in I. destruct I as [[j r'] [I F]]; cbn [fst snd] in F.
  rewrite row_failures_eq in F.
  assert (J : j = Z.of_nat n /\ e = expected_efficiency_of_row r'
              /\ a = efficiency_fps_per_watt r'
              /\ d = efficiency_diff_of r').
  { repeat (apply in_app_or in F; destruct F as [F|F]);
      match type of F with
      | In _ (if ?b then _ else _) => destruct b
      end; cbn [In] in F;
      repeat match goal with
             | H : _ \/ _ |- _ => destruct H
             | H : False |- _ => destruct H
             end; try discriminate.
    match goal with H : _ = _ |- _ => inversion H; subst end. tauto. }
  destruct J as [-> J]. apply in_enumerate in I.
  assert (r' = r) by congruence; subst r'. exact J.
Qed.

(** The row [row_with 5 40] draws 5 W, below the 10 W of the power range:
    the run returns and its failure list is empty. *)
Lemma C7_power_out_of_range_is_not_listed :
  (exists checks pct,
     validate_measurements [Samples.row_with 5 40] = inr (checks, pct)
     /\ failed_validations checks = []
     /\ passed_range_validation checks = 0)
  /\ in_range 10 (power_watts (Samples.row_with 5 40)) 100 = false.
Proof.
  split; [|reflexivity].
  eexists; eexists; split; [vm_compute; reflexivity|].
  split; reflexivity.
Qed.

(** C7, as the code has it.  On every non-empty frame the validation
    returns; a row has an [invalid_latency] entry in the failure list
    exactly when its latency is outside [0.1, 1000], an [invalid_throughput]
    entry exactly when its throughput is outside [1, 10000]; the power range
    [10, 100] and the temperature range [20, 100] only decide whether the
    row counts in [range_validation]. *)
Theorem C7_range_checks (df : list row) (n : nat) (r : row) :
  nth_error df n = Some r ->
  exists checks pct,
    validate_measurements df = inr (checks, pct)
    /\ (latency_flagged checks (Z.of_nat n) = true
        <-> ~ (0.1 <= latency_ms r <= 1000)%Q)
    /\ (throughput_flagged checks (Z.of_nat n) = true
        <-> ~ (1 <= throughput_fps r <= 10000)%Q)
    /\ passed_physical_validity checks = len (filter physical_ok df)
    /\ passed_range_validation checks
       = len (filter (fun s => in_range 10 (power_watts s) 100
                               && in_range 20 (temperature_celsius s) 100) df).
Proof.
  intros N.
  destruct df as [|r0 df]; [destruct n; discriminate|].
  destruct (validate_measurements_nonempty r0 df) as [pct V].
  exists (rows_result (r0 :: df)), pct. split; [exact V|].
  unfold latency_flagged, throughput_flagged.
  rewrite (flagged_row_at is_latency_at (r0 :: df) n r latency_off N).
  rewrite (flagged_row_at is_throughput_at (r0 :: df) n r throughput_off N).
  rewrite latency_here, throughput_here, !negb_true_iff.
  rewrite <- !in_range_iff.
  split; [|split; [|split]].
  - destruct (in_range 0.1 (latency_ms r) 1000); split; congruence.
  - destruct (in_range 1 (throughput_fps r) 10000); split; congruence.
  - unfold rows_result. rewrite rows_physical; cbn [passed_physical_validity].
    unfold enumerate; now rewrite count_enumerate_from.
  - unfold rows_result. rewrite rows_range; cbn [passed_range_validation].
    unfold enumerate; now rewrite (count_enumerate_from ranges_ok).
Qed.

Lemma C7_range_checks_witness :
  nth_error [Samples.row_with 50 40; Samples.row_with 5 40] 1
  = Some (Samples.row_with 5 40)
  /\ exists checks pct,
       validate_measurements [Samples.row_with 50 40; Samples.row_with 5 40]
       = inr (checks, pct)
       /\ (latency_flagged checks 1 = true
           <-> ~ (0.1 <= latency_ms (Samples.row_with 5 40) <= 1000)%Q)
       /\ (throughput_flagged checks 1 = true
           <-> ~ (1 <= throughput_fps (Samples.row_with 5 40) <= 10000)%Q)
       /\ passed_physical_validity checks
          = len (filter physical_ok
                   [Samples.row_with 50 40; Samples.row_with 5 40])
       /\ passed_range_validation checks
          = len (filter (fun s => in_range 10 (power_watts s) 100
                                  && in_range 20 (temperature_celsius s) 100)
                   [Samples.row_with 50 40; Samples.row_with 5 40]).
Proof.
  split; [reflexivity|].
  exact (C7_range_checks
           [Samples.row_with 50 40; Samples.row_with 5 40] 1
           (Samples.row_with 5 40) eq_refl).
Defined.

End ExtractValidationFacts.

(** ** The efficiency-consistency check in its two regimes *)

Module EfficiencyCheckFacts.

Lemma py_max_Qmax (a b : Q) : (py_max a b == Qmax a b)%Q.
Proof.
  unfold py_max. destruct (Qltb a b) eqn:E.
  - apply Qltb_lt in E. symmetry; apply Q.max_r; lra.
  - apply Qltb_ge in E. symmetry; apply Q.max_l; exact E.
Qed.

Lemma Qle_bool_ext (x x' y y' : Q) :
  (x == x')%Q -> (y == y')%Q -> Qle_bool x y = Qle_bool x' y'.
Proof.
  intros Ex Ey.
  destruct (Qle_bool x y) eqn:A; destruct (Qle_bool x' y') eqn:B;
    try reflexivity.
  - apply Qle_bool_iff in A. rewrite Ex, Ey in A.
    apply Qle_bool_iff in A. congruence.
  - apply Qle_bool_iff in B. rewrite <- Ex, <- Ey in B.
    apply Qle_bool_iff in B. congruence.
Qed.

(** [expected_efficiency] as both loops compute it: the quotient for a
    positive power, 0 for every other power. *)
Definition computed_expected (throughput power : Q) : Q :=
  if Qltb 0 power then fdiv throughput power else 0%Q.

Lemma computed_expected_agrees (throughput power : Q) :
  (0 <= power)%Q ->
  computed_expected throughput power
  = Spec.expected_efficiency throughput power.
Proof.
  intros P. unfold computed_expected, Spec.expected_efficiency.
  destruct (Qltb 0 power) eqn:L; destruct (Qeq_bool power 0) eqn:E;
    try reflexivity.
  - apply Qltb_lt in L. apply Qeq_bool_eq in E. lra.
  - apply Qltb_ge in L. apply Qeq_bool_neq in E. exfalso; apply E; lra.
Qed.

Lemma computed_expected_negative (throughput power : Q) :
  (power < 0)%Q -> computed_expected throughput power = 0%Q.
Proof.
  intros P. unfold computed_expected.
  replace (Qltb 0 power) with false; [reflexivity|].
  symmetry. apply Qltb_ge. lra.
Qed.

(** The looser regime has no relative term: its tolerance is the floor. *)
Lemma loose_tolerance (efficiency : Q) :
  (Qmax (py_float 0.01) (fmul efficiency (py_float 0)) == py_float 0.01)%Q.
Proof.
  rewrite FloatFacts.fmul_zero. apply Q.max_l.
  apply FloatFacts.b64_nonneg. lra.
Qed.

Lemma loose_check (expected efficiency : Q) :
  Qltb (py_float 0.01) (Qabs (fsub efficiency expected)) && Qltb 0 efficiency
  = negb (Spec.within_tolerance 0.01 0 true expected efficiency).
Proof.
  unfold Spec.within_tolerance, Qltb. cbn [andb].
  rewrite negb_orb, andb_comm. f_equal. f_equal.
  apply Qle_bool_ext; [apply FloatFacts.fsub_swap|].
  symmetry. apply loose_tolerance.
Qed.

Lemma strict_check (expected efficiency : Q) :
  negb (Qle_bool (Qabs (fsub expected efficiency))
          (py_max (py_float 0.001) (fmul efficiency (py_float 0.001))))
  = negb (Spec.within_tolerance 0.001 0.001 false expected efficiency).
Proof.
  unfold Spec.within_tolerance. cbn [andb orb]. f_equal.
  apply Qle_bool_ext; [reflexivity|apply py_max_Qmax].
Qed.

(** A record with a negative power passes the check of the specification,
    whose expected value is the quotient unless the power is 0, but both
    scripts take 0 as the expected value and record a failure: the
    measurement [negated_record] in the consistency validation, the row
    [negative_power_row] in the extraction path. *)
Lemma C2_negative_power_is_read_as_zero :
  (Spec.loose_regime (Json.throughput_fps Samples.negated_record)
     (Json.power_consumption_watts Samples.negated_record)
     (Json.efficiency_fps_per_watt Samples.negated_record) = true
   /\ exists vr,
        Validate.validate_mathematical_consistency [Samples.negated_record]
        = inr vr
        /\ ValidateFacts.efficiency_flagged vr 0 = true)
  /\ (Spec.strict_regime (Extract.throughput_fps Samples.negative_power_row)
        (Extract.power_watts Samples.negative_power_row)
        (Extract.efficiency_fps_per_watt Samples.negative_power_row) = true
      /\ exists checks pct,
           Extract.validate_measurements [Samples.negative_power_row]
           = inr (checks, pct)
           /\ ExtractValidationFacts.inconsistency_flagged checks 0 = true).
Proof.
  split; (split; [vm_compute; reflexivity|]).
  - eexists. split; vm_compute; reflexivity.
  - eexists; eexists. split; vm_compute; reflexivity.
Qed.

(** C2, as the code has it.  Both call sites take as expected efficiency
    the float quotient [throughput / power] when the power is positive and
    0 otherwise; this is the expected value of the specification on every
    record whose power is not negative.  The consistency validation (looser
    regime) records an efficiency failure for a measurement exactly when
    the check with floor 0.01, no relative term and the skip on non-positive
    efficiency does not pass on that expected value; the extraction path
    (strict regime) records one for a row exactly when the check with floor
    0.001 and relative tolerance 0.1% does not pass.  A recorded failure
    carries the expected value and the reported efficiency. *)
Theorem C2_efficiency_consistency :
  (forall throughput power : Q,
      ((0 <= power)%Q ->
       computed_expected throughput power
       = Spec.expected_efficiency throughput power)
      /\ ((power < 0)%Q -> computed_expected throughput power = 0%Q))
  /\ (forall (measurements : list Json.measurement) (n : nat)
             (m : Json.measurement),
      nth_error measurements n = Some m ->
      exists vr,
        Validate.validate_mathematical_consistency measurements = inr vr
        /\ ValidateFacts.efficiency_flagged vr (Z.of_nat n)
           = negb (Spec.within_tolerance 0.01 0 true
                     (computed_expected (Json.throughput_fps m)
                        (Json.power_consumption_watts m))
                     (Json.efficiency_fps_per_watt m))
        /\ ((0 <= Json.power_consumption_watts m)%Q ->
            ValidateFacts.efficiency_flagged vr (Z.of_nat n)
            = negb (Spec.loose_regime (Json.throughput_fps m)
                      (Json.power_consumption_watts m)
                      (Json.efficiency_fps_per_watt m)))
        /\ forall f,
             In f (Validate.failed_measurements vr) ->
             ValidateFacts.is_efficiency_at (Z.of_nat n) f = true ->
             Validate.expected f
             = computed_expected (Json.throughput_fps m)
                 (Json.power_consumption_watts m)
             /\ Validate.actual f = Json.efficiency_fps_per_watt m)
  /\ (forall (df : list Extract.row) (n : nat) (r : Extract.row),
      nth_error df n = Some r ->
      exists checks pct,
        Extract.validate_measurements df = inr (checks, pct)
        /\ ExtractValidationFacts.inconsistency_flagged checks (Z.of_nat n)
           = negb (Spec.within_tolerance 0.001 0.001 false
                     (computed_expected (Extract.throughput_fps r)
                        (Extract.power_watts r))
                     (Extract.efficiency_fps_per_watt r))
        /\ ((0 <= Extract.power_watts r)%Q ->
            ExtractValidationFacts.inconsistency_flagged checks (Z.of_nat n)
            = negb (Spec.strict_regime (Extract.throughput_fps r)
                      (Extract.power_watts r)
                      (Extract.efficiency_fps_per_watt r)))
        /\ forall e a d,
             In (Extract.mathematical_consistency (Z.of_nat n) e a d)
                (Extract.failed_validations checks) ->
             e = computed_expected (Extract.throughput_fps r)
                   (Extract.power_watts r)
             /\ a = Extract.efficiency_fps_per_watt r).
Proof.
  split; [|split].
  - intros t p. split;
      [apply computed_expected_agrees|apply computed_expected_negative].
  - intros ms n m N.
    destruct ms as [|m0 ms]; [destruct n; discriminate|].
    exists (ValidateFacts.loop_result (m0 :: ms)).
    split; [apply ValidateFacts.validate_nonempty|].
    assert (F : ValidateFacts.efficiency_flagged
                  (ValidateFacts.loop_result (m0 :: ms)) (Z.of_nat n)
                = negb (Spec.within_tolerance 0.01 0 true
                          (computed_expected (Json.throughput_fps m)
                             (Json.power_consumption_watts m))
                          (Json.efficiency_fps_per_watt m))).
    { rewrite (ValidateFacts.efficiency_flagged_at _ _ _ N).
      unfold ValidateFacts.efficiency_fails.
      apply loose_check. }
    split; [exact F|]. split.
    + intros P. rewrite F.
      unfold Spec.loose_regime, Spec.efficiency_consistent.
      now rewrite (computed_expected_agrees _ _ P).
    + intros f I T.
      rewrite (ValidateFacts.flagged_entry _ _ _ _ N I T).
      split; reflexivity.
  - intros df n r N.
    destruct df as [|r0 df]; [destruct n; discriminate|].
    destruct (ExtractValidationFacts.validate_measurements_nonempty r0 df)
      as [pct V].
    exists (ExtractValidationFacts.rows_result (r0 :: df)), pct.
    split; [exact V|].
    assert (F : ExtractValidationFacts.inconsistency_flagged
                  (ExtractValidationFacts.rows_result (r0 :: df)) (Z.of_nat n)
                = negb (Spec.within_tolerance 0.001 0.001 false
                          (computed_expected (Extract.throughput_fps r)
                             (Extract.power_watts r))
                          (Extract.efficiency_fps_per_watt r))).
    { unfold ExtractValidationFacts.inconsistency_flagged.
      rewrite (ExtractValidationFacts.flagged_row_at
                 ExtractValidationFacts.is_inconsistency_at (r0 :: df) n r
                 ExtractValidationFacts.inconsistency_off N).
      rewrite ExtractValidationFacts.inconsistency_here.
      apply strict_check. }
    split; [exact F|]. split.
    + intros P. rewrite F.
      unfold Spec.strict_regime, Spec.efficiency_consistent.
      now rewrite (computed_expected_agrees _ _ P).
    + intros e a d I.
      destruct (ExtractValidationFacts.inconsistency_entry _ _ _ _ _ _ N I)
        as [-> [-> _]].
      split; reflexivity.
Qed.

(** On the measurement [boundary_record] (5.1 fps at 10 W, reported as 0.5
    fps/W) the float quotient is 0.51 and its distance to 0.5 is above the
    float 0.01, although the exact distance is below 1/100; likewise on the
    row [boundary_row] (9.99 fps at 10 W, reported as 1 fps/W).  Both are
    recorded as failures. *)
Lemma C2_efficiency_consistency_witness :
  (nth_error [Samples.boundary_record] 0 = Some Samples.boundary_record
   /\ (Qabs (Json.efficiency_fps_per_watt Samples.boundary_record
             - Json.throughput_fps Samples.boundary_record
               / Json.power_consumption_watts Samples.boundary_record)
       < 0.01)%Q
   /\ exists vr,
        Validate.validate_mathematical_consistency [Samples.boundary_record]
        = inr vr
        /\ ValidateFacts.efficiency_flagged vr 0 = true)
  /\ (nth_error [Samples.boundary_row] 0 = Some Samples.boundary_row
      /\ (Qabs (Extract.throughput_fps Samples.boundary_row
                / Extract.power_watts Samples.boundary_row
                - Extract.efficiency_fps_per_watt Samples.boundary_row)
          < 0.001)%Q
      /\ exists checks pct,
           Extract.validate_measurements [Samples.boundary_row]
           = inr (checks, pct)
           /\ ExtractValidationFacts.inconsistency_flagged checks 0 = true).
Proof.
  split.
  - split; [reflexivity|]. split; [vm_compute; reflexivity|].
    destruct (proj1 (proj2 C2_efficiency_consistency)
                [Samples.boundary_record] 0%nat Samples.boundary_record
                eq_refl) as (vr & V & F & _).
    exists vr. split; [exact V|]. cbn [Z.of_nat] in F. rewrite F.
    vm_compute. reflexivity.
  - split; [reflexivity|]. split; [vm_compute; reflexivity|].
    destruct (proj2 (proj2 C2_efficiency_consistency)
                [Samples.boundary_row] 0%nat Samples.boundary_row
                eq_refl) as (checks & pct & V & F & _).
    exists checks, pct. split; [exact V|]. cbn [Z.of_nat] in F. rewrite F.
    vm_compute. reflexivity.
Defined.

End EfficiencyCheckFacts.

(** ** Summary statistics and confidence intervals *)

Module StatisticsFacts.

Section WithSciPy.
Context {scipy : SciPy}.

Lemma inject_Z_nonzero (n : Z) : n <> 0 -> Qeq_bool (inject_Z n) 0 = false.
Proof.
  intros Ne. destruct (Qeq_bool (inject_Z n) 0) eqn:E; [|reflexivity].
  apply Qeq_bool_eq in E.
  change 0%Q with (inject_Z 0) in E; rewrite inject_Z_injective in E; lia.
Qed.

Lemma np_div_int (a : Q) (n : Z) :
  n <> 0 -> np_div (Fin a) (of_int n) = Fin (a / inject_Z n).
Proof. intros Ne. unfold np_div, of_int. now rewrite inject_Z_nonzero. Qed.

Lemma np_mean_finite (xs : list Q) :
  1 <= len xs -> np_mean xs = Fin (Spec.mean xs).
Proof. intros L. unfold np_mean. apply np_div_int. lia. Qed.

Lemma Qsum_nonneg (xs : list Q) :
  (forall x, In x xs -> (0 <= x)%Q) -> (0 <= Qsum xs)%Q.
Proof.
  induction xs as [|x xs IH]; intros P; cbn [Qsum fold_right]; [lra|].
  assert (0 <= x)%Q by (apply P; now left).
  assert (0 <= Qsum xs)%Q by (apply IH; intros y I; apply P; now right).
  unfold Qsum in *; lra.
Qed.

Lemma Qsquare_nonneg (a : Q) : (0 <= Qsquare a)%Q.
Proof.
  unfold Qsquare. destruct (Qlt_le_dec a 0).
  - setoid_replace (a * a)%Q with ((- a) * (- a))%Q by ring.
    apply Qmult_le_0_compat; lra.
  - apply Qmult_le_0_compat; lra.
Qed.

Lemma squares_nonneg (m : Q) (xs : list Q) :
  (0 <= Qsum (map (fun x => Qsquare (x - m)) xs))%Q.
Proof.
  apply Qsum_nonneg. intros y I. apply in_map_iff in I.
  destruct I as [x [<- _]]. apply Qsquare_nonneg.
Qed.

(** With two samples or more, [ddof=1] divides by [n - 1 > 0]: the standard
    deviation is the Bessel-corrected one and it is finite. *)
Lemma np_std_finite (xs : list Q) :
  2 <= len xs -> np_std xs 1 = Fin (Spec.bessel_std xs).
Proof.
  intros L. unfold np_std. rewrite np_mean_finite by lia.
  rewrite Z.max_l by lia. rewrite np_div_int by lia.
  unfold np_sqrt, Spec.bessel_std.
  match goal with |- context [Qltb ?q 0] => destruct (Qltb q 0) eqn:E end;
    [|reflexivity].
  apply Qltb_lt in E. exfalso.
  pose proof (squares_nonneg (Spec.mean xs) xs) as S.
  assert (P : (0 < inject_Z (len xs - 1))%Q).
  { change 0%Q with (inject_Z 0). rewrite <- Zlt_Qlt. lia. }
  apply Qlt_not_le in E. apply E.
  apply Qle_shift_div_l; [exact P|]. rewrite Qmult_0_l. exact S.
Qed.

Lemma np_sqrt_len (xs : list Q) :
  np_sqrt (of_int (len xs)) = Fin (sqrtQ (inject_Z (len xs))).
Proof.
  unfold np_sqrt, of_int.
  destruct (Qltb (inject_Z (len xs)) 0) eqn:E; [|reflexivity].
  apply Qltb_lt in E. change 0%Q with (inject_Z 0) in E.
  rewrite <- Zlt_Qlt in E. pose proof (len_nonneg xs). lia.
Qed.

Lemma sqrt_len_nonzero (xs : list Q) :
  1 <= len xs -> Qeq_bool (sqrtQ (inject_Z (len xs))) 0 = false.
Proof.
  intros L. destruct (Qeq_bool _ 0) eqn:E; [|reflexivity].
  apply Qeq_bool_eq in E. exfalso. revert E. apply sqrtQ_nonzero.
  change 0%Q with (inject_Z 0). rewrite <- Zlt_Qlt. lia.
Qed.

(** The margin of error as both scripts compute it, for the probability
    [p] they pass to [t.ppf]. *)
Lemma margin_finite (p : Q) (xs : list Q) :
  2 <= len xs ->
  np_mul (stats_t_ppf p (len xs - 1))
         (np_div (np_std xs 1) (np_sqrt (of_int (len xs))))
  = Fin (t_quantile p (len xs - 1)
         * (Spec.bessel_std xs / sqrtQ (inject_Z (len xs))))%Q.
Proof.
  intros L. rewrite np_std_finite, np_sqrt_len by exact L.
  unfold stats_t_ppf. replace (len xs - 1 <=? 0) with false
    by (symmetry; apply Z.leb_gt; lia).
  unfold np_div. rewrite sqrt_len_nonzero by lia. reflexivity.
Qed.

(** *** reproduce_summary_statistics *)

Definition base_entry (xs : list Q) (lo hi : Q) : Validate.metric_stats :=
  {| Validate.count := len xs;
     Validate.mean := np_mean xs;
     Validate.std := np_std xs 1;
     Validate.min := lo;
     Validate.max := hi;
     Validate.confidence_interval_95 := None;
     Validate.margin_of_error := None |}.

Definition margin_of (p : Q) (xs : list Q) : npf :=
  np_mul (stats_t_ppf p (len xs - 1))
         (np_div (np_std xs 1) (np_sqrt (of_int (len xs)))).

Definition interval_entry (xs : list Q) (lo hi : Q) : Validate.metric_stats :=
  {| Validate.count := len xs;
     Validate.mean := np_mean xs;
     Validate.std := np_std xs 1;
     Validate.min := lo;
     Validate.max := hi;
     Validate.confidence_interval_95 :=
       Some (np_sub (np_mean xs) (margin_of 0.975 xs),
             np_add (np_mean xs) (margin_of 0.975 xs));
     Validate.margin_of_error := Some (margin_of 0.975 xs) |}.

Lemma describe_nonempty (x : Q) (xs : list Q) :
  exists lo hi, Validate.describe (x :: xs) = inr (base_entry (x :: xs) lo hi).
Proof.
  unfold Validate.describe, np_min, np_max; cbn [bind ret].
  eexists; eexists; reflexivity.
Qed.

(** The shape of the result on a non-empty list: four entries, the first
    three with an interval, the temperature entry without. *)
Lemma reproduce_summary_statistics_nonempty
    (m : Json.measurement) (ms : list Json.measurement) :
  exists lo1 hi1 lo2 hi2 lo3 hi3 lo4 hi4,
    Validate.reproduce_summary_statistics (m :: ms)
    = inr [("power_consumption_watts",
            interval_entry (map Json.power_consumption_watts (m :: ms)) lo1 hi1);
           ("throughput_fps",
            interval_entry (map Json.throughput_fps (m :: ms)) lo2 hi2);
           ("efficiency_fps_per_watt",
            interval_entry (map Json.efficiency_fps_per_watt (m :: ms)) lo3 hi3);
           ("temperature_celsius",
            base_entry (map Json.temperature_celsius (m :: ms)) lo4 hi4)].
Proof.
  unfold Validate.reproduce_summary_statistics.
  cbn [map].
  destruct (describe_nonempty (Json.power_consumption_watts m)
              (map Json.power_consumption_watts ms)) as [lo1 [hi1 ->]].
  destruct (describe_nonempty (Json.throughput_fps m)
              (map Json.throughput_fps ms)) as [lo2 [hi2 ->]].
  destruct (describe_nonempty (Json.efficiency_fps_per_watt m)
              (map Json.efficiency_fps_per_watt ms)) as [lo3 [hi3 ->]].
  destruct (describe_nonempty (Json.temperature_celsius m)
              (map Json.temperature_celsius ms)) as [lo4 [hi4 ->]].
  exists lo1, hi1, lo2, hi2, lo3, hi3, lo4, hi4.
  reflexivity.
Qed.

(** *** calculate_real_statistics *)

Lemma len_map {A B : Type} (f : A -> B) (l : list A) : len (map f l) = len l.
Proof. unfold len. now rewrite length_map. Qed.

Definition stat_entry (data : list Q) : Extract.performance_stat :=
  {| Extract.count := len data;
     Extract.mean := np_mean data;
     Extract.std := np_std data 1;
     Extract.min := Extract.series_min data;
     Extract.max := Extract.series_max data;
     Extract.confidence_interval_95 :=
       {| Extract.lower :=
            np_sub (np_mean data) (margin_of ((1 + 0.95) / 2) data);
          Extract.upper :=
            np_add (np_mean data) (margin_of ((1 + 0.95) / 2) data);
          Extract.margin_of_error := margin_of ((1 + 0.95) / 2) data |};
     Extract.coefficient_of_variation :=
       if Extract.np_nonzero (np_mean data)
       then np_div (np_std data 1) (np_mean data) else Fin 0 |}.

Lemma metric_statistics_eq (df : list Extract.row)
    (stats : list (string * Extract.performance_stat))
    (metric : string * (Extract.row -> Q)) :
  Extract.metric_statistics df stats metric
  = if 1 <? len df
    then dict_set String.eqb stats (fst metric)
           (stat_entry (map (snd metric) df))
    else stats.
Proof.
  unfold Extract.metric_statistics. rewrite len_map.
  destruct (1 <? len df) eqn:E; [|reflexivity].
  rewrite <- (len_map (snd metric) df). reflexivity.
Qed.

(** With two rows or more, every one of the five metrics gets its entry. *)
Lemma performance_statistics_eq (df : list Extract.row) :
  2 <= len df ->
  exists processed,
    Extract.calculate_real_statistics df = inr processed
    /\ Extract.performance_statistics processed
       = map (fun metric : string * (Extract.row -> Q) =>
                (fst metric, stat_entry (map (snd metric) df)))
             Extract.metrics.
Proof.
  intros L. destruct df as [|r df]; [unfold len in L; simpl in L; lia|].
  unfold Extract.calculate_real_statistics.
  eexists; split; [reflexivity|].
  cbn [Extract.performance_statistics].
  unfold Extract.metrics; cbn [fold_left map].
  rewrite !metric_statistics_eq.
  replace (1 <? len (r :: df)) with true by (symmetry; apply Z.ltb_lt; lia).
  reflexivity.
Qed.

Lemma extraction_margin (data : list Q) :
  2 <= len data ->
  margin_of ((1 + 0.95) / 2) data = Fin (Spec.margin data).
Proof.
  intros L. unfold margin_of. rewrite margin_finite by exact L.
  unfold Spec.margin.
  rewrite (t_quantile_ext ((1 + 0.95) / 2) 0.975 (len data - 1)); reflexivity.
Qed.

End WithSciPy.

(** C1.  With two samples or more, each interval either script computes is
    [mean - margin, mean + margin] for the arithmetic mean, the
    Bessel-corrected standard deviation and
    [margin = t(0.975, n-1) * std / sqrt(n)]: for power, throughput and
    efficiency in [reproduce_summary_statistics], and for each of the five
    metrics in [calculate_real_statistics]. *)
Theorem C1_confidence_interval (scipy : SciPy) :
  (forall (measurements : list Json.measurement) (name : string)
          (column : Json.measurement -> Q),
      2 <= len measurements ->
      In (name, column)
         [("power_consumption_watts", Json.power_consumption_watts);
          ("throughput_fps", Json.throughput_fps);
          ("efficiency_fps_per_watt", Json.efficiency_fps_per_watt)] ->
      exists stats entry,
        Validate.reproduce_summary_statistics measurements = inr stats
        /\ dict_get String.eqb stats name = Some entry
        /\ Validate.mean entry = Fin (Spec.mean (map column measurements))
        /\ Validate.std entry = Fin (Spec.bessel_std (map column measurements))
        /\ Validate.margin_of_error entry
           = Some (Fin (Spec.margin (map column measurements)))
        /\ Validate.confidence_interval_95 entry
           = Some (Fin (fst (Spec.interval (map column measurements))),
                   Fin (snd (Spec.interval (map column measurements)))))
  /\ (forall (df : list Extract.row) (name : string) (column : Extract.row -> Q),
      2 <= len df ->
      In (name, column) Extract.metrics ->
      exists processed entry,
        Extract.calculate_real_statistics df = inr processed
        /\ dict_get String.eqb (Extract.performance_statistics processed) name
           = Some entry
        /\ Extract.mean entry = Fin (Spec.mean (map column df))
        /\ Extract.std entry = Fin (Spec.bessel_std (map column df))
        /\ Extract.margin_of_error (Extract.confidence_interval_95 entry)
           = Fin (Spec.margin (map column df))
        /\ Extract.lower (Extract.confidence_interval_95 entry)
           = Fin (fst (Spec.interval (map column df)))
        /\ Extract.upper (Extract.confidence_interval_95 entry)
           = Fin (snd (Spec.interval (map column df)))).
Proof.
  split.
  - intros ms name column L I.
    destruct ms as [|m ms]; [unfold len in L; simpl in L; lia|].
    destruct (reproduce_summary_statistics_nonempty m ms)
      as (lo1 & hi1 & lo2 & hi2 & lo3 & hi3 & lo4 & hi4 & R).
    rewrite R.
    assert (L' : 2 <= len (map column (m :: ms))) by (now rewrite len_map).
    cbn [In] in I.
    destruct I as [I|[I|[I|[]]]]; inversion I; subst name column;
      (eexists; eexists; split; [reflexivity|]);
      (split; [reflexivity|]);
      unfold interval_entry;
      cbn [Validate.mean Validate.std Validate.margin_of_error
           Validate.confidence_interval_95];
      unfold margin_of; rewrite (margin_finite 0.975 _ L');
      rewrite np_mean_finite by lia; rewrite np_std_finite by exact L';
      repeat split; reflexivity.
  - intros df name column L I.
    destruct (performance_statistics_eq df L) as [processed [C P]].
    exists processed. rewrite P.
    assert (L' : 2 <= len (map column df)) by (now rewrite len_map).
    unfold Extract.metrics in I; cbn [In] in I.
    destruct I as [I|[I|[I|[I|[I|[]]]]]]; inversion I; subst name column;
      (eexists; split; [exact C|]);
      (split; [reflexivity|]);
      unfold stat_entry;
      cbn [Extract.mean Extract.std Extract.margin_of_error Extract.lower
           Extract.upper Extract.confidence_interval_95 snd];
      rewrite (extraction_margin _ L');
      rewrite np_mean_finite by lia; rewrite np_std_finite by exact L';
      repeat split; reflexivity.
Qed.

Lemma C1_confidence_interval_witness :
  (2 <= len Samples.two_measurements
   /\ exists stats entry,
        Validate.reproduce_summary_statistics (scipy := Reference.scipy)
          Samples.two_measurements = inr stats
        /\ dict_get String.eqb stats "power_consumption_watts" = Some entry
        /\ Validate.margin_of_error entry
           = Some (Fin (Spec.margin (scipy := Reference.scipy)
                          (map Json.power_consumption_watts
                               Samples.two_measurements))))
  /\ (2 <= len Samples.two_rows
      /\ exists processed entry,
           Extract.calculate_real_statistics (scipy := Reference.scipy)
             Samples.two_rows = inr processed
           /\ dict_get String.eqb (Extract.performance_statistics processed)
                "power_watts" = Some entry
           /\ Extract.margin_of_error (Extract.confidence_interval_95 entry)
              = Fin (Spec.margin (scipy := Reference.scipy)
                       (map Extract.power_watts Samples.two_rows))).
Proof.
  assert (L1 : 2 <= len Samples.two_measurements) by (vm_compute; discriminate).
  assert (L2 : 2 <= len Samples.two_rows) by (vm_compute; discriminate).
  split.
  - split; [exact L1|].
    destruct (proj1 (C1_confidence_interval Reference.scipy)
                Samples.two_measurements "power_consumption_watts"
                Json.power_consumption_watts L1 (or_introl eq_refl))
      as (stats & entry & R & G & _ & _ & M & _).
    exists stats, entry. repeat split; assumption.
  - split; [exact L2|].
    destruct (proj2 (C1_confidence_interval Reference.scipy)
                Samples.two_rows "power_watts" Extract.power_watts L2
                (or_intror (or_intror (or_introl eq_refl))))
      as (processed & entry & R & G & _ & _ & M & _).
    exists processed, entry. repeat split; assumption.
Defined.

(** On the rows [two_rows] (40 and 44 degrees) the extraction path gives
    the temperature an interval around its mean of 42. *)
Lemma C6_temperature_interval_in_extraction :
  exists processed entry lo hi,
    Extract.calculate_real_statistics (scipy := Reference.scipy)
      Samples.two_rows = inr processed
    /\ dict_get String.eqb (Extract.performance_statistics processed)
         "temperature_celsius" = Some entry
    /\ Extract.lower (Extract.confidence_interval_95 entry) = Fin lo
    /\ Extract.upper (Extract.confidence_interval_95 entry) = Fin hi
    /\ (lo < 42 < hi)%Q.
Proof.
  eexists; eexists; eexists; eexists.
  split; [vm_compute; reflexivity|].
  split; [vm_compute; reflexivity|].
  split; [vm_compute; reflexivity|].
  split; [vm_compute; reflexivity|].
  split; vm_compute; reflexivity.
Qed.

(** C6, as the code has it.  [reproduce_summary_statistics] returns four
    entries on a non-empty list and leaves exactly the temperature entry
    without an interval; [calculate_real_statistics] gives each of its five
    metrics, latency and temperature included, the interval
    [mean - margin, mean + margin] as soon as there are two rows. *)
Theorem C6_intervals_by_script (scipy : SciPy) :
  (forall (m : Json.measurement) (ms : list Json.measurement),
      exists stats,
        Validate.reproduce_summary_statistics (m :: ms) = inr stats
        /\ map fst stats
           = ["power_consumption_watts"; "throughput_fps";
              "efficiency_fps_per_watt"; "temperature_celsius"]
        /\ forall name entry,
             In (name, entry) stats ->
             (Validate.confidence_interval_95 entry = None
              <-> name = "temperature_celsius"))
  /\ (forall (r1 r2 : Extract.row) (df : list Extract.row),
      exists processed,
        Extract.calculate_real_statistics (r1 :: r2 :: df) = inr processed
        /\ map fst (Extract.performance_statistics processed)
           = ["latency_ms"; "throughput_fps"; "power_watts";
              "efficiency_fps_per_watt"; "temperature_celsius"]
        /\ forall name entry,
             In (name, entry) (Extract.performance_statistics processed) ->
             Extract.lower (Extract.confidence_interval_95 entry)
             = np_sub (Extract.mean entry)
                 (Extract.margin_of_error (Extract.confidence_interval_95 entry))
             /\ Extract.upper (Extract.confidence_interval_95 entry)
                = np_add (Extract.mean entry)
                    (Extract.margin_of_error
                       (Extract.confidence_interval_95 entry))).
Proof.
  split.
  - intros m ms.
    destruct (reproduce_summary_statistics_nonempty m ms)
      as (lo1 & hi1 & lo2 & hi2 & lo3 & hi3 & lo4 & hi4 & R).
    eexists. split; [exact R|]. split; [reflexivity|].
    intros name entry I. cbn [In] in I.
    destruct I as [I|[I|[I|[I|[]]]]]; inversion I; subst name entry;
      cbn [interval_entry base_entry Validate.confidence_interval_95];
      split; intros H; try reflexivity; discriminate H.
  - intros r1 r2 df.
    assert (L : 2 <= len (r1 :: r2 :: df)).
    { rewrite !len_cons. pose proof (len_nonneg df). lia. }
    destruct (performance_statistics_eq (r1 :: r2 :: df) L) as [processed [C P]].
    exists processed. split; [exact C|]. rewrite P.
    split; [reflexivity|].
    intros name entry I. unfold Extract.metrics in I. cbn [map In] in I.
    destruct I as [I|[I|[I|[I|[I|[]]]]]]; inversion I; subst name entry;
      split; reflexivity.
Qed.

Lemma C6_intervals_by_script_witness :
  exists stats entry,
    Validate.reproduce_summary_statistics (scipy := Reference.scipy)
      Samples.two_measurements = inr stats
    /\ In ("temperature_celsius", entry) stats
    /\ Validate.confidence_interval_95 entry = None.
Proof.
  destruct (proj1 (C6_intervals_by_script Reference.scipy)
              (Samples.sample 10 100 20 5 40 None None None)
              [Samples.sample 8 125 25 5 44 None None None])
    as (stats & R & K & H).
  destruct stats as [|e1 [|e2 [|e3 [|[name entry] [|e5 stats]]]]];
    try discriminate K.
  injection K as _ _ _ K. subst name.
  exists [e1; e2; e3; ("temperature_celsius", entry)], entry.
  split; [exact R|].
  assert (I : In ("temperature_celsius", entry)
                 [e1; e2; e3; ("temperature_celsius", entry)])
    by (right; right; right; left; reflexivity).
  split; [exact I|].
  exact (proj2 (H "temperature_celsius" entry I) eq_refl).
Defined.

End StatisticsFacts.

(** ** Dictionaries *)

Section DictFacts.
Context {K V : Type} (eqb : K -> K -> bool).
Hypothesis eqb_eq : forall a b : K, eqb a b = true <-> a = b.

Lemma eqb_refl (a : K) : eqb a a = true.
Proof. now apply eqb_eq. Qed.

Lemma eqb_neq (a b : K) : a <> b -> eqb a b = false.
Proof.
  intros Ne. destruct (eqb a b) eqn:E; [|reflexivity].
  apply eqb_eq in E. contradiction.
Qed.

Lemma dict_get_set_same (d : list (K * V)) (k : K) (v : V) :
  dict_get eqb (dict_set eqb d k v) k = Some v.
Proof.
  induction d as [|[k' v'] d IH]; cbn [dict_set dict_get].
  - now rewrite eqb_refl.
  - destruct (eqb k' k) eqn:E; cbn [dict_get]; rewrite E; [reflexivity|exact IH].
Qed.

Lemma dict_get_set_other (d : list (K * V)) (k k' : K) (v : V) :
  k <> k' -> dict_get eqb (dict_set eqb d k v) k' = dict_get eqb d k'.
Proof.
  intros Ne. induction d as [|[k0 v0] d IH]; cbn [dict_set dict_get].
  - now rewrite eqb_neq.
  - destruct (eqb k0 k) eqn:E; cbn [dict_get].
    + apply eqb_eq in E; subst k0. now rewrite eqb_neq.
    + now rewrite IH.
Qed.

Lemma dict_get_none_keys (d : list (K * V)) (k : K) :
  dict_get eqb d k = None <-> ~ In k (map fst d).
Proof.
  induction d as [|[k' v'] d IH]; cbn [dict_get map fst In]; [tauto|].
  destruct (eqb k' k) eqn:E.
  - apply eqb_eq in E. split; [discriminate|]. intros N; exfalso; auto.
  - rewrite IH. split; [|tauto].
    intros N [Eq|I]; [|tauto]. subst. rewrite eqb_refl in E. discriminate.
Qed.

(** Setting a key keeps the keys in place, or adds the new key last. *)
Lemma dict_set_keys (d : list (K * V)) (k : K) (v : V) :
  map fst (dict_set eqb d k v)
  = if dict_mem eqb d k then map fst d else (map fst d ++ [k])%list.
Proof.
  unfold dict_mem.
  induction d as [|[k' v'] d IH]; cbn [dict_set dict_get map fst app];
    [reflexivity|].
  destruct (eqb k' k) eqn:E; cbn [map fst]; [reflexivity|].
  rewrite IH. destruct (dict_get eqb d k); reflexivity.
Qed.

Lemma dict_set_fresh (d : list (K * V)) (k : K) (v : V) :
  dict_get eqb d k = None -> dict_set eqb d k v = (d ++ [(k, v)])%list.
Proof.
  induction d as [|[k' v'] d IH]; cbn [dict_set dict_get app]; [reflexivity|].
  destruct (eqb k' k); [discriminate|]. intros N. now rewrite IH.
Qed.

Lemma dict_set_nodup (d : list (K * V)) (k : K) (v : V) :
  NoDup (map fst d) -> NoDup (map fst (dict_set eqb d k v)).
Proof.
  intros N. rewrite dict_set_keys. unfold dict_mem.
  destruct (dict_get eqb d k) eqn:G; [exact N|].
  apply dict_get_none_keys in G.
  apply NoDup_app; [exact N|repeat constructor; intros []|].
  intros x I [<-|[]]. contradiction.
Qed.

Lemma dict_get_in (d : list (K * V)) (k : K) (v : V) :
  dict_get eqb d k = Some v -> In (k, v) d.
Proof.
  induction d as [|[k' v'] d IH]; cbn [dict_get In]; [discriminate|].
  destruct (eqb k' k) eqn:E.
  - apply eqb_eq in E. intros [= ->]. left; congruence.
  - intros G; right; auto.
Qed.

Lemma dict_in_get (d : list (K * V)) (k : K) (v : V) :
  NoDup (map fst d) -> In (k, v) d -> dict_get eqb d k = Some v.
Proof.
  induction d as [|[k' v'] d IH]; cbn [dict_get In map fst]; [tauto|].
  intros N [E|I].
  - inversion E; subst. now rewrite eqb_refl.
  - inversion N as [|? ? NI N']; subst.
    destruct (eqb k' k) eqn:E; [|auto].
    apply eqb_eq in E; subst k'. exfalso; apply NI.
    change k with (fst (k, v)). now apply in_map.
Qed.

(** Two distinct keys make two entries. *)
Lemma dict_two_keys (d : list (K * V)) (k k' : K) (v v' : V) :
  k <> k' -> dict_get eqb d k = Some v -> dict_get eqb d k' = Some v' ->
  2 <= len d.
Proof.
  intros Ne G G'.
  destruct d as [|[k1 v1] [|[k2 v2] d]].
  - discriminate.
  - cbn [dict_get] in G, G'.
    destruct (eqb k1 k) eqn:E; [|discriminate].
    destruct (eqb k1 k') eqn:E'; [|discriminate].
    apply eqb_eq in E, E'. congruence.
  - rewrite !len_cons. pose proof (len_nonneg d). lia.
Qed.

Lemma dict_get_cons_other (d : list (K * V)) (k k' : K) (v : V) :
  k <> k' -> dict_get eqb ((k, v) :: d) k' = dict_get eqb d k'.
Proof. intros Ne. cbn [dict_get]. now rewrite eqb_neq. Qed.

(** A loop that sets distinct new keys, some of them, appends its entries
    in order. *)
Lemma fold_dict_set {B : Type} (p : B -> bool) (key : B -> K) (f : B -> V)
    (l : list B) (d : list (K * V)) :
  NoDup (map key l) ->
  (forall x, In x l -> ~ In (key x) (map fst d)) ->
  fold_left (fun acc x => if p x then dict_set eqb acc (key x) (f x) else acc)
            l d
  = (d ++ map (fun x => (key x, f x)) (filter p l))%list.
Proof.
  revert d; induction l as [|x l IH]; intros d N Fresh;
    cbn [fold_left filter map].
  - now rewrite app_nil_r.
  - inversion N as [|? ? NI N']; subst.
    destruct (p x) eqn:P.
    + rewrite dict_set_fresh
        by (apply dict_get_none_keys; apply Fresh; now left).
      rewrite IH; [cbn [map]; now rewrite <- app_assoc|exact N'|].
      intros y I. rewrite map_app, in_app_iff. cbn [map fst In].
      intros [J|[J|[]]].
      * apply (Fresh y); [now right|exact J].
      * apply NI. rewrite J. now apply in_map.
    + apply IH; [exact N'|]. intros y I. apply Fresh. now right.
Qed.

Lemma dict_get_map {B : Type} (f : K -> B -> V) (l : list (K * B)) (k : K) :
  dict_get eqb (map (fun x => (fst x, f (fst x) (snd x))) l) k
  = match dict_get eqb l k with
    | Some b => Some (f k b)
    | None => None
    end.
Proof.
  induction l as [|[k' b] l IH]; cbn [map dict_get fst snd]; [reflexivity|].
  destruct (eqb k' k) eqn:E; [|exact IH].
  apply eqb_eq in E. now subst.
Qed.

Lemma dict_get_filter (q : K -> bool) (l : list (K * V)) (k : K) :
  dict_get eqb (filter (fun x => q (fst x)) l) k
  = if q k then dict_get eqb l k else None.
Proof.
  induction l as [|[k' v] l IH]; cbn [filter dict_get fst].
  - now destruct (q k).
  - destruct (q k') eqn:Q; cbn [dict_get]; destruct (eqb k' k) eqn:E.
    + apply eqb_eq in E; subst. now rewrite Q.
    + exact IH.
    + apply eqb_eq in E; subst. rewrite IH. now rewrite Q.
    + exact IH.
Qed.

End DictFacts.

(** *** Grouping with [dict_append] *)

Section GroupFacts.
Context {K A : Type} (eqb : K -> K -> bool).
Hypothesis eqb_eq : forall a b : K, eqb a b = true <-> a = b.

Lemma dict_append_get_same (d : list (K * list A)) (k : K) (x : A) :
  dict_get eqb (dict_append eqb d k x) k
  = Some (match dict_get eqb d k with
          | Some l => l ++ [x]
          | None => [x]
          end)%list.
Proof.
  unfold dict_append, dict_mem.
  destruct (dict_get eqb d k) as [l|] eqn:G.
  - rewrite G. now apply dict_get_set_same.
  - rewrite dict_get_set_same by exact eqb_eq.
    now rewrite dict_get_set_same.
Qed.

Lemma dict_append_get_other (d : list (K * list A)) (k k' : K) (x : A) :
  k <> k' -> dict_get eqb (dict_append eqb d k x) k' = dict_get eqb d k'.
Proof.
  intros Ne. unfold dict_append, dict_mem.
  destruct (dict_get eqb d k) as [l|] eqn:G.
  - rewrite G. now apply dict_get_set_other.
  - rewrite dict_get_set_same by exact eqb_eq.
    rewrite !dict_get_set_other by assumption. reflexivity.
Qed.

Lemma dict_append_nodup (d : list (K * list A)) (k : K) (x : A) :
  NoDup (map fst d) -> NoDup (map fst (dict_append eqb d k x)).
Proof.
  intros N. unfold dict_append, dict_mem.
  destruct (dict_get eqb d k) as [l|] eqn:G.
  - rewrite G. now apply dict_set_nodup.
  - rewrite dict_get_set_same by exact eqb_eq.
    apply dict_set_nodup; [exact eqb_eq|]. now apply dict_set_nodup.
Qed.

(** The grouping loop: [key] names the group of each element. *)
Definition group_by (key : A -> K) (l : list A) (d : list (K * list A))
    : list (K * list A) :=
  fold_left (fun g x => dict_append eqb g (key x) x) l d.

Lemma group_by_nodup (key : A -> K) (l : list A) (d : list (K * list A)) :
  NoDup (map fst d) -> NoDup (map fst (group_by key l d)).
Proof.
  revert d; induction l as [|x l IH]; intros d N; [exact N|].
  apply IH. now apply dict_append_nodup.
Qed.

(** A group holds the elements with its key, in the order of the input,
    after what it held before. *)
Lemma group_by_get (key : A -> K) (l : list A) (d : list (K * list A)) (k : K) :
  dict_get eqb (group_by key l d) k
  = match dict_get eqb d k, filter (fun x => eqb (key x) k) l with
    | Some l0, matching => Some (l0 ++ matching)%list
    | None, [] => None
    | None, matching => Some matching
    end.
Proof.
  revert d; induction l as [|x l IH]; intros d; cbn [group_by fold_left filter].
  - destruct (dict_get eqb d k); [now rewrite app_nil_r|reflexivity].
  - fold (group_by key l (dict_append eqb d (key x) x)). rewrite IH.
    destruct (eqb (key x) k) eqn:E.
    + apply eqb_eq in E; subst k. rewrite dict_append_get_same.
      destruct (dict_get eqb d (key x)); [|reflexivity].
      now rewrite <- app_assoc.
    + rewrite dict_append_get_other; [reflexivity|].
      intros Eq. rewrite Eq, (eqb_refl eqb eqb_eq) in E. discriminate.
Qed.

Lemma group_by_get_nil (key : A -> K) (l : list A) (k : K) :
  dict_get eqb (group_by key l []) k
  = match filter (fun x => eqb (key x) k) l with
    | [] => None
    | matching => Some matching
    end.
Proof. rewrite group_by_get. reflexivity. Qed.

(** The members of a group of [group_by key l []]. *)
Lemma group_by_in (key : A -> K) (l : list A) (k : K) (g : list A) :
  In (k, g) (group_by key l []) ->
  g = filter (fun x => eqb (key x) k) l /\ g <> [].
Proof.
  intros I.
  apply (dict_in_get eqb eqb_eq) in I; [|apply group_by_nodup; constructor].
  rewrite group_by_get_nil in I.
  destruct (filter (fun x => eqb (key x) k) l) eqn:F; [discriminate|].
  inversion I; subst. split; [reflexivity|discriminate].
Qed.

End GroupFacts.

(** ** Configuration keys *)

(** The characters of a printed integer. *)
Definition is_numeric (c : ascii) : bool :=
  existsb (Ascii.eqb c) (list_ascii_of_string "0123456789-").

Fixpoint all_numeric (s : string) : bool :=
  match s with
  | EmptyString => true
  | String c s' => is_numeric c && all_numeric s'
  end.

Lemma all_numeric_uint (u : Decimal.uint) :
  all_numeric (NilEmpty.string_of_uint u) = true.
Proof. induction u; cbn [NilEmpty.string_of_uint all_numeric]; auto. Qed.

Lemma all_numeric_str_of_int (z : Z) : all_numeric (str_of_int z) = true.
Proof.
  unfold str_of_int, NilZero.string_of_int, NilZero.string_of_uint.
  destruct (Z.to_int z) as [u|u]; destruct u;
    try reflexivity; try apply all_numeric_uint;
    cbn [all_numeric]; rewrite ?all_numeric_uint; reflexivity.
Qed.

Lemma str_of_int_inj (z z' : Z) : str_of_int z = str_of_int z' -> z = z'.
Proof.
  intros E.
  assert (P : forall d, option_map Z.of_int
                (NilZero.int_of_string (NilZero.string_of_int d))
              = Some (Z.of_int d)).
  { intros d.
    destruct (Decimal.signed_int_eq_dec d (Decimal.Pos Decimal.Nil)) as [->|N1];
      [reflexivity|].
    destruct (Decimal.signed_int_eq_dec d (Decimal.Neg Decimal.Nil)) as [->|N2];
      [reflexivity|].
    now rewrite NilZero.isi. }
  pose proof (P (Z.to_int z)) as Pz. pose proof (P (Z.to_int z')) as Pz'.
  unfold str_of_int in E. rewrite E, Pz' in Pz.
  rewrite !DecimalZ.of_to in Pz. congruence.
Qed.

Lemma all_numeric_app (s t : string) :
  all_numeric (s ++ t) = all_numeric s && all_numeric t.
Proof.
  induction s as [|c s IH]; [reflexivity|].
  cbn [append all_numeric]. now rewrite IH, andb_assoc.
Qed.

(** A numeric tail after a character that is not numeric is determined by
    the whole string. *)
Lemma numeric_tail_unique (c : ascii) (x x' n n' : string) :
  is_numeric c = false ->
  all_numeric n = true -> all_numeric n' = true ->
  x ++ String c n = x' ++ String c n' -> x = x' /\ n = n'.
Proof.
  intros C N N'. revert x'; induction x as [|d x IH]; intros x' E.
  - destruct x' as [|d' x']; cbn [append] in E.
    + injection E as ->. auto.
    + injection E as -> ->. rewrite all_numeric_app in N.
      cbn [all_numeric] in N. rewrite C in N.
      rewrite andb_false_l, andb_false_r in N. discriminate.
  - destruct x' as [|d' x']; cbn [append] in E.
    + injection E as <- <-. rewrite all_numeric_app in N'.
      cbn [all_numeric] in N'. rewrite C in N'.
      rewrite andb_false_l, andb_false_r in N'. discriminate.
    + injection E as -> E. destruct (IH x' E) as [-> ->]. auto.
Qed.

Lemma append_assoc (a b c : string) : (a ++ b) ++ c = a ++ (b ++ c).
Proof. induction a as [|x a IH]; [reflexivity|]. cbn [append]. now rewrite IH. Qed.

Lemma append_inv_tail (a a' t : string) : a ++ t = a' ++ t -> a = a'.
Proof.
  intros E.
  assert (L : forall s u,
             String.length (s ++ u) = (String.length s + String.length u)%nat).
  { induction s as [|y s IHs]; intros u; cbn [append String.length plus];
      [reflexivity|now rewrite IHs]. }
  revert a' E; induction a as [|x a IH]; intros [|x' a'] E; cbn [append] in E.
  - reflexivity.
  - exfalso. apply (f_equal String.length) in E. cbn [String.length] in E.
    rewrite L in E. cbn [String.length] in E. lia.
  - exfalso. apply (f_equal String.length) in E. cbn [String.length] in E.
    rewrite L in E. cbn [String.length] in E. lia.
  - inversion E. f_equal. now apply IH.
Qed.

(** [prefix ++ sep ++ str(z)] determines [prefix] and [z] when [sep] ends
    with a character that is not numeric. *)
Lemma labelled_int_inj (sep : string) (c : ascii) (p p' : string) (z z' : Z) :
  is_numeric c = false ->
  p ++ (sep ++ String c "") ++ str_of_int z
  = p' ++ (sep ++ String c "") ++ str_of_int z' ->
  p = p' /\ z = z'.
Proof.
  intros C E.
  assert (R : forall q n, q ++ (sep ++ String c "") ++ n = (q ++ sep) ++ String c n).
  { intros q n. rewrite !append_assoc. reflexivity. }
  rewrite !R in E.
  destruct (numeric_tail_unique c _ _ _ _ C (all_numeric_str_of_int z)
              (all_numeric_str_of_int z') E) as [P Z].
  split; [now apply append_inv_tail in P|now apply str_of_int_inj].
Qed.

Module KeyFacts.
Import Json Validate.

(** A configuration key names one model, core count and batch size. *)
Lemma config_key_of_inj (m m' : measurement) :
  config_key_of m = config_key_of m' <->
  get (model_name m) "unknown" = get (model_name m') "unknown"
  /\ get (core_count m) 1 = get (core_count m') 1
  /\ get (batch_size m) 1 = get (batch_size m') 1.
Proof.
  unfold config_key_of. split.
  - intros E.
    assert (R : forall p c b,
               p ++ "_cores" ++ str_of_int c ++ "_batch" ++ str_of_int b
               = (p ++ ("_core" ++ String "s" "") ++ str_of_int c)
                 ++ ("_batc" ++ String "h" "") ++ str_of_int b).
    { intros p c b. rewrite !append_assoc. reflexivity. }
    rewrite !R in E.
    apply labelled_int_inj in E; [|reflexivity]. destruct E as [E B].
    apply labelled_int_inj in E; [|reflexivity]. destruct E as [M C].
    auto.
  - intros (-> & -> & ->). reflexivity.
Qed.

(** A combination key names one model and batch size. *)
Lemma combo_key_of_inj (m m' : measurement) :
  combo_key_of m = combo_key_of m' <->
  get (model_name m) "unknown" = get (model_name m') "unknown"
  /\ get (batch_size m) 1 = get (batch_size m') 1.
Proof.
  unfold combo_key_of. split.
  - intros E.
    change (get (model_name m) "unknown"
            ++ ("_batc" ++ String "h" "") ++ str_of_int (get (batch_size m) 1)
            = get (model_name m') "unknown"
              ++ ("_batc" ++ String "h" "")
              ++ str_of_int (get (batch_size m') 1)) in E.
    apply labelled_int_inj in E; [exact E|reflexivity].
  - intros (-> & ->). reflexivity.
Qed.

End KeyFacts.

(** ** Multi-core scaling in the extraction path *)

Module ExtractScalingFacts.
Import Extract.

Definition resnet18_batch1 (df : list row) : list row :=
  filter (fun r => String.eqb (model r) "resnet18-imagenet"
                   && (batch_size r =? 1)) df.

Definition rows_on (df : list row) (c : Z) : list row :=
  filter (fun r => cores r =? c) (resnet18_batch1 df).

Definition mean_throughput_on (df : list row) (c : Z) : npf :=
  np_mean (map throughput_fps (rows_on df c)).

Lemma len_positive {B : Type} (l : list B) : l <> [] -> (0 <? len l) = true.
Proof.
  destruct l; [congruence|]. intros _. rewrite len_cons.
  pose proof (len_nonneg l). apply Z.ltb_lt. lia.
Qed.

Lemma scale_cores_absent (rb : list row)
    (st : list (string * scaling_detail) * option npf) (c : Z) :
  filter (fun r => cores r =? c) rb = [] -> scale_cores rb st c = st.
Proof.
  intros E. unfold scale_cores. destruct st as [sd b]. now rewrite E.
Qed.

Lemma scale_cores_baseline (rb : list row)
    (st : list (string * scaling_detail) * option npf) :
  filter (fun r => cores r =? 1) rb <> [] ->
  snd (scale_cores rb st 1)
  = Some (np_mean (map throughput_fps (filter (fun r => cores r =? 1) rb))).
Proof.
  intros NE. unfold scale_cores. destruct st as [sd b].
  now rewrite (len_positive _ NE).
Qed.

Lemma scale_cores_present (rb : list row) (sd : list (string * scaling_detail))
    (baseline : npf) (c : Z) :
  c <> 1 ->
  filter (fun r => cores r =? c) rb <> [] ->
  np_nonzero baseline = true ->
  exists detail,
    scale_cores rb (sd, Some baseline) c
    = (dict_set String.eqb sd (str_of_int c ++ "_cores") detail, Some baseline)
    /\ scaling_factor detail
       = np_div (np_mean (map throughput_fps
                            (filter (fun r => cores r =? c) rb))) baseline
    /\ efficiency detail = np_div (scaling_factor detail) (of_int c).
Proof.
  intros Ne NE NZ. unfold scale_cores.
  rewrite (len_positive _ NE).
  replace (c =? 1) with false by (symmetry; now apply Z.eqb_neq).
  cbn [truthy Json.get]. rewrite NZ.
  eexists. split; [reflexivity|]. split; reflexivity.
Qed.

(** With a 1-core baseline of non-zero mean, the entry of two or of four
    cores has the ratio of the means as its scaling factor and the factor
    over the core count as its efficiency. *)
Lemma extraction_scaling (df : list row) (c : Z) :
  c = 2 \/ c = 4 ->
  rows_on df 1 <> [] ->
  rows_on df c <> [] ->
  np_nonzero (mean_throughput_on df 1) = true ->
  exists detail,
    dict_get String.eqb (scaling_details (_analyze_multicore_scaling df))
      (str_of_int c ++ "_cores") = Some detail
    /\ scaling_factor detail
       = np_div (mean_throughput_on df c) (mean_throughput_on df 1)
    /\ efficiency detail = np_div (scaling_factor detail) (of_int c).
Proof.
  intros C B P NZ.
  unfold _analyze_multicore_scaling. cbn [scaling_details fold_left].
  fold (resnet18_batch1 df).
  unfold rows_on, mean_throughput_on in *.
  set (rb := resnet18_batch1 df) in *.
  set (base := np_mean (map throughput_fps (filter (fun r => cores r =? 1) rb)))
    in *.
  destruct (scale_cores rb ([], None) 1) as [sd1 b1] eqn:S1.
  assert (B1 : b1 = Some base).
  { pose proof (scale_cores_baseline rb ([], None) B) as H.
    now rewrite S1 in H. }
  subst b1.
  destruct C as [-> | ->].
  - destruct (scale_cores_present rb sd1 base 2) as (d & -> & F & E);
      [lia|exact P|exact NZ|].
    destruct (filter (fun r => cores r =? 4) rb) as [|r4 l4] eqn:F4.
    + rewrite (scale_cores_absent rb _ 4 F4). cbn [fst].
      exists d. split; [|split; assumption].
      now apply dict_get_set_same, String.eqb_eq.
    + destruct (scale_cores_present rb
                  (dict_set String.eqb sd1 (str_of_int 2 ++ "_cores") d)
                  base 4) as (d4 & -> & _ & _);
        [lia|rewrite F4; discriminate|exact NZ|].
      cbn [fst]. exists d. split; [|split; assumption].
      rewrite dict_get_set_other
        by (try apply String.eqb_eq; discriminate).
      now apply dict_get_set_same, String.eqb_eq.
  - destruct (filter (fun r => cores r =? 2) rb) as [|r2 l2] eqn:F2.
    + rewrite (scale_cores_absent rb _ 2 F2).
      destruct (scale_cores_present rb sd1 base 4) as (d & -> & F & E);
        [lia|exact P|exact NZ|].
      cbn [fst]. exists d. split; [|split; assumption].
      now apply dict_get_set_same, String.eqb_eq.
    + destruct (scale_cores_present rb sd1 base 2) as (d2 & -> & _ & _);
        [lia|rewrite F2; discriminate|exact NZ|].
      destruct (scale_cores_present rb
                  (dict_set String.eqb sd1 (str_of_int 2 ++ "_cores") d2)
                  base 4) as (d & -> & F & E);
        [lia|exact P|exact NZ|].
      cbn [fst]. exists d. split; [|split; assumption].
      now apply dict_get_set_same, String.eqb_eq.
Qed.

(** The baseline and the entry that one turn of the loop computes. *)
Definition baseline_after (rb : list row) (b : option npf) (c : Z)
    : option npf :=
  if c =? 1
  then Some (np_mean (map throughput_fps (filter (fun r => cores r =? c) rb)))
  else b.

Definition detail_of (rb : list row) (b : option npf) (c : Z)
    : scaling_detail :=
  let core_data := filter (fun r => cores r =? c) rb in
  let mean_throughput := np_mean (map throughput_fps core_data) in
  let factor :=
    if c =? 1 then Fin 1
    else if truthy (baseline_after rb b c)
         then np_div mean_throughput (Json.get (baseline_after rb b c) NaN)
         else Fin 0 in
  {| detail_throughput_fps := mean_throughput;
     scaling_factor := factor;
     efficiency := if c =? 1 then Fin 1 else np_div factor (of_int c);
     sample_count := len core_data |}.

Lemma scale_cores_eq (rb : list row) (sd : list (string * scaling_detail))
    (b : option npf) (c : Z) :
  scale_cores rb (sd, b) c
  = if 0 <? len (filter (fun r => cores r =? c) rb)
    then (dict_set String.eqb sd (str_of_int c ++ "_cores") (detail_of rb b c),
          baseline_after rb b c)
    else (sd, b).
Proof. reflexivity. Qed.

(** Every core count of 1, 2, 4 that has rows gets its entry; without
    1-core rows, the entries of two and four cores have factor 0. *)
Lemma extraction_never_skips (df : list row) (c : Z) :
  In c [1; 2; 4] ->
  rows_on df c <> [] ->
  exists detail,
    dict_get String.eqb (scaling_details (_analyze_multicore_scaling df))
      (str_of_int c ++ "_cores") = Some detail
    /\ (rows_on df 1 = [] ->
        scaling_factor detail = Fin 0
        /\ efficiency detail = np_div (Fin 0) (of_int c)).
Proof.
  intros C P.
  unfold _analyze_multicore_scaling. cbn [scaling_details fold_left].
  fold (resnet18_batch1 df). unfold rows_on in *.
  set (rb := resnet18_batch1 df) in *.
  rewrite (scale_cores_eq rb [] None 1).
  destruct (filter (fun r => cores r =? 1) rb) as [|r1 l1] eqn:F1;
    [replace (0 <? len (@nil row)) with false by reflexivity
    |rewrite (len_positive (r1 :: l1)) by discriminate];
    rewrite scale_cores_eq;
    (destruct (filter (fun r => cores r =? 2) rb) as [|r2 l2] eqn:F2;
     [replace (0 <? len (@nil row)) with false by reflexivity
     |rewrite (len_positive (r2 :: l2)) by discriminate]);
    rewrite scale_cores_eq;
    (destruct (filter (fun r => cores r =? 4) rb) as [|r4 l4] eqn:F4;
     [replace (0 <? len (@nil row)) with false by reflexivity
     |rewrite (len_positive (r4 :: l4)) by discriminate]);
    cbn [In] in C; destruct C as [<-|[<-|[<-|[]]]];
    try (exfalso; apply P; first [exact F1|exact F2|exact F4]);
    (eexists; split; [reflexivity|]);
    intros E; try discriminate E; split; reflexivity.
Qed.

(** The baseline that the turns for two and four cores see. *)
Definition baseline_of (rb : list row) : option npf :=
  match filter (fun r => cores r =? 1) rb with
  | [] => None
  | core_data => Some (np_mean (map throughput_fps core_data))
  end.

(** The entry, if any, that the turn for [c] cores adds. *)
Definition entry_of (rb : list row) (b : option npf) (c : Z)
    : list (string * scaling_detail) :=
  match filter (fun r => cores r =? c) rb with
  | [] => []
  | _ => [(str_of_int c ++ "_cores", detail_of rb b c)]
  end.

Ltac split_rows rb c F :=
  let r := fresh "r" in
  let l := fresh "l" in
  rewrite scale_cores_eq;
  destruct (filter (fun r => cores r =? c) rb) as [|r l] eqn:F;
  [replace (0 <? len (@nil row)) with false by reflexivity
  |rewrite (len_positive (r :: l)) by discriminate].

(** The three turns of the loop, one after the other. *)
Lemma scaling_details_eq (df : list row) :
  scaling_details (_analyze_multicore_scaling df)
  = (entry_of (resnet18_batch1 df) None 1
     ++ entry_of (resnet18_batch1 df) (baseline_of (resnet18_batch1 df)) 2
     ++ entry_of (resnet18_batch1 df) (baseline_of (resnet18_batch1 df)) 4)%list.
Proof.
  unfold _analyze_multicore_scaling. cbn [scaling_details fold_left].
  fold (resnet18_batch1 df). set (rb := resnet18_batch1 df).
  unfold entry_of, baseline_of.
  split_rows rb 1 F1; split_rows rb 2 F2; split_rows rb 4 F4;
    cbn [fst]; unfold baseline_after; cbn [Z.eqb Pos.eqb];
    rewrite ?F1; reflexivity.
Qed.

Lemma scaling_details_get (df : list row) (c : Z) :
  In c [1; 2; 4] ->
  dict_get String.eqb (scaling_details (_analyze_multicore_scaling df))
    (str_of_int c ++ "_cores")
  = match rows_on df c with
    | [] => None
    | _ => Some (detail_of (resnet18_batch1 df)
                   (if c =? 1 then None else baseline_of (resnet18_batch1 df))
                   c)
    end.
Proof.
  intros C. rewrite scaling_details_eq. unfold rows_on, entry_of.
  set (rb := resnet18_batch1 df).
  generalize (baseline_of rb); intros b.
  cbn [In] in C; destruct C as [<-|[<-|[<-|[]]]];
    destruct (filter (fun r => cores r =? 1) rb);
    destruct (filter (fun r => cores r =? 2) rb);
    destruct (filter (fun r => cores r =? 4) rb);
    reflexivity.
Qed.

Lemma scaling_details_keys (df : list row) (k : string) :
  In k (map fst (scaling_details (_analyze_multicore_scaling df))) ->
  In k ["1_cores"; "2_cores"; "4_cores"].
Proof.
  rewrite scaling_details_eq. unfold entry_of.
  set (rb := resnet18_batch1 df).
  destruct (filter (fun r => cores r =? 1) rb);
    destruct (filter (fun r => cores r =? 2) rb);
    destruct (filter (fun r => cores r =? 4) rb);
    cbn; tauto.
Qed.

(** What the entry of two or of four cores holds, in every case. *)
Lemma extraction_entry (df : list row) (c : Z) :
  c = 2 \/ c = 4 ->
  rows_on df c <> [] ->
  exists detail,
    dict_get String.eqb (scaling_details (_analyze_multicore_scaling df))
      (str_of_int c ++ "_cores") = Some detail
    /\ (rows_on df 1 <> [] ->
        np_nonzero (mean_throughput_on df 1) = true ->
        scaling_factor detail
        = np_div (mean_throughput_on df c) (mean_throughput_on df 1))
    /\ (rows_on df 1 <> [] ->
        np_nonzero (mean_throughput_on df 1) = false ->
        scaling_factor detail = Fin 0)
    /\ (rows_on df 1 = [] -> scaling_factor detail = Fin 0)
    /\ efficiency detail = np_div (scaling_factor detail) (of_int c).
Proof.
  intros C P.
  rewrite (scaling_details_get df c)
    by (cbn [In]; destruct C as [-> | ->]; auto).
  destruct (rows_on df c) as [|r l] eqn:E; [now elim P|].
  eexists. split; [reflexivity|].
  assert (Ne : (c =? 1) = false) by (destruct C as [-> | ->]; reflexivity).
  unfold detail_of, baseline_after, baseline_of.
  cbn [scaling_factor efficiency]. rewrite Ne.
  unfold mean_throughput_on, rows_on.
  destruct (filter (fun r => cores r =? 1) (resnet18_batch1 df))
    as [|r1 l1] eqn:F1; cbn [truthy Json.get].
  - split; [intros B; now elim B|]. split; [intros B; now elim B|].
    split; reflexivity.
  - split; [intros _ NZ; now rewrite NZ|].
    split; [intros _ NZ; now rewrite NZ|].
    split; [discriminate|reflexivity].
Qed.

(** Rows of another model, or of another batch size, add nothing. *)
Lemma extraction_other_groups (df : list row) :
  (forall r, In r df ->
             model r <> "resnet18-imagenet" \/ batch_size r <> 1) ->
  scaling_details (_analyze_multicore_scaling df) = [].
Proof.
  intros H.
  assert (E : resnet18_batch1 df = []).
  { unfold resnet18_batch1. induction df as [|r df IH]; [reflexivity|].
    cbn [filter].
    replace (String.eqb (model r) "resnet18-imagenet" && (batch_size r =? 1))
      with false.
    - apply IH. intros x I. apply H. now right.
    - symmetry. apply andb_false_iff.
      destruct (H r (or_introl eq_refl)) as [M|B];
        [left; now apply String.eqb_neq|right; now apply Z.eqb_neq]. }
  rewrite scaling_details_eq, E. reflexivity.
Qed.

End ExtractScalingFacts.

(** ** Multi-core scaling *)

Module ScalingFacts.
Import Json Validate.

Definition cores_of (m : measurement) : Z := get (core_count m) 1.

(** The measurements of a model/batch combination, and those of them taken
    on [c] cores. *)
Definition members (measurements : list measurement) (k : string)
    : list measurement :=
  filter (fun m => String.eqb (combo_key_of m) k) measurements.

Definition core_group (measurements : list measurement) (k : string) (c : Z)
    : list measurement :=
  filter (fun m => cores_of m =? c) (members measurements k).

Definition avg_throughput_of (measurements : list measurement) (k : string)
    (c : Z) : npf :=
  np_mean (map throughput_fps (core_group measurements k c)).

(** One step of the grouping loop. *)
Definition group_step (scaling_analysis : list (string * list (Z * list measurement)))
    (m : measurement) : list (string * list (Z * list measurement)) :=
  let key := combo_key_of m in
  let cores := get (core_count m) 1 in
  let scaling_analysis :=
    if dict_mem String.eqb scaling_analysis key then scaling_analysis
    else dict_set String.eqb scaling_analysis key [] in
  match dict_get String.eqb scaling_analysis key with
  | Some by_cores =>
      dict_set String.eqb scaling_analysis key
        (dict_append Z.eqb by_cores cores m)
  | None => scaling_analysis
  end.

Lemma group_step_get_same acc m :
  dict_get String.eqb (group_step acc m) (combo_key_of m)
  = Some (dict_append Z.eqb
            (match dict_get String.eqb acc (combo_key_of m) with
             | Some inner => inner
             | None => []
             end) (cores_of m) m).
Proof.
  unfold group_step, dict_mem.
  destruct (dict_get String.eqb acc (combo_key_of m)) as [inner|] eqn:G.
  - rewrite G. now apply dict_get_set_same, String.eqb_eq.
  - rewrite dict_get_set_same by apply String.eqb_eq.
    now apply dict_get_set_same, String.eqb_eq.
Qed.

Lemma group_step_get_other acc m k :
  combo_key_of m <> k ->
  dict_get String.eqb (group_step acc m) k = dict_get String.eqb acc k.
Proof.
  intros Ne. unfold group_step, dict_mem.
  destruct (dict_get String.eqb acc (combo_key_of m)) as [inner|] eqn:G.
  - rewrite G. now apply dict_get_set_other; [apply String.eqb_eq|].
  - rewrite dict_get_set_same by apply String.eqb_eq.
    rewrite !dict_get_set_other by (try apply String.eqb_eq; assumption).
    reflexivity.
Qed.

Lemma group_step_nodup acc m :
  NoDup (map fst acc) -> NoDup (map fst (group_step acc m)).
Proof.
  intros N. unfold group_step, dict_mem.
  destruct (dict_get String.eqb acc (combo_key_of m)) as [inner|] eqn:G.
  - rewrite G. now apply dict_set_nodup; [apply String.eqb_eq|].
  - rewrite dict_get_set_same by apply String.eqb_eq.
    apply dict_set_nodup; [apply String.eqb_eq|].
    now apply dict_set_nodup; [apply String.eqb_eq|].
Qed.

Lemma groups_nodup ms acc :
  NoDup (map fst acc) -> NoDup (map fst (fold_left group_step ms acc)).
Proof.
  revert acc; induction ms as [|m ms IH]; intros acc N; [exact N|].
  apply IH. now apply group_step_nodup.
Qed.

(** Under its key, a combination holds its members grouped by core count. *)
Lemma groups_get ms acc k :
  dict_get String.eqb (fold_left group_step ms acc) k
  = match dict_get String.eqb acc k, members ms k with
    | Some inner, l => Some (group_by Z.eqb cores_of l inner)
    | None, [] => None
    | None, l => Some (group_by Z.eqb cores_of l [])
    end.
Proof.
  revert acc; induction ms as [|m ms IH]; intros acc;
    cbn [fold_left members filter].
  - now destruct (dict_get String.eqb acc k).
  - rewrite IH. fold (members ms k).
    destruct (String.eqb (combo_key_of m) k) eqn:E.
    + apply String.eqb_eq in E; subst k. rewrite group_step_get_same.
      destruct (dict_get String.eqb acc (combo_key_of m)); reflexivity.
    + apply String.eqb_neq in E. rewrite (group_step_get_other _ _ _ E).
      reflexivity.
Qed.

Lemma scaling_groups_get ms k :
  dict_get String.eqb (scaling_groups ms) k
  = match members ms k with
    | [] => None
    | l => Some (group_by Z.eqb cores_of l [])
    end.
Proof. exact (groups_get ms [] k). Qed.

Lemma scaling_groups_nodup ms : NoDup (map fst (scaling_groups ms)).
Proof. apply (groups_nodup ms []). constructor. Qed.

(** *** From the groups to the results *)

Lemma fold_left_ext {S B : Type} (f g : S -> B -> S) (l : list B) (a : S) :
  (forall a x, f a x = g a x) -> fold_left f l a = fold_left g l a.
Proof.
  intros E. revert a; induction l as [|x l IH]; intros a; [reflexivity|].
  cbn [fold_left]. now rewrite E, IH.
Qed.

Definition perf_of (l : list measurement) : core_perf :=
  {| core_avg_throughput := np_mean (map throughput_fps l);
     core_avg_power := np_mean (map power_consumption_watts l);
     core_avg_efficiency := np_mean (map efficiency_fps_per_watt l);
     core_measurement_count := len l |}.

Definition metric_of (baseline_throughput : npf) (c : Z) (perf : core_perf)
    : scaling_metric :=
  {| scaling_factor := np_div (core_avg_throughput perf) baseline_throughput;
     scaling_efficiency_percent :=
       np_mul (np_div (np_div (core_avg_throughput perf) baseline_throughput)
                      (of_int c))
              (of_int 100);
     throughput_improvement :=
       np_mul (np_sub (np_div (core_avg_throughput perf) baseline_throughput)
                      (of_int 1))
              (of_int 100) |}.

Lemma core_performance_of_eq (core_data : list (Z * list measurement)) :
  NoDup (map fst core_data) ->
  core_performance_of core_data
  = map (fun item => (fst item, perf_of (snd item))) core_data.
Proof.
  intros N. unfold core_performance_of.
  rewrite (fold_left_ext _
             (fun acc (item : Z * list measurement) =>
                if (fun _ => true) item
                then dict_set Z.eqb acc (fst item) (perf_of (snd item))
                else acc))
    by (intros acc [c l]; reflexivity).
  rewrite (fold_dict_set Z.eqb Z.eqb_eq (fun _ => true) fst
             (fun item => perf_of (snd item)) core_data [])
    by (auto; intros x _ []).
  cbn [app]. f_equal. clear N.
  induction core_data as [|x l IH]; [reflexivity|].
  cbn [filter]. now f_equal.
Qed.

Lemma scaling_metrics_of_eq (baseline : npf)
    (core_performance : list (Z * core_perf)) :
  NoDup (map fst core_performance) ->
  scaling_metrics_of baseline core_performance
  = map (fun item => (fst item, metric_of baseline (fst item) (snd item)))
        (filter (fun item => 1 <? fst item) core_performance).
Proof.
  intros N. unfold scaling_metrics_of.
  rewrite (fold_left_ext _
             (fun acc (item : Z * core_perf) =>
                if (fun item : Z * core_perf => 1 <? fst item) item
                then dict_set Z.eqb acc (fst item)
                       (metric_of baseline (fst item) (snd item))
                else acc))
    by (intros acc [c l]; reflexivity).
  rewrite (fold_dict_set Z.eqb Z.eqb_eq (fun item => 1 <? fst item) fst
             (fun item => metric_of baseline (fst item) (snd item))
             core_performance [])
    by (auto; intros x _ []).
  reflexivity.
Qed.

(** What the analysis makes of one combination. *)
Definition combo_result (core_data : list (Z * list measurement))
    : option scaling_result :=
  if len core_data <? 2 then None
  else
    match dict_get Z.eqb (core_performance_of core_data) 1 with
    | Some baseline =>
        Some {| core_performance := core_performance_of core_data;
                scaling_metrics :=
                  scaling_metrics_of (core_avg_throughput baseline)
                    (core_performance_of core_data) |}
    | None => None
    end.

Lemma analyze_combo_eq acc k core_data :
  analyze_combo acc (k, core_data)
  = match combo_result core_data with
    | Some r => dict_set String.eqb acc k r
    | None => acc
    end.
Proof.
  unfold analyze_combo, combo_result.
  destruct (len core_data <? 2); [reflexivity|].
  destruct (dict_get Z.eqb (core_performance_of core_data) 1); reflexivity.
Qed.

Lemma analyze_fold_get (d : list (string * list (Z * list measurement)))
    (acc : list (string * scaling_result)) (k : string) :
  NoDup (map fst d) ->
  dict_get String.eqb (fold_left analyze_combo d acc) k
  = match dict_get String.eqb d k with
    | Some core_data =>
        match combo_result core_data with
        | Some r => Some r
        | None => dict_get String.eqb acc k
        end
    | None => dict_get String.eqb acc k
    end.
Proof.
  revert acc; induction d as [|[k0 cd0] d IH]; intros acc N; [reflexivity|].
  cbn [fold_left map fst] in *. inversion N as [|? ? NI N']; subst.
  rewrite (IH _ N'), analyze_combo_eq. cbn [dict_get].
  destruct (String.eqb k0 k) eqn:E.
  - apply String.eqb_eq in E; subst k0.
    apply (dict_get_none_keys String.eqb String.eqb_eq) in NI. rewrite NI.
    destruct (combo_result cd0); [|reflexivity].
    now apply dict_get_set_same, String.eqb_eq.
  - apply String.eqb_neq in E.
    destruct (dict_get String.eqb d k) as [cd|]; [destruct (combo_result cd)|];
      try reflexivity;
      (destruct (combo_result cd0); [|reflexivity];
       now apply dict_get_set_other; [apply String.eqb_eq|]).
Qed.

(** The entry of a combination in the result. *)
Lemma analysis_get (measurements : list measurement) (k : string) :
  dict_get String.eqb (analyze_scaling_performance measurements) k
  = match members measurements k with
    | [] => None
    | l => combo_result (group_by Z.eqb cores_of l [])
    end.
Proof.
  unfold analyze_scaling_performance.
  rewrite analyze_fold_get by apply scaling_groups_nodup.
  rewrite scaling_groups_get.
  destruct (members measurements k); [reflexivity|].
  now destruct (combo_result _).
Qed.

Lemma by_cores_get (l : list measurement) (c : Z) :
  dict_get Z.eqb (group_by Z.eqb cores_of l []) c
  = match filter (fun m => cores_of m =? c) l with
    | [] => None
    | g => Some g
    end.
Proof. apply (group_by_get_nil Z.eqb Z.eqb_eq). Qed.

Lemma by_cores_nodup (l : list measurement) :
  NoDup (map fst (group_by Z.eqb cores_of l [])).
Proof. apply (group_by_nodup Z.eqb Z.eqb_eq). constructor. Qed.

Lemma core_performance_get (l : list measurement) (c : Z) :
  dict_get Z.eqb (core_performance_of (group_by Z.eqb cores_of l [])) c
  = match filter (fun m => cores_of m =? c) l with
    | [] => None
    | g => Some (perf_of g)
    end.
Proof.
  rewrite core_performance_of_eq by apply by_cores_nodup.
  rewrite (dict_get_map Z.eqb Z.eqb_eq (fun _ g => perf_of g)).
  rewrite by_cores_get.
  now destruct (filter (fun m => cores_of m =? c) l).
Qed.

Lemma core_performance_nodup (l : list measurement) :
  NoDup (map fst (core_performance_of (group_by Z.eqb cores_of l []))).
Proof.
  rewrite core_performance_of_eq by apply by_cores_nodup.
  rewrite map_map. cbn [fst]. apply by_cores_nodup.
Qed.

Lemma filter_nonempty_in {B : Type} (p : B -> bool) (l : list B) :
  filter p l <> [] -> exists x, In x l /\ p x = true.
Proof.
  destruct (filter p l) as [|x r] eqn:F; [congruence|]. intros _.
  assert (I : In x (filter p l)) by (rewrite F; now left).
  apply filter_In in I. now exists x.
Qed.

(** The extraction path reports no scaling for a model other than
    resnet18-imagenet, although [other_model_rows] has a 1-core baseline of
    100 fps and 4-core rows at 350 fps; and on [stalled_rows], whose 1-core
    mean is 0, its 4-core entry has the scaling factor 0, not the ratio of
    the means. *)
Lemma C3_extraction_reports_one_group_only :
  (exists r1 r4,
     In r1 Samples.other_model_rows /\ In r4 Samples.other_model_rows
     /\ Extract.model r1 = Extract.model r4
     /\ Extract.batch_size r1 = Extract.batch_size r4
     /\ Extract.cores r1 = 1 /\ Extract.cores r4 = 4)
  /\ Extract.scaling_details
       (Extract._analyze_multicore_scaling Samples.other_model_rows) = []
  /\ exists detail,
       dict_get String.eqb
         (Extract.scaling_details
            (Extract._analyze_multicore_scaling Samples.stalled_rows))
         "4_cores" = Some detail
       /\ Extract.scaling_factor detail = Fin 0
       /\ np_div (ExtractScalingFacts.mean_throughput_on Samples.stalled_rows 4)
                 (ExtractScalingFacts.mean_throughput_on Samples.stalled_rows 1)
          = Inf true.
Proof.
  split; [|split].
  - eexists; eexists. split; [left; reflexivity|].
    split; [right; left; reflexivity|]. repeat split; reflexivity.
  - reflexivity.
  - eexists. split; [reflexivity|]. split; reflexivity.
Qed.

(** C3, as the code has it.  In [analyze_scaling_performance] a combination
    with a 1-core group has an entry in the result, and for each core count
    [c > 1] present in it the entry reports [scaling_factor =
    avg_throughput(c) / avg_throughput(1)], the scaling efficiency
    [scaling_factor / c] as a percentage, and the improvement
    [(scaling_factor - 1) * 100].  On [scaling_pair] (100 fps on one core,
    350 fps on four) these are 3.5, 87.5% (that is 0.875) and 250.
    [_analyze_multicore_scaling] reports for the rows of resnet18-imagenet
    at batch size 1 only, and for 1, 2 and 4 cores only; the entry of 2 or
    of 4 cores has the ratio of the mean throughputs as its factor when
    there are 1-core rows of non-zero mean and the factor 0 otherwise, the
    factor over the core count as its efficiency, and no improvement. *)
Theorem C3_scaling_metrics :
  (forall m m' : measurement,
      combo_key_of m = combo_key_of m' <->
      get (model_name m) "unknown" = get (model_name m') "unknown"
      /\ get (batch_size m) 1 = get (batch_size m') 1)
  /\ (forall (measurements : list measurement) (k : string) (c : Z),
      core_group measurements k 1 <> [] ->
      core_group measurements k c <> [] ->
      1 < c ->
      exists result metric,
        dict_get String.eqb (analyze_scaling_performance measurements) k
        = Some result
        /\ dict_get Z.eqb (scaling_metrics result) c = Some metric
        /\ scaling_factor metric
           = np_div (avg_throughput_of measurements k c)
                    (avg_throughput_of measurements k 1)
        /\ scaling_efficiency_percent metric
           = np_mul (np_div (scaling_factor metric) (of_int c)) (of_int 100)
        /\ throughput_improvement metric
           = np_mul (np_sub (scaling_factor metric) (of_int 1)) (of_int 100))
  /\ (exists result metric factor percent improvement,
        dict_get String.eqb (analyze_scaling_performance Samples.scaling_pair)
          "resnet18_batch1" = Some result
        /\ dict_get Z.eqb (scaling_metrics result) 4 = Some metric
        /\ scaling_factor metric = Fin factor
        /\ scaling_efficiency_percent metric = Fin percent
        /\ throughput_improvement metric = Fin improvement
        /\ (factor == 3.5)%Q
        /\ (percent == 87.5)%Q /\ (factor / 4 == 0.875)%Q
        /\ (improvement == 250)%Q)
  /\ (forall df : list Extract.row,
        (forall r, In r df ->
                   Extract.model r <> "resnet18-imagenet"
                   \/ Extract.batch_size r <> 1) ->
        Extract.scaling_details (Extract._analyze_multicore_scaling df) = [])
  /\ (forall (df : list Extract.row) (k : string),
        dict_mem String.eqb
          (Extract.scaling_details (Extract._analyze_multicore_scaling df)) k
        = true ->
        In k ["1_cores"; "2_cores"; "4_cores"])
  /\ (forall (df : list Extract.row) (c : Z),
        c = 2 \/ c = 4 ->
        ExtractScalingFacts.rows_on df c <> [] ->
        exists detail,
          dict_get String.eqb
            (Extract.scaling_details (Extract._analyze_multicore_scaling df))
            (str_of_int c ++ "_cores") = Some detail
          /\ (ExtractScalingFacts.rows_on df 1 <> [] ->
              Extract.np_nonzero (ExtractScalingFacts.mean_throughput_on df 1)
              = true ->
              Extract.scaling_factor detail
              = np_div (ExtractScalingFacts.mean_throughput_on df c)
                       (ExtractScalingFacts.mean_throughput_on df 1))
          /\ (ExtractScalingFacts.rows_on df 1 <> [] ->
              Extract.np_nonzero (ExtractScalingFacts.mean_throughput_on df 1)
              = false ->
              Extract.scaling_factor detail = Fin 0)
          /\ (ExtractScalingFacts.rows_on df 1 = [] ->
              Extract.scaling_factor detail = Fin 0)
          /\ Extract.efficiency detail
             = np_div (Extract.scaling_factor detail) (of_int c)).
Proof.
  split; [exact KeyFacts.combo_key_of_inj|].
  split; [|split; [|split; [exact ExtractScalingFacts.extraction_other_groups
                          |split; [|exact ExtractScalingFacts.extraction_entry]]]].
  3: { intros df k M. apply (ExtractScalingFacts.scaling_details_keys df).
       unfold dict_mem in M.
       destruct (dict_get String.eqb
                   (Extract.scaling_details
                      (Extract._analyze_multicore_scaling df)) k) eqn:G;
         [|discriminate].
       destruct (in_dec string_dec k
                   (map fst (Extract.scaling_details
                               (Extract._analyze_multicore_scaling df))))
         as [I|NI]; [exact I|].
       pose proof (proj2 (dict_get_none_keys String.eqb String.eqb_eq _ k) NI).
       congruence. }
  - intros ms k c B P L.
    rewrite analysis_get. unfold core_group in B, P.
    destruct (members ms k) as [|m0 l0] eqn:M; [now elim B|].
    rewrite <- M in *. clear M m0 l0.
    unfold combo_result.
    pose proof (core_performance_get (members ms k) 1) as G1.
    pose proof (core_performance_get (members ms k) c) as Gc.
    destruct (filter (fun m => cores_of m =? 1) (members ms k))
      as [|b1 g1] eqn:F1; [now elim B|].
    destruct (filter (fun m => cores_of m =? c) (members ms k))
      as [|bc gc] eqn:Fc; [now elim P|].
    assert (Two : 2 <= len (group_by Z.eqb cores_of (members ms k) [])).
    { apply (dict_two_keys Z.eqb Z.eqb_eq _ 1 c (b1 :: g1) (bc :: gc));
        [lia| |]; rewrite by_cores_get; [now rewrite F1|now rewrite Fc]. }
    replace (len (group_by Z.eqb cores_of (members ms k) []) <? 2) with false
      by (symmetry; apply Z.ltb_ge; lia).
    rewrite G1. eexists; eexists. split; [reflexivity|].
    cbn [scaling_metrics].
    rewrite scaling_metrics_of_eq by apply core_performance_nodup.
    rewrite (dict_get_map Z.eqb Z.eqb_eq (fun c p => metric_of _ c p)).
    rewrite (dict_get_filter Z.eqb Z.eqb_eq (fun c => 1 <? c)).
    replace (1 <? c) with true by (symmetry; apply Z.ltb_lt; lia).
    rewrite Gc. split; [reflexivity|].
    unfold avg_throughput_of, core_group. rewrite F1, Fc.
    repeat split; reflexivity.
  - eexists; eexists; eexists; eexists; eexists.
    split; [vm_compute; reflexivity|].
    split; [vm_compute; reflexivity|].
    split; [vm_compute; reflexivity|].
    split; [vm_compute; reflexivity|].
    split; [vm_compute; reflexivity|].
    repeat split; vm_compute; reflexivity.
Qed.

Lemma C3_scaling_metrics_witness :
  core_group Samples.scaling_pair "resnet18_batch1" 1 <> []
  /\ core_group Samples.scaling_pair "resnet18_batch1" 4 <> []
  /\ 1 < 4
  /\ exists result metric,
       dict_get String.eqb (analyze_scaling_performance Samples.scaling_pair)
         "resnet18_batch1" = Some result
       /\ dict_get Z.eqb (scaling_metrics result) 4 = Some metric
       /\ scaling_factor metric
          = np_div (avg_throughput_of Samples.scaling_pair "resnet18_batch1" 4)
                   (avg_throughput_of Samples.scaling_pair "resnet18_batch1" 1).
Proof.
  assert (B : core_group Samples.scaling_pair "resnet18_batch1" 1 <> [])
    by (vm_compute; discriminate).
  assert (P : core_group Samples.scaling_pair "resnet18_batch1" 4 <> [])
    by (vm_compute; discriminate).
  assert (L : 1 < 4) by reflexivity.
  split; [exact B|]. split; [exact P|]. split; [exact L|].
  destruct (proj1 (proj2 C3_scaling_metrics)
              Samples.scaling_pair "resnet18_batch1" 4 B P L)
    as (result & metric & R & M & F & _).
  exists result, metric. repeat split; assumption.
Defined.

(** The keys of a grouping are keys of its elements. *)
Lemma by_cores_key_member (l : list measurement) (c : Z) :
  In c (map fst (group_by Z.eqb cores_of l [])) ->
  exists m, In m l /\ cores_of m = c.
Proof.
  intros I.
  destruct (dict_get Z.eqb (group_by Z.eqb cores_of l []) c) eqn:G.
  - rewrite by_cores_get in G.
    destruct (filter_nonempty_in (fun m => cores_of m =? c) l)
      as [m [J E]]; [intros F; rewrite F in G; discriminate|].
    exists m. split; [exact J|now apply Z.eqb_eq].
  - apply (dict_get_none_keys Z.eqb Z.eqb_eq) in G. contradiction.
Qed.

Lemma single_core_count (l : list measurement) :
  (forall m m', In m l -> In m' l -> cores_of m = cores_of m') ->
  len (group_by Z.eqb cores_of l []) < 2.
Proof.
  intros Same. pose proof (by_cores_nodup l) as N.
  pose proof (by_cores_key_member l) as Key.
  destruct (group_by Z.eqb cores_of l []) as [|[c1 g1] [|[c2 g2] d]];
    [unfold len; simpl; lia..|].
  exfalso. cbn [map fst] in N, Key.
  destruct (Key c1) as [m1 [I1 E1]]; [now left|].
  destruct (Key c2) as [m2 [I2 E2]]; [right; now left|].
  inversion N as [|? ? NI _]; subst. apply NI. left.
  symmetry. now apply Same.
Qed.

(** On the single row [scaling_row 2 180] (two cores, no 1-core baseline)
    the extraction path still reports a [2_cores] entry, with scaling
    factor 0. *)
Lemma C5_extraction_reports_without_baseline :
  exists detail,
    dict_get String.eqb
      (Extract.scaling_details
         (Extract._analyze_multicore_scaling [Samples.scaling_row 2 180]))
      "2_cores" = Some detail
    /\ Extract.scaling_factor detail = Fin 0
    /\ dict_get String.eqb
         (Extract.scaling_details
            (Extract._analyze_multicore_scaling [Samples.scaling_row 2 180]))
         "1_cores" = None.
Proof.
  eexists. split; [vm_compute; reflexivity|].
  split; reflexivity.
Qed.

(** C5, as the code has it.  In [analyze_scaling_performance], a
    combination without a 1-core group, or whose measurements all have the
    same core count, has no entry in the result; the function is total.  In
    [_analyze_multicore_scaling], every core count of 1, 2, 4 that has rows
    gets an entry, with scaling factor 0 when there are no 1-core rows. *)
Theorem C5_combinations_without_baseline_are_skipped :
  (forall (measurements : list measurement) (k : string),
      core_group measurements k 1 = []
      \/ (forall m m', In m (members measurements k) ->
                       In m' (members measurements k) ->
                       cores_of m = cores_of m') ->
      dict_get String.eqb (analyze_scaling_performance measurements) k = None
      /\ ~ In k (map fst (analyze_scaling_performance measurements)))
  /\ (forall (df : list Extract.row) (c : Z),
        In c [1; 2; 4] ->
        ExtractScalingFacts.rows_on df c <> [] ->
        exists detail,
          dict_get String.eqb
            (Extract.scaling_details (Extract._analyze_multicore_scaling df))
            (str_of_int c ++ "_cores") = Some detail
          /\ (ExtractScalingFacts.rows_on df 1 = [] ->
              Extract.scaling_factor detail = Fin 0
              /\ Extract.efficiency detail = np_div (Fin 0) (of_int c))).
Proof.
  split; [|exact ExtractScalingFacts.extraction_never_skips].
  intros measurements k H.
  assert (G : dict_get String.eqb (analyze_scaling_performance measurements) k
              = None).
  { rewrite analysis_get.
    destruct (members measurements k) as [|m0 l0] eqn:M; [reflexivity|].
    rewrite <- M in *. unfold combo_result.
    destruct (len (group_by Z.eqb cores_of (members measurements k) []) <? 2)
      eqn:Few; [reflexivity|].
    destruct H as [B|Same].
    - rewrite core_performance_get. unfold core_group in B. now rewrite B.
    - apply Z.ltb_ge in Few. pose proof (single_core_count _ Same). lia. }
  split; [exact G|].
  now apply (dict_get_none_keys String.eqb String.eqb_eq).
Qed.

Lemma C5_combinations_without_baseline_are_skipped_witness :
  (core_group [Samples.sample 10 180 20 9 40 (Some "resnet18") (Some 2) (Some 1)]
              "resnet18_batch1" 1 = []
   /\ dict_get String.eqb
        (analyze_scaling_performance
           [Samples.sample 10 180 20 9 40 (Some "resnet18") (Some 2) (Some 1)])
        "resnet18_batch1" = None)
  /\ (In 2 [1; 2; 4]
      /\ ExtractScalingFacts.rows_on [Samples.scaling_row 2 180] 2 <> []
      /\ exists detail,
           dict_get String.eqb
             (Extract.scaling_details
                (Extract._analyze_multicore_scaling [Samples.scaling_row 2 180]))
             "2_cores" = Some detail).
Proof.
  split.
  - split; [reflexivity|].
    exact (proj1 (proj1 C5_combinations_without_baseline_are_skipped
                    [Samples.sample 10 180 20 9 40 (Some "resnet18") (Some 2)
                       (Some 1)]
                    "resnet18_batch1" (or_introl eq_refl))).
  - assert (I : In 2 [1; 2; 4]) by (right; now left).
    assert (P : ExtractScalingFacts.rows_on [Samples.scaling_row 2 180] 2 <> [])
      by (vm_compute; discriminate).
    split; [exact I|]. split; [exact P|].
    destruct (proj2 C5_combinations_without_baseline_are_skipped
                [Samples.scaling_row 2 180] 2 I P) as (detail & G & _).
    exists detail. exact G.
Defined.

End ScalingFacts.

(** ** Peak configurations *)

Module PeakFacts.
Import Json Validate.

(** The order in which the scan meets the measurements: group after group,
    each group in the order of the input. *)
Definition iteration_order (measurements : list measurement)
    : list measurement :=
  List.concat (map snd (config_groups measurements)).

Lemma find_app {B : Type} (p : B -> bool) (l l' : list B) :
  find p (l ++ l')
  = match find p l with
    | Some x => Some x
    | None => find p l'
    end.
Proof.
  induction l as [|x l IH]; [reflexivity|].
  cbn [app find]. now destruct (p x).
Qed.

Lemma find_first {B : Type} (p : B -> bool) (l : list B) (x : B) :
  In x l -> p x = true -> exists y, find p l = Some y.
Proof.
  intros I P. destruct (find p l) eqn:F; [now eexists|].
  rewrite (find_none p l F x I) in P. discriminate.
Qed.

(** [np.max] of a non-empty list. *)
Definition list_max (x : Q) (xs : list Q) : Q :=
  fold_left (fun a b => if Qltb a b then b else a) xs x.

Lemma list_max_ge (xs : list Q) (x : Q) :
  (x <= list_max x xs)%Q
  /\ forall y, In y xs -> (y <= list_max x xs)%Q.
Proof.
  revert x; induction xs as [|z xs IH]; intros x; cbn [list_max fold_left].
  - split; [lra|intros y []].
  - fold (list_max (if Qltb x z then z else x) xs).
    destruct (IH (if Qltb x z then z else x)) as [L U].
    destruct (Qltb x z) eqn:E;
      [apply Qltb_lt in E|apply Qltb_ge in E];
      (split; [lra|intros y [<-|I]; [lra|auto]]).
Qed.

Lemma list_max_in (xs : list Q) (x : Q) : In (list_max x xs) (x :: xs).
Proof.
  revert x; induction xs as [|z xs IH]; intros x; cbn [list_max fold_left].
  - now left.
  - fold (list_max (if Qltb x z then z else x) xs).
    destruct (IH (if Qltb x z then z else x)) as [E|I].
    + rewrite <- E. destruct (Qltb x z); [right|]; now left.
    + right; now right.
Qed.

Section Tracker.
Variable metric : measurement -> Q.

Definition group_max (g : list measurement) : Q :=
  match g with
  | [] => 0%Q
  | m :: g' => list_max (metric m) (map metric g')
  end.

Lemma group_max_ge (g : list measurement) (m : measurement) :
  In m g -> (metric m <= group_max g)%Q.
Proof.
  destruct g as [|m0 g]; [intros []|]. cbn [group_max].
  destruct (list_max_ge (map metric g) (metric m0)) as [L U].
  intros [<-|I]; [exact L|]. apply U. now apply in_map.
Qed.

Lemma group_max_attained (g : list measurement) :
  g <> [] -> exists m, In m g /\ metric m = group_max g.
Proof.
  destruct g as [|m0 g]; [congruence|]. intros _. cbn [group_max].
  destruct (list_max_in (map metric g) (metric m0)) as [E|I].
  - exists m0. split; [now left|exact E].
  - apply in_map_iff in I. destruct I as [m [E I]].
    exists m. split; [now right|exact E].
Qed.

(** The running best of one metric: its value, its configuration and its
    measurement; and the update the scan makes for one group. *)
Definition best : Type := (Q * option string * option measurement)%type.

Definition track (b : best) (key : string) (g : list measurement) : best :=
  let '(peak, config, winner) := b in
  if Qltb peak (group_max g) then
    (group_max g, Some key,
     first_with (fun m => Qeq_bool (metric m) (group_max g)) g winner)
  else b.

Definition attains (value : Q) (m : measurement) : bool :=
  Qeq_bool (metric m) value.

(** What holds of the running best once the measurements [seen] are
    scanned. *)
Definition tracked (seen : list measurement) (b : best) : Prop :=
  let '(peak, config, winner) := b in
  (0 <= peak)%Q
  /\ (forall m, In m seen -> (metric m <= peak)%Q)
  /\ if Qltb 0 peak then
       exists w, winner = Some w
                 /\ find (attains peak) seen = Some w
                 /\ config = Some (config_key_of w)
     else winner = None /\ config = None /\ (peak == 0)%Q.

Lemma attains_ext (v v' : Q) (l : list measurement) :
  (v == v')%Q -> find (attains v) l = find (attains v') l.
Proof.
  intros E. induction l as [|m l IH]; [reflexivity|].
  cbn [find]. unfold attains at 1 3. rewrite E. now rewrite IH.
Qed.

Lemma track_tracked (seen : list measurement) (b : best) (key : string)
    (g : list measurement) :
  g <> [] ->
  (forall m, In m g -> config_key_of m = key) ->
  tracked seen b -> tracked (seen ++ g) (track b key g).
Proof.
  intros NE Key. destruct b as [[peak config] winner].
  intros (P0 & Le & W). unfold track.
  destruct (Qltb peak (group_max g)) eqn:E.
  - apply Qltb_lt in E. cbn [tracked].
    split; [lra|]. split.
    + intros m I. apply in_app_iff in I. destruct I as [I|I].
      * specialize (Le m I). lra.
      * now apply group_max_ge.
    + replace (Qltb 0 (group_max g)) with true
        by (symmetry; apply Qltb_lt; lra).
      destruct (group_max_attained g NE) as [m [I A]].
      destruct (find_first (attains (group_max g)) g m I) as [w F].
      { unfold attains. rewrite A. apply Qeq_bool_refl. }
      exists w. unfold first_with. fold (attains (group_max g)).
      rewrite F. split; [reflexivity|]. split.
      * rewrite find_app.
        destruct (find (attains (group_max g)) seen) as [x|] eqn:S;
          [|exact F].
        apply find_some in S. destruct S as [I' A'].
        unfold attains in A'. apply Qeq_bool_eq in A'.
        specialize (Le x I'). lra.
      * apply find_some in F. destruct F as [I' _].
        now rewrite (Key w I').
  - apply Qltb_ge in E. cbn [tracked].
    split; [exact P0|]. split.
    + intros m I. apply in_app_iff in I. destruct I as [I|I]; [auto|].
      pose proof (group_max_ge g m I). lra.
    + destruct (Qltb 0 peak); [|exact W].
      destruct W as (w & -> & F & C). exists w.
      split; [reflexivity|]. split; [|exact C].
      rewrite find_app. now rewrite F.
Qed.

End Tracker.

Definition throughput_best (st : peak_configurations) : best :=
  (peak_throughput st, peak_throughput_config st,
   peak_throughput_measurement st).

Definition efficiency_best (st : peak_configurations) : best :=
  (peak_efficiency st, peak_efficiency_config st,
   peak_efficiency_measurement st).

(** One turn of the scan updates both running bests, and does not raise on
    a non-empty group. *)
Lemma scan_config_eq (st : peak_configurations) (key : string)
    (g : list measurement) :
  g <> [] ->
  exists st',
    scan_config st (key, g) = inr st'
    /\ throughput_best st' = track throughput_fps (throughput_best st) key g
    /\ efficiency_best st'
       = track efficiency_fps_per_watt (efficiency_best st) key g.
Proof.
  destruct g as [|m g]; [congruence|]. intros _.
  unfold scan_config, np_max. cbn [map bind ret].
  eexists. split; [reflexivity|].
  unfold throughput_best, efficiency_best, track, group_max, list_max.
  cbn [peak_throughput peak_throughput_config peak_throughput_measurement
       peak_efficiency peak_efficiency_config peak_efficiency_measurement].
  split.
  - destruct (Qltb (peak_throughput st) _); reflexivity.
  - destruct (Qltb (peak_efficiency st) _); reflexivity.
Qed.

Lemma scan_all (gs : list (string * list measurement))
    (seen : list measurement) (st : peak_configurations) :
  (forall k g, In (k, g) gs ->
               g <> [] /\ forall m, In m g -> config_key_of m = k) ->
  tracked throughput_fps seen (throughput_best st) ->
  tracked efficiency_fps_per_watt seen (efficiency_best st) ->
  exists st',
    foldM scan_config gs st = inr st'
    /\ tracked throughput_fps (seen ++ List.concat (map snd gs))
         (throughput_best st')
    /\ tracked efficiency_fps_per_watt (seen ++ List.concat (map snd gs))
         (efficiency_best st').
Proof.
  revert seen st; induction gs as [|[k g] gs IH]; intros seen st G T E.
  - exists st. cbn [foldM map List.concat]. rewrite app_nil_r. auto.
  - destruct (G k g (or_introl eq_refl)) as [NE Key].
    destruct (scan_config_eq st k g NE) as (st1 & S & T1 & E1).
    destruct (IH (seen ++ g)%list st1) as (st' & F & T' & E').
    + intros k' g' I. apply G. now right.
    + rewrite T1. now apply track_tracked.
    + rewrite E1. now apply track_tracked.
    + exists st'. cbn [foldM map snd List.concat]. rewrite S. cbn [bind].
      rewrite app_assoc. auto.
Qed.

Lemma config_groups_in (measurements : list measurement) (k : string)
    (g : list measurement) :
  In (k, g) (config_groups measurements) ->
  g = filter (fun m => String.eqb (config_key_of m) k) measurements
  /\ g <> [].
Proof. apply (group_by_in String.eqb String.eqb_eq config_key_of). Qed.

Lemma iteration_order_in (measurements : list measurement) (m : measurement) :
  In m (iteration_order measurements) <-> In m measurements.
Proof.
  unfold iteration_order. rewrite in_concat. split.
  - intros [g [I J]]. apply in_map_iff in I. destruct I as [[k g'] [<- I]].
    apply config_groups_in in I. destruct I as [-> _].
    cbn [snd] in J. now apply filter_In in J.
  - intros I.
    pose proof (group_by_get_nil String.eqb String.eqb_eq config_key_of
                  measurements (config_key_of m)) as G.
    fold (config_groups measurements) in G.
    assert (J : In m (filter (fun x => String.eqb (config_key_of x)
                                         (config_key_of m)) measurements)).
    { apply filter_In. split; [exact I|apply String.eqb_refl]. }
    destruct (filter _ measurements) as [|x l] eqn:F; [destruct J|].
    apply (dict_get_in String.eqb String.eqb_eq) in G.
    exists (x :: l). split; [|exact J].
    apply in_map_iff. now exists (config_key_of m, x :: l).
Qed.

(** The final best of a metric over the whole input: a positive maximum is
    attained by the winner, which is the first measurement in iteration
    order that attains it; without a positive value nothing is selected. *)
Definition peak_of (metric : measurement -> Q)
    (measurements : list measurement) (b : best) : Prop :=
  let '(peak, config, winner) := b in
  ((exists m, In m measurements /\ (0 < metric m)%Q) ->
   exists w,
     winner = Some w
     /\ In w measurements
     /\ (forall m, In m measurements -> (metric m <= metric w)%Q)
     /\ (peak == metric w)%Q
     /\ config = Some (config_key_of w)
     /\ find (attains metric (metric w)) (iteration_order measurements)
        = Some w)
  /\ ((forall m, In m measurements -> (metric m <= 0)%Q) ->
      winner = None /\ config = None /\ (peak == 0)%Q).

Lemma tracked_peak_of (metric : measurement -> Q)
    (measurements : list measurement) (b : best) :
  tracked metric (iteration_order measurements) b ->
  peak_of metric measurements b.
Proof.
  destruct b as [[peak config] winner]. intros (P0 & Le & W).
  cbn [peak_of]. split.
  - intros [m [I Pos]].
    assert (Lm : (metric m <= peak)%Q) by (apply Le; now apply iteration_order_in).
    replace (Qltb 0 peak) with true in W by (symmetry; apply Qltb_lt; lra).
    destruct W as (w & -> & F & C). exists w.
    destruct (find_some _ _ F) as [Iw A].
    unfold attains in A. apply Qeq_bool_eq in A.
    split; [reflexivity|]. split; [now apply iteration_order_in|].
    split; [|split; [now symmetry|split; [exact C|]]].
    + intros x Ix. apply (proj2 (iteration_order_in _ _)) in Ix.
      specialize (Le x Ix). lra.
    + now rewrite (attains_ext metric (metric w) peak).
  - intros NonPos. destruct (Qltb 0 peak) eqn:E; [|exact W].
    exfalso. apply Qltb_lt in E. destruct W as (w & _ & F & _).
    destruct (find_some _ _ F) as [Iw A].
    unfold attains in A. apply Qeq_bool_eq in A.
    apply (proj1 (iteration_order_in _ _)) in Iw.
    specialize (NonPos w Iw). lra.
Qed.

(** The peaks of the extraction path are the maxima of the columns. *)
Lemma column_max (column : Extract.row -> Q) (r : Extract.row)
    (df : list Extract.row) :
  exists v,
    Extract.series_max (map column (r :: df)) = Fin v
    /\ In v (map column (r :: df))
    /\ forall x, In x (r :: df) -> (column x <= v)%Q.
Proof.
  exists (list_max (column r) (map column df)).
  split; [reflexivity|]. split; [apply list_max_in|].
  destruct (list_max_ge (map column df) (column r)) as [L U].
  intros x [<-|I]; [exact L|]. apply U. now apply in_map.
Qed.

Lemma extraction_peaks (scipy : SciPy) (r : Extract.row)
    (df : list Extract.row) :
  exists processed t e,
    Extract.calculate_real_statistics (r :: df) = inr processed
    /\ Extract.peak_throughput_fps (Extract.peak processed) = Fin t
    /\ In t (map Extract.throughput_fps (r :: df))
    /\ (forall x, In x (r :: df) -> (Extract.throughput_fps x <= t)%Q)
    /\ Extract.peak_efficiency_fps_per_watt (Extract.peak processed) = Fin e
    /\ In e (map Extract.efficiency_fps_per_watt (r :: df))
    /\ (forall x, In x (r :: df) ->
                  (Extract.efficiency_fps_per_watt x <= e)%Q).
Proof.
  destruct (column_max Extract.throughput_fps r df) as (t & T1 & T2 & T3).
  destruct (column_max Extract.efficiency_fps_per_watt r df)
    as (e & E1 & E2 & E3).
  eexists; exists t, e. split; [reflexivity|].
  cbn [Extract.peak Extract.peak_throughput_fps
       Extract.peak_efficiency_fps_per_watt].
  repeat split; assumption.
Qed.

(** The single record [idle_record] attains the maximum efficiency of its
    data set, which is 0: the scan keeps its initial 0 and selects no
    measurement for the efficiency, while it selects the record for the
    throughput. *)
Lemma C4_no_winner_without_positive_value :
  exists peaks,
    identify_peak_configurations [Samples.idle_record] = inr peaks
    /\ peak_efficiency_measurement peaks = None
    /\ peak_efficiency_config peaks = None
    /\ peak_throughput_measurement peaks = Some Samples.idle_record
    /\ forall m, In m [Samples.idle_record] ->
         (efficiency_fps_per_watt m
          <= efficiency_fps_per_watt Samples.idle_record)%Q.
Proof.
  eexists. split; [vm_compute; reflexivity|].
  repeat split. intros m [<-|[]]. apply Qle_refl.
Qed.

(** C4, as the code has it.  The scan groups the measurements by their
    configuration key and returns.  For the throughput and, independently,
    for the efficiency: when some measurement has a positive value, the selected
    measurement attains the maximum over all measurements, it is the first
    one in iteration order to do so, and its configuration is reported; when
    no value is positive, no measurement is selected.  On [three_records]
    the throughput winner is the second record and the efficiency winner
    the third.  The extraction path reports the two maxima of the columns,
    without a measurement. *)
Theorem C4_peak_configurations :
  (forall m m' : measurement,
      config_key_of m = config_key_of m' <->
      get (model_name m) "unknown" = get (model_name m') "unknown"
      /\ get (core_count m) 1 = get (core_count m') 1
      /\ get (batch_size m) 1 = get (batch_size m') 1)
  /\ (forall measurements : list measurement,
      exists peaks,
        identify_peak_configurations measurements = inr peaks
        /\ (forall k g,
              In (k, g) (config_groups measurements) ->
              g = filter (fun m => String.eqb (config_key_of m) k) measurements
              /\ g <> [])
        /\ peak_of throughput_fps measurements (throughput_best peaks)
        /\ peak_of efficiency_fps_per_watt measurements (efficiency_best peaks))
  /\ (exists peaks,
        identify_peak_configurations Samples.three_records = inr peaks
        /\ peak_throughput_measurement peaks = Some Samples.fast_record
        /\ (peak_throughput peaks == 150)%Q
        /\ peak_efficiency_measurement peaks = Some Samples.frugal_record
        /\ (peak_efficiency peaks == 6)%Q
        /\ Samples.fast_record <> Samples.frugal_record)
  /\ (forall (scipy : SciPy) (r : Extract.row) (df : list Extract.row),
        exists processed t e,
          Extract.calculate_real_statistics (r :: df) = inr processed
          /\ Extract.peak_throughput_fps (Extract.peak processed) = Fin t
          /\ In t (map Extract.throughput_fps (r :: df))
          /\ (forall x, In x (r :: df) -> (Extract.throughput_fps x <= t)%Q)
          /\ Extract.peak_efficiency_fps_per_watt (Extract.peak processed)
             = Fin e
          /\ In e (map Extract.efficiency_fps_per_watt (r :: df))
          /\ (forall x, In x (r :: df) ->
                        (Extract.efficiency_fps_per_watt x <= e)%Q)).
Proof.
  split; [exact KeyFacts.config_key_of_inj|].
  split; [|split; [|exact extraction_peaks]].
  - intros ms.
    destruct (scan_all (config_groups ms) [] no_peaks) as (peaks & F & T & E).
    + intros k g I. apply config_groups_in in I. destruct I as [-> NE].
      split; [exact NE|]. intros m J. apply filter_In in J.
      now apply String.eqb_eq.
    + cbn. repeat split; try lra. intros m [].
    + cbn. repeat split; try lra. intros m [].
    + exists peaks. split; [exact F|]. split; [apply config_groups_in|].
      cbn [app] in T, E. split; now apply tracked_peak_of.
  - eexists. split; [vm_compute; reflexivity|].
    split; [reflexivity|]. split; [reflexivity|].
    split; [reflexivity|]. split; [reflexivity|].
    discriminate.
Qed.

Lemma C4_peak_configurations_witness :
  (exists m, In m Samples.three_records /\ (0 < throughput_fps m)%Q)
  /\ exists peaks w,
       identify_peak_configurations Samples.three_records = inr peaks
       /\ peak_throughput_measurement peaks = Some w
       /\ In w Samples.three_records
       /\ forall m, In m Samples.three_records ->
            (throughput_fps m <= throughput_fps w)%Q.
Proof.
  assert (H : exists m, In m Samples.three_records /\ (0 < throughput_fps m)%Q).
  { exists Samples.slow_record. split; [now left|reflexivity]. }
  split; [exact H|].
  destruct (proj1 (proj2 C4_peak_configurations) Samples.three_records)
    as (peaks & R & _ & T & _).
  unfold throughput_best, peak_of in T. destruct T as [T _].
  destruct (T H) as (w & W & I & M & _).
  exists peaks, w. repeat split; assumption.
Defined.

End PeakFacts.

(** * Further properties of the two scripts *)

(** ** The loaders *)

Module LoaderFacts.

Lemma map_flat_map {A B C : Type} (f : B -> C) (g : A -> list B) (l : list A) :
  map f (flat_map g l) = flat_map (fun x => map f (g x)) l.
Proof.
  induction l as [|x l IH]; [reflexivity|].
  cbn [flat_map]. now rewrite map_app, IH.
Qed.

Lemma flat_map_pointwise {A B : Type} (f g : A -> list B) (l : list A) :
  (forall x, f x = g x) -> flat_map f l = flat_map g l.
Proof.
  intros E. induction l as [|x l IH]; [reflexivity|].
  cbn [flat_map]. now rewrite E, IH.
Qed.

(** The five metrics of a measurement and of a row. *)
Definition metrics_of (m : Json.measurement) : Q * Q * Q * Q * Q :=
  (Json.latency_ms m, Json.throughput_fps m, Json.power_consumption_watts m,
   Json.efficiency_fps_per_watt m, Json.temperature_celsius m).

Definition row_metrics (r : Extract.row) : Q * Q * Q * Q * Q :=
  (Extract.latency_ms r, Extract.throughput_fps r, Extract.power_watts r,
   Extract.efficiency_fps_per_watt r, Extract.temperature_celsius r).

Definition valid (m : Json.measurement) : bool :=
  Json.get (Json.is_valid m) true.

Lemma kept_rows (model_name config_name : string)
    (measurements : list Json.measurement) :
  map row_metrics
    (flat_map (fun measurement =>
       if Json.get (Json.is_valid measurement) true then
         [{| Extract.model := model_name;
             Extract.configuration := config_name;
             Extract.timestamp := Json.timestamp measurement;
             Extract.latency_ms := Json.latency_ms measurement;
             Extract.throughput_fps := Json.throughput_fps measurement;
             Extract.power_watts := Json.power_consumption_watts measurement;
             Extract.efficiency_fps_per_watt :=
               Json.efficiency_fps_per_watt measurement;
             Extract.temperature_celsius := Json.temperature_celsius measurement;
             Extract.cores := Extract._extract_cores_from_config config_name;
             Extract.batch_size :=
               Extract._extract_batch_from_config config_name |}]
       else []) measurements)
  = map metrics_of (filter valid measurements).
Proof.
  induction measurements as [|m ms IH]; [reflexivity|].
  cbn [flat_map filter]. unfold valid at 1.
  destruct (Json.get (Json.is_valid m) true); cbn [app map];
    rewrite IH; reflexivity.
Qed.

Lemma loaders_agree (reported : Z) (detailed : Json.detailed_results) :
  map row_metrics (Extract.extract_performance_metrics detailed)
  = map metrics_of
      (Validate.extract_all_measurements
         {| Json.reported_total_measurements := reported;
            Json.results := Some detailed |}).
Proof.
  unfold Extract.extract_performance_metrics,
    Validate.extract_all_measurements. cbn [Json.results].
  rewrite !map_flat_map. apply flat_map_pointwise.
  intros [model_name model_data]. cbn [snd].
  rewrite !map_flat_map. apply flat_map_pointwise.
  intros [config_name [measurements|]]; cbn [snd Json.get].
  - apply kept_rows.
  - reflexivity.
Qed.

Lemma loaders_same_length (data : Json.benchmark) :
  len (Extract.extract_performance_metrics (Json.get (Json.results data) []))
  = len (Validate.extract_all_measurements data).
Proof.
  destruct data as [reported [detailed|]]; [|reflexivity].
  cbn [Json.results Json.get].
  pose proof (loaders_agree reported detailed) as M.
  apply (f_equal (@List.length _)) in M. rewrite !length_map in M.
  unfold len. now rewrite M.
Qed.

(** X1.  The two loaders keep the same measurements, those whose
    [is_valid] flag is absent or true, in the order of the file: the rows
    of the data frame carry, one for one, the five metrics of the
    measurements that [extract_all_measurements] returns. *)
Theorem loaders_keep_the_same_measurements
    (reported : Z) (detailed : Json.detailed_results) :
  map row_metrics (Extract.extract_performance_metrics detailed)
  = map metrics_of
      (Validate.extract_all_measurements
         {| Json.reported_total_measurements := reported;
            Json.results := Some detailed |})
  /\ len (Extract.extract_performance_metrics detailed)
     = len (Validate.extract_all_measurements
              {| Json.reported_total_measurements := reported;
                 Json.results := Some detailed |})
  /\ forallb valid
       (Validate.extract_all_measurements
          {| Json.reported_total_measurements := reported;
             Json.results := Some detailed |}) = true.
Proof.
  pose proof (loaders_agree reported detailed) as M.
  split; [exact M|]. split.
  - apply (f_equal (@List.length _)) in M. rewrite !length_map in M.
    unfold len. now rewrite M.
  - unfold Validate.extract_all_measurements. cbn [Json.results].
    apply forallb_forall. intros m I.
    apply in_flat_map in I. destruct I as [[mn md] [_ I]].
    apply in_flat_map in I. destruct I as [[cn [ms|]] [_ I]]; cbn [snd] in I;
      [|destruct I].
    apply filter_In in I. exact (proj2 I).
Qed.

End LoaderFacts.

(** ** More on the mathematical-consistency validation *)

Module ConsistencyFacts.
Import Json Validate ValidateFacts.

(** [expected_throughput] as the loop computes it: two float divisions. *)
Definition expected_throughput_of (m : measurement) : Q :=
  fdiv (py_float (inject_Z (get (batch_size m) 1%Z)))
       (fdiv (latency_ms m) 1000).

Definition throughput_fails (m : measurement) : bool :=
  Qltb 0 (latency_ms m)
  && Qltb (fmul (throughput_fps m) (py_float 0.05))
          (Qabs (fsub (throughput_fps m) (expected_throughput_of m))).

Definition throughput_failure (i : Z) (m : measurement) : failed_measurement :=
  {| measurement_index := i;
     test := throughput_calculation;
     expected := expected_throughput_of m;
     actual := throughput_fps m;
     error := Qabs (fsub (throughput_fps m) (expected_throughput_of m)) |}.

(** The entries one measurement appends, in the order it appends them. *)
Lemma failures_of_eq (i : Z) (m : measurement) :
  failures_of i m
  = ((if efficiency_fails m then [efficiency_failure i m] else [])
     ++ (if throughput_fails m then [throughput_failure i m] else []))%list.
Proof.
  unfold failures_of, check_measurement, efficiency_fails, throughput_fails,
    efficiency_failure, throughput_failure, expected_efficiency_of,
    expected_throughput_of.
  destruct (Qltb (py_float 0.01) _ && Qltb 0 (efficiency_fps_per_watt m));
    destruct (Qltb 0 (latency_ms m)); cbn [andb];
    try destruct (Qltb (fmul (throughput_fps m) (py_float 0.05)) _);
    reflexivity.
Qed.

Definition is_throughput_at (i : Z) (f : failed_measurement) : bool :=
  (measurement_index f =? i)
  && match test f with
     | efficiency_calculation => false
     | throughput_calculation => true
     end.

Definition throughput_flagged (vr : validation_results) (i : Z) : bool :=
  existsb (is_throughput_at i) (failed_measurements vr).





(** Every failure entry points at a measurement of the input. *)
Lemma failure_origin (measurements : list measurement)
    (f : failed_measurement) :
  In f (failed_measurements (loop_result measurements)) ->
  exists (n : nat) (m : measurement),
    nth_error measurements n = Some m
    /\ (f = efficiency_failure (Z.of_nat n) m
        \/ f = throughput_failure (Z.of_nat n) m).
Proof.
  unfold loop_result. rewrite loop_failed; cbn [failed_measurements app].
  intros I. apply in_flat_map in I. destruct I as [[j m] [I F]].
  cbn [fst snd] in F. unfold enumerate in I.
  apply in_enumerate_from in I. destruct I as [J N].
  exists (Z.to_nat (j - 0)), m. split; [exact N|].
  replace (Z.of_nat (Z.to_nat (j - 0))) with j by lia.
  rewrite failures_of_eq in F. apply in_app_or in F.
  destruct F as [F|F];
    [destruct (efficiency_fails m)|destruct (throughput_fails m)];
    cbn [In] in F; try (now destruct F);
    destruct F as [<-|[]]; auto.
Qed.

(** X3.  Every entry of [failed_measurements] carries the index of a
    measurement of the input and reports that measurement: its [actual] is
    the measurement's efficiency for an efficiency failure and its
    throughput for a throughput failure, and its [error] is the distance
    between [actual] and [expected], their float difference without its
    sign. *)
Theorem failures_report_their_measurement
    (measurements : list measurement) (vr : validation_results)
    (f : failed_measurement) :
  validate_mathematical_consistency measurements = inr vr ->
  In f (failed_measurements vr) ->
  exists (n : nat) (m : measurement),
    nth_error measurements n = Some m
    /\ measurement_index f = Z.of_nat n
    /\ actual f = match test f with
                  | efficiency_calculation => efficiency_fps_per_watt m
                  | throughput_calculation => throughput_fps m
                  end
    /\ error f = Qabs (fsub (actual f) (expected f)).
Proof.
  intros V I. destruct measurements as [|m0 ms]; [discriminate V|].
  rewrite validate_nonempty in V. injection V as <-.
  destruct (failure_origin _ _ I) as (n & m & N & [-> | ->]);
    exists n, m; repeat split; assumption.
Qed.

Lemma failures_report_their_measurement_witness :
  exists vr f,
    validate_mathematical_consistency [Samples.doubly_failing] = inr vr
    /\ In f (failed_measurements vr)
    /\ exists (n : nat) (m : measurement),
         nth_error [Samples.doubly_failing] n = Some m
         /\ measurement_index f = Z.of_nat n.
Proof.
  assert (V : validate_mathematical_consistency [Samples.doubly_failing]
              = inr (loop_result [Samples.doubly_failing]))
    by apply validate_nonempty.
  assert (I : In (efficiency_failure 0 Samples.doubly_failing)
                 (failed_measurements (loop_result [Samples.doubly_failing])))
    by (vm_compute; left; reflexivity).
  exists (loop_result [Samples.doubly_failing]),
         (efficiency_failure 0 Samples.doubly_failing).
  split; [exact V|]. split; [exact I|].
  destruct (failures_report_their_measurement _ _ _ V I)
    as (n & m & N & E & _).
  exists n, m. split; assumption.
Defined.

(** A measurement whose reported efficiency and throughput are the ones
    that the checks derive. *)
Definition exactly_consistent (m : measurement) : Prop :=
  (0 < power_consumption_watts m)%Q
  /\ (efficiency_fps_per_watt m
      == fdiv (throughput_fps m) (power_consumption_watts m))%Q
  /\ (0 <= throughput_fps m)%Q
  /\ ((0 < latency_ms m)%Q ->
      (throughput_fps m
       == fdiv (py_float (inject_Z (get (batch_size m) 1%Z)))
               (fdiv (latency_ms m) 1000))%Q).

Lemma exactly_consistent_passes (i : Z) (m : measurement) :
  exactly_consistent m -> failures_of i m = [].
Proof.
  intros (P & E & T & L). rewrite failures_of_eq.
  assert (EF : efficiency_fails m = false).
  { unfold efficiency_fails, expected_efficiency_of.
    replace (Qltb 0 (power_consumption_watts m)) with true
      by (symmetry; now apply Qltb_lt).
    apply andb_false_iff. left. apply Qltb_ge.
    rewrite (FloatFacts.fsub_same _ _ E).
    apply FloatFacts.b64_nonneg. lra. }
  assert (TF : throughput_fails m = false).
  { unfold throughput_fails, expected_throughput_of.
    destruct (Qltb 0 (latency_ms m)) eqn:Lat; [|reflexivity].
    apply Qltb_lt in Lat. specialize (L Lat). cbn [andb].
    apply Qltb_ge. rewrite (FloatFacts.fsub_same _ _ L).
    apply FloatFacts.fmul_nonneg; [exact T|].
    apply FloatFacts.b64_nonneg. lra. }
  now rewrite EF, TF.
Qed.

Lemma success_rate_value (m : measurement) (ms : list measurement) :
  success_rate (loop_result (m :: ms))
  = inr (inject_Z (len (m :: ms)
                   - consistency_failures (loop_result (m :: ms)))
         / inject_Z (len (m :: ms)) * 100)%Q.
Proof.
  unfold success_rate, py_div.
  assert (C : consistency_checks (loop_result (m :: ms)) = len (m :: ms)).
  { unfold loop_result; rewrite loop_checks; cbn [consistency_checks].
    rewrite len_enumerate; lia. }
  rewrite C.
  rewrite StatisticsFacts.inject_Z_nonzero; [reflexivity|].
  rewrite len_cons. pose proof (len_nonneg ms). lia.
Qed.

Lemma flat_map_all_nil {A B : Type} (f : A -> list B) (l : list A) :
  (forall x, In x l -> f x = []) -> flat_map f l = [].
Proof.
  induction l as [|x l IH]; intros H; [reflexivity|].
  cbn [flat_map]. rewrite (H x) by now left.
  apply IH. intros y I. apply H. now right.
Qed.

Lemma enumerate_member {A : Type} (l : list A) (i : Z) (x : A) :
  In (i, x) (enumerate l) -> In x l.
Proof.
  unfold enumerate. intros I. apply in_enumerate_from in I.
  destruct I as [_ N]. now apply nth_error_In in N.
Qed.

(** X4.  A non-empty data set whose measurements all report exactly the
    derived efficiency [throughput / power] and the derived throughput
    [batch_size / (latency_ms / 1000)], as the float operations give them,
    has no failure at all, and its success rate is 100. *)
Theorem consistent_data_passes (m : measurement) (ms : list measurement) :
  (forall x, In x (m :: ms) -> exactly_consistent x) ->
  exists vr rate,
    validate_mathematical_consistency (m :: ms) = inr vr
    /\ consistency_failures vr = 0
    /\ failed_measurements vr = []
    /\ success_rate vr = inr rate
    /\ (rate == 100)%Q.
Proof.
  intros H.
  assert (F : flat_map (fun item : Z * measurement =>
                          failures_of (fst item) (snd item))
                       (enumerate (m :: ms)) = []).
  { apply flat_map_all_nil. intros [i x] I. cbn [fst snd].
    apply exactly_consistent_passes, H. exact (enumerate_member _ _ _ I). }
  assert (Z0 : consistency_failures (loop_result (m :: ms)) = 0).
  { unfold loop_result. rewrite loop_failures, F. reflexivity. }
  eexists; eexists. split; [apply validate_nonempty|].
  split; [exact Z0|]. split.
  - unfold loop_result. rewrite loop_failed, F. reflexivity.
  - split; [apply success_rate_value|].
    rewrite Z0, Z.sub_0_r.
    assert (P : ~ (inject_Z (len (m :: ms)) == 0)%Q).
    { intros E. change 0%Q with (inject_Z 0) in E.
      rewrite inject_Z_injective in E. rewrite len_cons in E.
      pose proof (len_nonneg ms). lia. }
    field. exact P.
Qed.

Lemma consistent_data_passes_witness :
  (forall x, In x [Samples.sample 10 100 20 5 40 None None None] ->
             exactly_consistent x)
  /\ exists vr,
       validate_mathematical_consistency
         [Samples.sample 10 100 20 5 40 None None None] = inr vr
       /\ failed_measurements vr = [].
Proof.
  assert (H : forall x, In x [Samples.sample 10 100 20 5 40 None None None] ->
                        exactly_consistent x).
  { intros x [<-|[]]. unfold exactly_consistent.
    split; [reflexivity|]. split; [vm_compute; reflexivity|].
    split; [apply Qle_bool_imp_le; reflexivity|].
    intros _. vm_compute. reflexivity. }
  split; [exact H|].
  destruct (consistent_data_passes _ _ H) as (vr & rate & V & _ & F & _).
  exists vr. split; assumption.
Defined.


End ConsistencyFacts.

(** ** More on the validation of the extraction path *)

Module RowValidationFacts.
Import Extract ExtractValidationFacts.

Lemma rows_consistency (l : list (Z * row)) (vc : validation_checks) :
  passed_mathematical_consistency (fold_left validate_row l vc)
  = passed_mathematical_consistency vc
    + len (filter (fun item : Z * row => consistent (snd item)) l).
Proof.
  revert vc; induction l as [|[i r] l IH]; intros vc; cbn [fold_left filter].
  - unfold len; simpl; lia.
  - rewrite IH. cbn [snd].
    change (passed_mathematical_consistency (validate_row vc (i, r)))
      with (passed_mathematical_consistency vc
            + (if consistent r then 1 else 0)).
    destruct (consistent r); rewrite ?len_cons; lia.
Qed.

Definition percent (passed total : Z) : Q :=
  (inject_Z passed / inject_Z total * 100)%Q.

(** The result on a non-empty frame. *)
Lemma validate_measurements_value (r : row) (df : list row) :
  validate_measurements (r :: df)
  = inr (rows_result (r :: df),
         {| pct_mathematical_consistency :=
              percent (len (filter consistent (r :: df))) (len (r :: df));
            pct_physical_validity :=
              percent (len (filter physical_ok (r :: df))) (len (r :: df));
            pct_range_validation :=
              percent (len (filter ranges_ok (r :: df))) (len (r :: df)) |}).
Proof.
  unfold validate_measurements; fold (rows_result (r :: df)).
  rewrite !percentage_nonempty; cbn [bind ret].
  unfold rows_result.
  rewrite rows_consistency, rows_physical, rows_range.
  cbn [passed_mathematical_consistency passed_physical_validity
       passed_range_validation].
  unfold enumerate.
  rewrite (count_enumerate_from consistent),
    (count_enumerate_from physical_ok), (count_enumerate_from ranges_ok).
  reflexivity.
Qed.

Lemma len_filter_le {B : Type} (p : B -> bool) (l : list B) :
  0 <= len (filter p l) <= len l.
Proof.
  induction l as [|x l IH]; [unfold len; simpl; lia|].
  cbn [filter]. destruct (p x); rewrite ?len_cons; lia.
Qed.

Lemma percent_bounds (passed total : Z) :
  0 <= passed <= total -> 1 <= total ->
  (0 <= percent passed total <= 100)%Q.
Proof.
  intros B T. unfold percent.
  assert (Pc : (0 < inject_Z total)%Q).
  { change 0%Q with (inject_Z 0). rewrite <- Zlt_Qlt. lia. }
  assert (Lo : (0 <= inject_Z passed)%Q).
  { change 0%Q with (inject_Z 0). rewrite <- Zle_Qle. lia. }
  assert (Hi : (inject_Z passed <= inject_Z total)%Q).
  { rewrite <- Zle_Qle. lia. }
  assert (L1 : (0 <= inject_Z passed / inject_Z total)%Q).
  { apply Qle_shift_div_l; [exact Pc|]. lra. }
  assert (H1 : (inject_Z passed / inject_Z total <= 1)%Q).
  { apply Qle_shift_div_r; [exact Pc|]. lra. }
  set (q := (inject_Z passed / inject_Z total)%Q) in *.
  split; lra.
Qed.

Lemma percent_full (total : Z) : 1 <= total -> (percent total total == 100)%Q.
Proof.
  intros T. unfold percent. field.
  intros E. change 0%Q with (inject_Z 0) in E.
  rewrite inject_Z_injective in E. lia.
Qed.

(** X6.  On a non-empty frame the three counters are the numbers of rows
    that pass the consistency check (the float distance between the
    expected and the reported efficiency is at most the float tolerance),
    the latency and throughput ranges, and the power and temperature
    ranges, and each percentage is that number over the number of rows,
    times 100: a value between 0 and 100. *)
Theorem validation_percentages_are_shares (r : row) (df : list row) :
  exists checks pct,
    validate_measurements (r :: df) = inr (checks, pct)
    /\ passed_mathematical_consistency checks
       = len (filter
                (fun s =>
                   Qle_bool
                     (Qabs (fsub (if Qltb 0 (power_watts s)
                                  then fdiv (throughput_fps s) (power_watts s)
                                  else 0%Q)
                                 (efficiency_fps_per_watt s)))
                     (py_max (py_float 0.001)
                        (fmul (efficiency_fps_per_watt s) (py_float 0.001))))
                (r :: df))
    /\ passed_physical_validity checks
       = len (filter
                (fun s => in_range 0.1 (latency_ms s) 1000
                          && in_range 1 (throughput_fps s) 10000)
                (r :: df))
    /\ passed_range_validation checks
       = len (filter
                (fun s => in_range 10 (power_watts s) 100
                          && in_range 20 (temperature_celsius s) 100)
                (r :: df))
    /\ pct_mathematical_consistency pct
       = (inject_Z (passed_mathematical_consistency checks)
          / inject_Z (len (r :: df)) * 100)%Q
    /\ pct_physical_validity pct
       = (inject_Z (passed_physical_validity checks)
          / inject_Z (len (r :: df)) * 100)%Q
    /\ pct_range_validation pct
       = (inject_Z (passed_range_validation checks)
          / inject_Z (len (r :: df)) * 100)%Q
    /\ (0 <= pct_mathematical_consistency pct <= 100)%Q
    /\ (0 <= pct_physical_validity pct <= 100)%Q
    /\ (0 <= pct_range_validation pct <= 100)%Q.
Proof.
  eexists; eexists. split; [apply validate_measurements_value|].
  assert (T : 1 <= len (r :: df)).
  { rewrite len_cons. pose proof (len_nonneg df). lia. }
  assert (C : passed_mathematical_consistency (rows_result (r :: df))
              = len (filter consistent (r :: df))).
  { unfold rows_result. rewrite rows_consistency.
    unfold enumerate. now rewrite (count_enumerate_from consistent). }
  assert (P : passed_physical_validity (rows_result (r :: df))
              = len (filter physical_ok (r :: df))).
  { unfold rows_result. rewrite rows_physical.
    unfold enumerate. now rewrite (count_enumerate_from physical_ok). }
  assert (R : passed_range_validation (rows_result (r :: df))
              = len (filter ranges_ok (r :: df))).
  { unfold rows_result. rewrite rows_range.
    unfold enumerate. now rewrite (count_enumerate_from ranges_ok). }
  cbn [pct_mathematical_consistency pct_physical_validity pct_range_validation].
  rewrite C, P, R.
  split; [reflexivity|]. split; [reflexivity|]. split; [reflexivity|].
  split; [reflexivity|]. split; [reflexivity|]. split; [reflexivity|].
  split; [|split]; apply percent_bounds; try exact T; apply len_filter_le.
Qed.

Lemma app_nil_both {B : Type} (l l' : list B) :
  (l ++ l')%list = [] <-> l = [] /\ l' = [].
Proof.
  split; [apply app_eq_nil|]. intros [-> ->]. reflexivity.
Qed.

Lemma row_failures_nil (idx : Z) (r : row) :
  row_failures idx r = [] <-> consistent r = true /\ physical_ok r = true.
Proof.
  rewrite row_failures_eq. unfold physical_ok.
  destruct (consistent r); destruct (in_range 0.1 (latency_ms r) 1000);
    destruct (in_range 1 (throughput_fps r) 10000); cbn;
    split; intros H; try discriminate H; try (destruct H; discriminate);
    auto.
Qed.

Lemma flat_map_nil {A B : Type} (f : A -> list B) (l : list A) :
  flat_map f l = [] <-> forall x, In x l -> f x = [].
Proof.
  induction l as [|x l IH]; cbn [flat_map In]; [tauto|].
  rewrite app_nil_both, IH. split.
  - intros [H1 H2] y [<-|I]; auto.
  - intros H. split; [apply H; now left|]. intros y I. apply H. now right.
Qed.

(** X7.  The failure list of a run is empty exactly when, for every row,
    the float distance between the expected and the reported efficiency is
    at most the float tolerance [max(0.001, efficiency * 0.001)] and the
    latency and the throughput are in range; the power and the temperature
    ranges play no part. *)
Theorem failure_list_empty_iff (r : row) (df : list row) :
  exists checks pct,
    validate_measurements (r :: df) = inr (checks, pct)
    /\ (failed_validations checks = []
        <-> forall s, In s (r :: df) ->
              (Qabs (fsub (if Qltb 0 (power_watts s)
                           then fdiv (throughput_fps s) (power_watts s)
                           else 0%Q)
                          (efficiency_fps_per_watt s))
               <= py_max (py_float 0.001)
                    (fmul (efficiency_fps_per_watt s) (py_float 0.001)))%Q
              /\ (0.1 <= latency_ms s <= 1000)%Q
              /\ (1 <= throughput_fps s <= 10000)%Q).
Proof.
  eexists; eexists. split; [apply validate_measurements_value|].
  unfold rows_result. rewrite rows_failed. cbn [failed_validations app].
  rewrite flat_map_nil.
  assert (Ok : forall s,
             consistent s = true /\ physical_ok s = true
             <-> (Qabs (fsub (if Qltb 0 (power_watts s)
                              then fdiv (throughput_fps s) (power_watts s)
                              else 0%Q)
                             (efficiency_fps_per_watt s))
                  <= py_max (py_float 0.001)
                       (fmul (efficiency_fps_per_watt s) (py_float 0.001)))%Q
                 /\ (0.1 <= latency_ms s <= 1000)%Q
                 /\ (1 <= throughput_fps s <= 10000)%Q).
  { intros s. unfold consistent, efficiency_diff_of,
      expected_efficiency_of_row, physical_ok.
    rewrite Qle_bool_iff, andb_true_iff, !in_range_iff. tauto. }
  split.
  - intros H s I. apply Ok. apply In_nth_error in I. destruct I as [n N].
    apply (row_failures_nil (Z.of_nat n)).
    apply (H (Z.of_nat n, s)). now apply in_enumerate.
  - intros H [i s] I. cbn [fst snd]. apply row_failures_nil.
    apply Ok, H. unfold enumerate in I. apply in_enumerate_from in I.
    destruct I as [_ N]. now apply nth_error_In in N.
Qed.

End RowValidationFacts.

(** ** More on the summary statistics *)

Module DispersionFacts.
Import StatisticsFacts.

Section WithSciPy.
Context {scipy : SciPy}.


End WithSciPy.





(** X9.  A frame of a single row has its statistics computed without an
    error, but no metric gets an entry: the performance statistics are
    empty, while the peak values are those of the row. *)
Theorem single_row_has_no_statistics (scipy : SciPy) (r : Extract.row) :
  exists processed,
    Extract.calculate_real_statistics [r] = inr processed
    /\ Extract.total_measurements processed = 1
    /\ Extract.performance_statistics processed = []
    /\ Extract.peak_throughput_fps (Extract.peak processed)
       = Fin (Extract.throughput_fps r)
    /\ Extract.peak_efficiency_fps_per_watt (Extract.peak processed)
       = Fin (Extract.efficiency_fps_per_watt r)
    /\ Extract.min_latency_ms (Extract.peak processed)
       = Fin (Extract.latency_ms r).
Proof.
  eexists. split; [reflexivity|]. repeat split; reflexivity.
Qed.

Section SingleMeasurement.
Context {scipy : SciPy}.

Lemma np_std_single (x : Q) : np_std [x] 1 = NaN.
Proof.
  unfold np_std, np_mean, np_div, of_int. cbn [map Qsum fold_right].
  change (len [x]) with 1.
  change (Qeq_bool (inject_Z 1) 0) with false.
  change (Z.max (1 - 1) 0) with 0.
  change (Qeq_bool (inject_Z 0) 0) with true.
  cbv iota.
  replace (Qeq_bool (Qsquare (x - (x + 0) / inject_Z 1) + 0) 0)
    with true; [reflexivity|].
  symmetry. apply Qeq_eq_bool. unfold Qsquare.
  change (inject_Z 1) with 1%Q. field.
Qed.

Lemma margin_single (x : Q) : margin_of 0.975 [x] = NaN.
Proof. reflexivity. Qed.

Lemma interval_single (x lo hi : Q) :
  Validate.confidence_interval_95 (interval_entry [x] lo hi) = Some (NaN, NaN)
  /\ Validate.margin_of_error (interval_entry [x] lo hi) = Some NaN
  /\ Validate.std (interval_entry [x] lo hi) = NaN.
Proof.
  unfold interval_entry.
  cbn [Validate.confidence_interval_95 Validate.margin_of_error Validate.std].
  rewrite margin_single, np_std_single.
  split; [|split; reflexivity].
  replace (np_mean [x]) with (Fin ((x + 0) / inject_Z 1)) by reflexivity.
  reflexivity.
Qed.

End SingleMeasurement.

(** X10.  On a single measurement [reproduce_summary_statistics] returns:
    the standard deviation with one degree of freedom removed is [nan], and
    so are the margin of error and both bounds of the interval of power,
    throughput and efficiency. *)
Theorem single_measurement_interval_is_nan (scipy : SciPy)
    (m : Json.measurement) :
  exists stats,
    Validate.reproduce_summary_statistics [m] = inr stats
    /\ map fst stats
       = ["power_consumption_watts"; "throughput_fps";
          "efficiency_fps_per_watt"; "temperature_celsius"]
    /\ forall name entry,
         In (name, entry) stats ->
         Validate.count entry = 1
         /\ Validate.std entry = NaN
         /\ (name <> "temperature_celsius" ->
             Validate.confidence_interval_95 entry = Some (NaN, NaN)
             /\ Validate.margin_of_error entry = Some NaN).
Proof.
  destruct (reproduce_summary_statistics_nonempty m [])
    as (lo1 & hi1 & lo2 & hi2 & lo3 & hi3 & lo4 & hi4 & R).
  eexists. split; [exact R|]. split; [reflexivity|].
  intros name entry I. cbn [In map] in I.
  destruct I as [I|[I|[I|[I|[]]]]]; inversion I; subst name entry;
    (split; [reflexivity|]).
  1-3: match goal with
       | |- context [interval_entry [?x] ?lo ?hi] =>
           destruct (interval_single x lo hi) as (C & M & S)
       end; split; [exact S|]; intros _; split; assumption.
  split; [apply np_std_single|]. intros N. now elim N.
Qed.

Lemma single_measurement_interval_is_nan_witness :
  exists stats entry,
    Validate.reproduce_summary_statistics (scipy := Reference.scipy)
      [Samples.idle_record] = inr stats
    /\ In ("power_consumption_watts", entry) stats
    /\ Validate.confidence_interval_95 entry = Some (NaN, NaN).
Proof.
  destruct (single_measurement_interval_is_nan Reference.scipy
              Samples.idle_record) as (stats & R & K & H).
  destruct stats as [|[name entry] stats]; [discriminate K|].
  injection K as -> K.
  assert (I : In ("power_consumption_watts", entry)
                 (("power_consumption_watts", entry) :: stats))
    by (left; reflexivity).
  exists (("power_consumption_watts", entry) :: stats), entry.
  split; [exact R|]. split; [exact I|].
  destruct (H _ _ I) as (_ & _ & N).
  apply N. discriminate.
Defined.

(** [np.min] of a non-empty list. *)
Definition list_min (x : Q) (xs : list Q) : Q :=
  fold_left (fun a b => if Qltb b a then b else a) xs x.

Lemma list_min_le (xs : list Q) (x : Q) :
  (list_min x xs <= x)%Q
  /\ forall y, In y xs -> (list_min x xs <= y)%Q.
Proof.
  revert x; induction xs as [|z xs IH]; intros x; cbn [list_min fold_left].
  - split; [lra|intros y []].
  - fold (list_min (if Qltb z x then z else x) xs).
    destruct (IH (if Qltb z x then z else x)) as [L U].
    destruct (Qltb z x) eqn:E;
      [apply Qltb_lt in E|apply Qltb_ge in E];
      (split; [lra|intros y [<-|I]; [lra|auto]]).
Qed.

Lemma list_min_in (xs : list Q) (x : Q) : In (list_min x xs) (x :: xs).
Proof.
  revert x; induction xs as [|z xs IH]; intros x; cbn [list_min fold_left].
  - now left.
  - fold (list_min (if Qltb z x then z else x) xs).
    destruct (IH (if Qltb z x then z else x)) as [E|I].
    + rewrite <- E. destruct (Qltb z x); [right|]; now left.
    + right; now right.
Qed.

Lemma column_min (column : Extract.row -> Q) (r : Extract.row)
    (df : list Extract.row) :
  exists v,
    Extract.series_min (map column (r :: df)) = Fin v
    /\ In v (map column (r :: df))
    /\ forall x, In x (r :: df) -> (v <= column x)%Q.
Proof.
  exists (list_min (column r) (map column df)).
  split; [reflexivity|]. split; [apply list_min_in|].
  destruct (list_min_le (map column df) (column r)) as [L U].
  intros x [<-|I]; [exact L|]. apply U. now apply in_map.
Qed.

(** X11.  On a non-empty frame the reported power range, minimum latency
    and maximum temperature are values of the frame that bound their
    column: every row draws a power between [min_watts] and [max_watts],
    has a latency of at least [min_latency_ms] and a temperature of at most
    [max_temperature_celsius]. *)
Theorem extraction_ranges_bound_their_columns (scipy : SciPy)
    (r : Extract.row) (df : list Extract.row) :
  exists processed lo hi latency temperature,
    Extract.calculate_real_statistics (r :: df) = inr processed
    /\ Extract.power_range_min_watts (Extract.peak processed) = Fin lo
    /\ Extract.power_range_max_watts (Extract.peak processed) = Fin hi
    /\ Extract.min_latency_ms (Extract.peak processed) = Fin latency
    /\ Extract.max_temperature_celsius (Extract.peak processed)
       = Fin temperature
    /\ In lo (map Extract.power_watts (r :: df))
    /\ In hi (map Extract.power_watts (r :: df))
    /\ In latency (map Extract.latency_ms (r :: df))
    /\ In temperature (map Extract.temperature_celsius (r :: df))
    /\ (lo <= hi)%Q
    /\ forall x, In x (r :: df) ->
         (lo <= Extract.power_watts x <= hi)%Q
         /\ (latency <= Extract.latency_ms x)%Q
         /\ (Extract.temperature_celsius x <= temperature)%Q.
Proof.
  destruct (column_min Extract.power_watts r df) as (lo & A1 & A2 & A3).
  destruct (PeakFacts.column_max Extract.power_watts r df) as (hi & B1 & B2 & B3).
  destruct (column_min Extract.latency_ms r df) as (lat & C1 & C2 & C3).
  destruct (PeakFacts.column_max Extract.temperature_celsius r df)
    as (t & D1 & D2 & D3).
  eexists; exists lo, hi, lat, t. split; [reflexivity|].
  cbn [Extract.peak Extract.power_range_min_watts Extract.power_range_max_watts
       Extract.min_latency_ms Extract.max_temperature_celsius].
  repeat (split; [assumption|]).
  split.
  - specialize (A3 r (or_introl eq_refl)).
    specialize (B3 r (or_introl eq_refl)). lra.
  - intros x I. repeat split; auto.
Qed.

End DispersionFacts.

(** ** More on the peak finder *)

Module GroupingFacts.
Import Json Validate PeakFacts.

Section Flatten.
Context {K A : Type} (eqb : K -> K -> bool).
Hypothesis eqb_eq : forall a b : K, eqb a b = true <-> a = b.

Definition flatten (d : list (K * list A)) : list A :=
  List.concat (map snd d).

Lemma flatten_set (d : list (K * list A)) (k : K) (l : list A) (x : A) :
  dict_get eqb d k = Some l ->
  Permutation (flatten (dict_set eqb d k (l ++ [x])%list)) (x :: flatten d).
Proof.
  unfold flatten.
  induction d as [|[k' v'] d IH]; cbn [dict_get dict_set]; [discriminate|].
  destruct (eqb k' k) eqn:E; intros G; cbn [map snd List.concat].
  - injection G as ->. rewrite <- app_assoc. cbn [app].
    symmetry. apply Permutation_middle.
  - apply Permutation_trans with (v' ++ x :: List.concat (map snd d))%list.
    + apply Permutation_app_head. now apply IH.
    + symmetry. apply Permutation_middle.
Qed.

Lemma flatten_append (d : list (K * list A)) (k : K) (x : A) :
  Permutation (flatten (dict_append eqb d k x)) (x :: flatten d).
Proof.
  unfold dict_append, dict_mem.
  destruct (dict_get eqb d k) as [l|] eqn:G.
  - rewrite G. now apply flatten_set.
  - rewrite dict_get_set_same by exact eqb_eq.
    apply Permutation_trans with (x :: flatten (dict_set eqb d k [])).
    + apply (flatten_set _ k [] x). now apply dict_get_set_same.
    + apply perm_skip. rewrite (dict_set_fresh eqb) by exact G.
      unfold flatten. rewrite map_app, concat_app. cbn. now rewrite app_nil_r.
Qed.

Lemma flatten_group_by (key : A -> K) (l : list A) (d : list (K * list A)) :
  Permutation (flatten (group_by eqb key l d)) (flatten d ++ l).
Proof.
  revert d; induction l as [|x l IH]; intros d; cbn [group_by fold_left].
  - now rewrite app_nil_r.
  - fold (group_by eqb key l (dict_append eqb d (key x) x)).
    apply Permutation_trans
      with (flatten (dict_append eqb d (key x) x) ++ l)%list; [apply IH|].
    apply Permutation_trans with ((x :: flatten d) ++ l)%list.
    + apply Permutation_app_tail, flatten_append.
    + cbn [app]. apply Permutation_middle.
Qed.

End Flatten.

(** X12.  Grouping by configuration loses and repeats nothing: the scan of
    the groups meets every measurement of the input exactly once (its
    iteration order is a permutation of the input), no group is empty, and
    no configuration key has two groups. *)
Theorem grouping_is_a_partition (measurements : list measurement) :
  Permutation (iteration_order measurements) measurements
  /\ NoDup (map fst (config_groups measurements))
  /\ Forall (fun item : string * list measurement => snd item <> [])
       (config_groups measurements).
Proof.
  split; [|split].
  - exact (flatten_group_by String.eqb String.eqb_eq config_key_of
             measurements []).
  - apply (group_by_nodup String.eqb String.eqb_eq). constructor.
  - apply Forall_forall. intros [k g] I. cbn [snd].
    exact (proj2 (config_groups_in _ _ _ I)).
Qed.

(** The summary of one group. *)
Definition summary_of (g : list measurement) : config_summary :=
  {| measurement_count := len g;
     avg_throughput := np_mean (map throughput_fps g);
     max_throughput := group_max throughput_fps g;
     avg_efficiency := np_mean (map efficiency_fps_per_watt g);
     max_efficiency := group_max efficiency_fps_per_watt g;
     avg_power := np_mean (map power_consumption_watts g) |}.

Lemma scan_config_summary (st : peak_configurations) (key : string)
    (g : list measurement) :
  g <> [] ->
  exists st',
    scan_config st (key, g) = inr st'
    /\ config_summaries st'
       = dict_set String.eqb (config_summaries st) key (summary_of g).
Proof.
  destruct g as [|m g]; [congruence|]. intros _.
  unfold scan_config, np_max. cbn [map bind ret].
  eexists. split; reflexivity.
Qed.

Lemma scan_summaries (gs : list (string * list measurement))
    (st : peak_configurations) :
  Forall (fun item : string * list measurement => snd item <> []) gs ->
  NoDup (map fst gs) ->
  (forall k, In k (map fst gs) -> ~ In k (map fst (config_summaries st))) ->
  exists st',
    foldM scan_config gs st = inr st'
    /\ config_summaries st'
       = (config_summaries st
          ++ map (fun item => (fst item, summary_of (snd item))) gs)%list.
Proof.
  revert st; induction gs as [|[k g] gs IH]; intros st NE N Fresh.
  - exists st. cbn [foldM map]. now rewrite app_nil_r.
  - inversion NE as [|? ? NEg NE']; subst. cbn [snd] in NEg.
    inversion N as [|? ? NI N']; subst.
    destruct (scan_config_summary st k g NEg) as (st1 & S & C).
    destruct (IH st1 NE' N') as (st' & F & C').
    + intros k' I. rewrite C.
      rewrite (dict_set_keys String.eqb).
      destruct (dict_mem String.eqb (config_summaries st) k).
      * apply Fresh. now right.
      * rewrite in_app_iff. cbn [In]. intros [J|[J|[]]].
        -- apply (Fresh k'); [now right|exact J].
        -- subst k'. now apply NI.
    + exists st'. cbn [foldM]. rewrite S. cbn [bind].
      split; [exact F|]. rewrite C', C.
      rewrite (dict_set_fresh String.eqb).
      * cbn [map fst snd]. now rewrite <- app_assoc.
      * apply (dict_get_none_keys String.eqb String.eqb_eq).
        apply Fresh. now left.
Qed.

Definition total_count (summaries : list (string * config_summary)) : Z :=
  fold_right Z.add 0 (map (fun item => measurement_count (snd item)) summaries).

Lemma total_count_groups (gs : list (string * list measurement)) :
  total_count (map (fun item => (fst item, summary_of (snd item))) gs)
  = len (List.concat (map snd gs)).
Proof.
  unfold total_count. induction gs as [|[k g] gs IH]; [reflexivity|].
  cbn [map fold_right fst snd List.concat measurement_count summary_of].
  rewrite IH, len_app. reflexivity.
Qed.

(** X13.  The scan returns one summary per configuration, in the order of
    the groups.  A summary counts the measurements of its configuration (at
    least one), its averages are the means over them, and its two maxima
    are values of the configuration that no measurement of it exceeds; the
    counts of all summaries add up to the number of measurements. *)
Theorem configuration_summaries (measurements : list measurement) :
  exists peaks,
    identify_peak_configurations measurements = inr peaks
    /\ map fst (config_summaries peaks) = map fst (config_groups measurements)
    /\ total_count (config_summaries peaks) = len measurements
    /\ forall k summary,
         In (k, summary) (config_summaries peaks) ->
         let g := filter (fun m => String.eqb (config_key_of m) k)
                         measurements in
         1 <= measurement_count summary
         /\ measurement_count summary = len g
         /\ avg_throughput summary = np_mean (map throughput_fps g)
         /\ avg_efficiency summary = np_mean (map efficiency_fps_per_watt g)
         /\ avg_power summary = np_mean (map power_consumption_watts g)
         /\ In (max_throughput summary) (map throughput_fps g)
         /\ In (max_efficiency summary) (map efficiency_fps_per_watt g)
         /\ forall m, In m g ->
              (throughput_fps m <= max_throughput summary)%Q
              /\ (efficiency_fps_per_watt m <= max_efficiency summary)%Q.
Proof.
  assert (P : Permutation (iteration_order measurements) measurements)
    by exact (flatten_group_by String.eqb String.eqb_eq config_key_of
                measurements []).
  assert (N : NoDup (map fst (config_groups measurements)))
    by (apply (group_by_nodup String.eqb String.eqb_eq); constructor).
  assert (NE : Forall (fun item : string * list measurement => snd item <> [])
                 (config_groups measurements)).
  { apply Forall_forall. intros [k g] I. cbn [snd].
    exact (proj2 (config_groups_in _ _ _ I)). }
  destruct (scan_summaries (config_groups measurements) no_peaks NE N)
    as (peaks & F & C); [intros k _ []|].
  cbn [config_summaries no_peaks app] in C.
  exists peaks. split; [exact F|]. rewrite C.
  split; [rewrite map_map; reflexivity|]. split.
  - rewrite total_count_groups.
    apply Permutation_length in P. unfold iteration_order in P.
    unfold len. now rewrite P.
  - intros k summary I. apply in_map_iff in I.
    destruct I as [[k' g] [E I]]. cbn [fst snd] in E.
    injection E as -> <-.
    destruct (config_groups_in _ _ _ I) as [G NEg]. rewrite <- G.
    cbn zeta. cbn [summary_of measurement_count avg_throughput avg_efficiency
                   avg_power max_throughput max_efficiency].
    split.
    { destruct g; [congruence|]. rewrite len_cons.
      pose proof (len_nonneg g). lia. }
    split; [reflexivity|]. split; [reflexivity|].
    split; [reflexivity|]. split; [reflexivity|].
    destruct (group_max_attained throughput_fps g NEg) as (mt & It & Et).
    destruct (group_max_attained efficiency_fps_per_watt g NEg)
      as (me & Ie & Ee).
    split; [rewrite <- Et; now apply in_map|].
    split; [rewrite <- Ee; now apply in_map|].
    intros m Im. split; now apply group_max_ge.
Qed.

End GroupingFacts.

(** ** More on the scaling analysis *)

Module ScalingEntryFacts.
Import Json Validate ScalingFacts.

Lemma combo_result_some (inner : list (Z * list measurement))
    (result : scaling_result) :
  combo_result inner = Some result ->
  2 <= len inner
  /\ exists baseline,
       dict_get Z.eqb (core_performance_of inner) 1 = Some baseline
       /\ core_performance result = core_performance_of inner
       /\ scaling_metrics result
          = scaling_metrics_of (core_avg_throughput baseline)
              (core_performance_of inner).
Proof.
  unfold combo_result. destruct (len inner <? 2) eqn:Few; [discriminate|].
  apply Z.ltb_ge in Few.
  destruct (dict_get Z.eqb (core_performance_of inner) 1) as [b|];
    [|discriminate].
  intros [= <-]. split; [exact Few|]. exists b. auto.
Qed.

(** The two dictionaries of an entry of the result. *)
Lemma entry_shape (measurements : list measurement) (k : string)
    (result : scaling_result) :
  dict_get String.eqb (analyze_scaling_performance measurements) k
  = Some result ->
  core_group measurements k 1 <> []
  /\ 2 <= len (group_by Z.eqb cores_of (members measurements k) [])
  /\ forall c,
       dict_get Z.eqb (core_performance result) c
       = match core_group measurements k c with
         | [] => None
         | g => Some (perf_of g)
         end
       /\ dict_get Z.eqb (scaling_metrics result) c
          = if 1 <? c then
              match core_group measurements k c with
              | [] => None
              | g => Some (metric_of (avg_throughput_of measurements k 1) c
                             (perf_of g))
              end
            else None.
Proof.
  rewrite analysis_get.
  destruct (members measurements k) as [|m0 l0] eqn:M; [discriminate|].
  rewrite <- M. clear M m0 l0. intros R.
  apply combo_result_some in R.
  destruct R as (Two & baseline & B & CP & SM).
  rewrite core_performance_get in B.
  unfold core_group, avg_throughput_of.
  destruct (filter (fun m => cores_of m =? 1) (members measurements k))
    as [|b1 g1] eqn:F1; [discriminate|].
  injection B as <-.
  split; [discriminate|]. split; [exact Two|].
  intros c. rewrite CP, SM. split.
  - apply core_performance_get.
  - rewrite scaling_metrics_of_eq by apply core_performance_nodup.
    rewrite (dict_get_map Z.eqb Z.eqb_eq (fun c p => metric_of _ c p)).
    rewrite (dict_get_filter Z.eqb Z.eqb_eq (fun c => 1 <? c)).
    destruct (1 <? c); [|reflexivity].
    rewrite core_performance_get. unfold core_group. rewrite F1.
    now destruct (filter (fun m => cores_of m =? c) (members measurements k)).
Qed.

Lemma two_keys_one_other (inner : list (Z * list measurement)) :
  NoDup (map fst inner) -> 2 <= len inner ->
  exists c, c <> 1 /\ In c (map fst inner).
Proof.
  intros N L. destruct inner as [|[c1 g1] [|[c2 g2] inner]];
    [unfold len in L; simpl in L; lia..|].
  cbn [map fst] in *. inversion N as [|? ? NI _]; subst.
  destruct (Z.eq_dec c1 1) as [->|Ne].
  - exists c2. split; [|right; now left].
    intros ->. apply NI. now left.
  - exists c1. split; [exact Ne|now left].
Qed.

Lemma entry_exists (measurements : list measurement) (k : string) (c : Z) :
  core_group measurements k 1 <> [] -> c <> 1 ->
  core_group measurements k c <> [] ->
  exists result,
    dict_get String.eqb (analyze_scaling_performance measurements) k
    = Some result.
Proof.
  intros B Ne P. rewrite analysis_get.
  unfold core_group in B, P.
  destruct (members measurements k) as [|m0 l0] eqn:M; [now elim B|].
  rewrite <- M in *. clear M m0 l0. unfold combo_result.
  destruct (filter (fun m => cores_of m =? 1) (members measurements k))
    as [|b1 g1] eqn:F1; [now elim B|].
  destruct (filter (fun m => cores_of m =? c) (members measurements k))
    as [|bc gc] eqn:Fc; [now elim P|].
  assert (Two : 2 <= len (group_by Z.eqb cores_of
                            (members measurements k) [])).
  { apply (dict_two_keys Z.eqb Z.eqb_eq _ 1 c (b1 :: g1) (bc :: gc));
      [congruence| |]; rewrite by_cores_get;
      [now rewrite F1|now rewrite Fc]. }
  replace (len (group_by Z.eqb cores_of (members measurements k) []) <? 2)
    with false by (symmetry; apply Z.ltb_ge; lia).
  rewrite core_performance_get, F1. eexists. reflexivity.
Qed.

(** X14.  A model/batch combination has an entry in the result exactly when
    it has measurements on one core and measurements on some other core
    count. *)
Theorem combination_has_entry_iff (measurements : list measurement)
    (k : string) :
  dict_mem String.eqb (analyze_scaling_performance measurements) k = true
  <-> core_group measurements k 1 <> []
      /\ exists c, c <> 1 /\ core_group measurements k c <> [].
Proof.
  unfold dict_mem. split.
  - destruct (dict_get String.eqb (analyze_scaling_performance measurements) k)
      as [result|] eqn:G; [|discriminate]. intros _.
    destruct (entry_shape _ _ _ G) as (B & Two & _).
    split; [exact B|].
    destruct (two_keys_one_other _ (by_cores_nodup _) Two) as (c & Ne & I).
    exists c. split; [exact Ne|].
    destruct (by_cores_key_member _ _ I) as (m & Im & Ec).
    unfold core_group. intros E.
    assert (J : In m (filter (fun x => cores_of x =? c)
                             (members measurements k))).
    { apply filter_In. split; [exact Im|now apply Z.eqb_eq]. }
    rewrite E in J. destruct J.
  - intros (B & c & Ne & P).
    destruct (entry_exists _ _ _ B Ne P) as [result G]. now rewrite G.
Qed.

(** X15.  In an entry of the result, [core_performance] has one record per
    core count of the combination, with the number of its measurements and
    the means of their throughput, power and efficiency, and
    [scaling_metrics] has a record exactly for the core counts above one:
    the 1-core baseline gets no scaling metrics. *)
Theorem entry_contents (measurements : list measurement) (k : string)
    (result : scaling_result) (c : Z) :
  dict_get String.eqb (analyze_scaling_performance measurements) k
  = Some result ->
  (dict_mem Z.eqb (core_performance result) c = true
   <-> core_group measurements k c <> [])
  /\ (dict_mem Z.eqb (scaling_metrics result) c = true
      <-> 1 < c /\ core_group measurements k c <> [])
  /\ forall perf,
       dict_get Z.eqb (core_performance result) c = Some perf ->
       core_measurement_count perf = len (core_group measurements k c)
       /\ core_avg_throughput perf
          = np_mean (map throughput_fps (core_group measurements k c))
       /\ core_avg_power perf
          = np_mean (map power_consumption_watts (core_group measurements k c))
       /\ core_avg_efficiency perf
          = np_mean (map efficiency_fps_per_watt (core_group measurements k c)).
Proof.
  intros G. destruct (entry_shape _ _ _ G) as (_ & _ & S).
  destruct (S c) as [CP SM]. unfold dict_mem. rewrite CP, SM.
  destruct (core_group measurements k c) as [|m g] eqn:E.
  - split; [split; [discriminate|congruence]|].
    split; [|discriminate].
    destruct (1 <? c); (split; [discriminate|intros [_ H]; congruence]).
  - split; [split; [discriminate|reflexivity]|]. split.
    + destruct (1 <? c) eqn:L.
      * apply Z.ltb_lt in L. split; [|reflexivity].
        intros _. split; [exact L|discriminate].
      * apply Z.ltb_ge in L. split; [discriminate|]. intros [H _]. lia.
    + intros perf [= <-]. repeat split; reflexivity.
Qed.

Lemma entry_contents_witness :
  exists result,
    dict_get String.eqb (analyze_scaling_performance Samples.scaling_pair)
      "resnet18_batch1" = Some result
    /\ (dict_mem Z.eqb (scaling_metrics result) 1 = true
        <-> 1 < 1 /\ core_group Samples.scaling_pair "resnet18_batch1" 1 <> []).
Proof.
  eexists. split; [vm_compute; reflexivity|].
  refine (proj1 (proj2 (entry_contents Samples.scaling_pair "resnet18_batch1"
                          _ 1 _))).
  vm_compute; reflexivity.
Defined.

(** X16.  A 1-core baseline whose average throughput is 0 does not stop the
    analysis: numpy divides by zero, and the entry of a core count with a
    positive average carries an infinite scaling factor, efficiency and
    improvement; with an average of 0 as well, all three are [nan]. *)
Theorem zero_baseline_gives_infinite_scaling
    (measurements : list measurement) (k : string) (c : Z) (a b : Q) :
  1 < c ->
  core_group measurements k c <> [] ->
  core_group measurements k 1 <> [] ->
  avg_throughput_of measurements k 1 = Fin a ->
  avg_throughput_of measurements k c = Fin b ->
  (a == 0)%Q ->
  exists result metric,
    dict_get String.eqb (analyze_scaling_performance measurements) k
    = Some result
    /\ dict_get Z.eqb (scaling_metrics result) c = Some metric
    /\ ((0 < b)%Q ->
        scaling_factor metric = Inf true
        /\ scaling_efficiency_percent metric = Inf true
        /\ throughput_improvement metric = Inf true)
    /\ ((b == 0)%Q ->
        scaling_factor metric = NaN
        /\ scaling_efficiency_percent metric = NaN
        /\ throughput_improvement metric = NaN).
Proof.
  intros L P B A1 Ac Z.
  destruct (entry_exists measurements k c B ltac:(lia) P) as [result G].
  destruct (entry_shape _ _ _ G) as (_ & _ & S).
  destruct (S c) as [_ SM].
  replace (1 <? c) with true in SM by (symmetry; apply Z.ltb_lt; exact L).
  assert (T : core_avg_throughput (perf_of (core_group measurements k c))
              = Fin b) by exact Ac.
  destruct (core_group measurements k c) as [|m g] eqn:E; [now elim P|].
  exists result, (metric_of (avg_throughput_of measurements k 1) c
                    (perf_of (m :: g))).
  split; [exact G|]. split; [exact SM|].
  unfold metric_of.
  cbn [scaling_factor scaling_efficiency_percent throughput_improvement].
  rewrite T, A1.
  assert (Z' : Qeq_bool a 0 = true) by (apply Qeq_bool_iff; exact Z).
  assert (C : Qltb (inject_Z c) 0 = false).
  { apply Qltb_ge. change 0%Q with (inject_Z 0). rewrite <- Zle_Qle. lia. }
  split.
  - intros Pos.
    assert (D : np_div (Fin b) (Fin a) = Inf true).
    { cbn [np_div]. rewrite Z'.
      destruct (Qeq_bool b 0) eqn:Eb;
        [apply Qeq_bool_iff in Eb; lra|].
      f_equal. apply Qltb_lt. exact Pos. }
    rewrite D. unfold of_int. cbn [np_div]. rewrite C.
    repeat split; reflexivity.
  - intros Zb.
    assert (D : np_div (Fin b) (Fin a) = NaN).
    { cbn [np_div]. rewrite Z'.
      now replace (Qeq_bool b 0) with true
        by (symmetry; apply Qeq_bool_iff; exact Zb). }
    rewrite D. repeat split; reflexivity.
Qed.

Lemma zero_baseline_gives_infinite_scaling_witness :
  exists result metric,
    dict_get String.eqb (analyze_scaling_performance Samples.stalled_pair)
      "resnet18_batch1" = Some result
    /\ dict_get Z.eqb (scaling_metrics result) 4 = Some metric
    /\ scaling_factor metric = Inf true
    /\ scaling_efficiency_percent metric = Inf true
    /\ throughput_improvement metric = Inf true.
Proof.
  destruct (zero_baseline_gives_infinite_scaling Samples.stalled_pair
              "resnet18_batch1" 4 (0 / 1) (350 / 1))
    as (result & metric & G & M & Pos & _);
    [lia | discriminate | discriminate | reflexivity | reflexivity
    | reflexivity |].
  exists result, metric. split; [exact G|]. split; [exact M|].
  apply Pos. reflexivity.
Defined.

End ScalingEntryFacts.

(** ** More on the scaling summary of the extraction script *)

Module ExtractScalingEntryFacts.
Import Extract ExtractScalingFacts.

Definition total_samples (d : list (string * scaling_detail)) : Z :=
  fold_right (fun item acc => sample_count (snd item) + acc) 0 d.

(** X17.  The scaling summary has an entry for one, two or four cores
    exactly when the ResNet-18, batch 1 filter has rows on that many cores;
    the entry counts these rows and carries their mean throughput, and the
    1-core entry has factor and efficiency 1.  The summary lists the cores
    1 to 4 as tested, but no other key ever appears: there is never an entry
    for three cores. *)
Theorem extraction_scaling_entries (df : list row) (c : Z) :
  In c [1; 2; 4] ->
  (dict_mem String.eqb (scaling_details (_analyze_multicore_scaling df))
     (str_of_int c ++ "_cores") = true
   <-> rows_on df c <> [])
  /\ (forall detail,
        dict_get String.eqb (scaling_details (_analyze_multicore_scaling df))
          (str_of_int c ++ "_cores") = Some detail ->
        sample_count detail = len (rows_on df c)
        /\ detail_throughput_fps detail = mean_throughput_on df c
        /\ (c = 1 -> scaling_factor detail = Fin 1
                     /\ efficiency detail = Fin 1)
        /\ (c <> 1 -> efficiency detail
                      = np_div (scaling_factor detail) (of_int c)))
  /\ cores_tested (_analyze_multicore_scaling df) = [1; 2; 3; 4]
  /\ (forall k,
        dict_mem String.eqb (scaling_details (_analyze_multicore_scaling df)) k
        = true ->
        In k ["1_cores"; "2_cores"; "4_cores"]).
Proof.
  intros C. unfold dict_mem. rewrite (scaling_details_get df c C).
  unfold mean_throughput_on.
  split; [|split; [|split; [reflexivity|]]].
  - destruct (rows_on df c); split; congruence.
  - destruct (rows_on df c) as [|r l] eqn:E; [discriminate|].
    intros detail [= <-]. unfold detail_of.
    cbn [sample_count detail_throughput_fps scaling_factor efficiency].
    fold (rows_on df c). rewrite E.
    split; [reflexivity|]. split; [reflexivity|]. split.
    + intros ->. split; reflexivity.
    + intros Ne.
      now replace (c =? 1) with false by (symmetry; now apply Z.eqb_neq).
  - intros k M. apply (scaling_details_keys df).
    destruct (dict_get String.eqb
                (scaling_details (_analyze_multicore_scaling df)) k) eqn:G;
      [|discriminate].
    destruct (in_dec string_dec k
                (map fst (scaling_details (_analyze_multicore_scaling df))))
      as [I|NI]; [exact I|].
    pose proof (proj2 (dict_get_none_keys String.eqb String.eqb_eq _ k) NI).
    congruence.
Qed.

Lemma extraction_scaling_entries_witness :
  dict_mem String.eqb
    (scaling_details (_analyze_multicore_scaling Samples.stalled_rows))
    "2_cores" = true
  <-> rows_on Samples.stalled_rows 2 <> [].
Proof.
  refine (proj1 (extraction_scaling_entries Samples.stalled_rows 2 _)).
  cbn [In]. auto.
Defined.

(** X18.  The ratio to the baseline is guarded by the truth value of the
    baseline: when the 1-core rows have a mean throughput of 0, the entries
    of two and of four cores get the scaling factor 0 and the efficiency
    0 / cores, not a division by zero. *)
Theorem extraction_zero_baseline_gives_factor_zero (df : list row) (c : Z)
    (a : Q) :
  c = 2 \/ c = 4 ->
  rows_on df c <> [] ->
  rows_on df 1 <> [] ->
  mean_throughput_on df 1 = Fin a ->
  (a == 0)%Q ->
  exists detail,
    dict_get String.eqb (scaling_details (_analyze_multicore_scaling df))
      (str_of_int c ++ "_cores") = Some detail
    /\ scaling_factor detail = Fin 0
    /\ efficiency detail = Fin (0 / inject_Z c).
Proof.
  intros C P B A Z.
  rewrite (scaling_details_get df c)
    by (cbn [In]; destruct C as [-> | ->]; auto).
  destruct (rows_on df c) as [|r l] eqn:E; [now elim P|].
  eexists. split; [reflexivity|].
  assert (Ne : (c =? 1) = false) by (destruct C as [-> | ->]; reflexivity).
  unfold detail_of, baseline_after, baseline_of.
  cbn [scaling_factor efficiency]. rewrite Ne.
  unfold mean_throughput_on, rows_on in A, B.
  destruct (filter (fun r => cores r =? 1) (resnet18_batch1 df))
    as [|r1 l1] eqn:F1; [now elim B|].
  cbn [truthy]. rewrite A. cbn [np_nonzero].
  replace (Qeq_bool a 0) with true by (symmetry; now apply Qeq_bool_iff).
  cbn [negb]. split; [reflexivity|].
  unfold of_int. cbn [np_div].
  destruct C as [-> | ->]; reflexivity.
Qed.

Lemma extraction_zero_baseline_gives_factor_zero_witness :
  exists detail,
    dict_get String.eqb
      (scaling_details (_analyze_multicore_scaling Samples.stalled_rows))
      "4_cores" = Some detail
    /\ scaling_factor detail = Fin 0
    /\ efficiency detail = Fin (0 / 4).
Proof.
  apply (extraction_zero_baseline_gives_factor_zero Samples.stalled_rows 4
           (0 / 1));
    [now right | discriminate | discriminate | reflexivity | reflexivity].
Defined.

(** X19.  The overall scaling efficiency is the efficiency of the 4-core
    entry: 0 without 4-core rows, the 4-core factor over 4 otherwise, where
    the factor is 0 without 1-core rows and the ratio of the mean
    throughputs with a 1-core baseline of non-zero mean. *)
Theorem overall_scaling_efficiency_value (df : list row) :
  (rows_on df 4 = [] ->
   overall_scaling_efficiency (_analyze_multicore_scaling df) = Fin 0)
  /\ (rows_on df 4 <> [] -> rows_on df 1 = [] ->
      overall_scaling_efficiency (_analyze_multicore_scaling df)
      = Fin (0 / 4))
  /\ (rows_on df 4 <> [] -> rows_on df 1 <> [] ->
      np_nonzero (mean_throughput_on df 1) = true ->
      overall_scaling_efficiency (_analyze_multicore_scaling df)
      = np_div (np_div (mean_throughput_on df 4) (mean_throughput_on df 1))
               (of_int 4)).
Proof.
  assert (O : overall_scaling_efficiency (_analyze_multicore_scaling df)
              = match dict_get String.eqb
                        (scaling_details (_analyze_multicore_scaling df))
                        "4_cores" with
                | Some detail => efficiency detail
                | None => Fin 0
                end) by reflexivity.
  rewrite O.
  change "4_cores" with (str_of_int 4 ++ "_cores").
  rewrite (scaling_details_get df 4) by (cbn [In]; auto).
  unfold mean_throughput_on, rows_on.
  set (rb := resnet18_batch1 df).
  unfold detail_of, baseline_after, baseline_of.
  cbn [efficiency Z.eqb Pos.eqb].
  split; [|split].
  - now intros ->.
  - intros P ->.
    destruct (filter (fun r => cores r =? 4) rb); [now elim P|].
    reflexivity.
  - intros P B NZ.
    destruct (filter (fun r => cores r =? 4) rb) as [|r4 l4] eqn:F4;
      [now elim P|].
    destruct (filter (fun r => cores r =? 1) rb) as [|r1 l1] eqn:F1;
      [now elim B|].
    cbn [truthy Json.get]. now rewrite NZ.
Qed.

Lemma three_way_split (rb : list row) :
  (forall r, In r rb -> In (cores r) [1; 2; 4]) ->
  len rb = len (filter (fun r => cores r =? 1) rb)
           + len (filter (fun r => cores r =? 2) rb)
           + len (filter (fun r => cores r =? 4) rb).
Proof.
  induction rb as [|r rb IH]; intros H; [reflexivity|].
  cbn [filter].
  assert (C : In (cores r) [1; 2; 4]) by (apply H; now left).
  rewrite len_cons, IH by (intros x I; apply H; now right).
  cbn [In] in C. destruct C as [<-|[<-|[<-|[]]]];
    cbn [Z.eqb Pos.eqb]; rewrite len_cons; lia.
Qed.

Lemma total_samples_app (d d' : list (string * scaling_detail)) :
  total_samples (d ++ d') = total_samples d + total_samples d'.
Proof.
  unfold total_samples.
  induction d as [|x d IH]; cbn [app fold_right]; [reflexivity|].
  rewrite IH. lia.
Qed.

Lemma total_samples_entry (rb : list row) (b : option npf) (c : Z) :
  total_samples (entry_of rb b c) = len (filter (fun r => cores r =? c) rb).
Proof.
  unfold entry_of, detail_of.
  destruct (filter (fun r => cores r =? c) rb) as [|r l]; [reflexivity|].
  cbn [total_samples fold_right snd sample_count]. lia.
Qed.

(** X20.  On the data frame that the loader builds, every row of model
    resnet18-imagenet with batch size 1 is counted in exactly one entry of
    the scaling summary: the sample counts of the entries add up to the
    number of such rows.  A row whose label says [batch16] is among them,
    since the loader reads it as batch size 1. *)
Theorem loaded_rows_are_all_counted (detailed : Json.detailed_results) :
  total_samples
    (scaling_details
       (_analyze_multicore_scaling (extract_performance_metrics detailed)))
  = len (resnet18_batch1 (extract_performance_metrics detailed))
  /\ forall r,
       In r (extract_performance_metrics detailed) ->
       model r = "resnet18-imagenet" ->
       str_in "batch16" (configuration r) = true ->
       In r (rows_on (extract_performance_metrics detailed) (cores r))
       /\ In (cores r) [1; 2; 4].
Proof.
  set (df := extract_performance_metrics detailed). split.
  - rewrite scaling_details_eq, !total_samples_app, !total_samples_entry.
    rewrite (three_way_split (resnet18_batch1 df)); [lia|].
    intros r I. apply filter_In in I. destruct I as [I _].
    destruct (ExtractFacts.loader_reads_labels detailed r I) as [-> _].
    apply ExtractFacts.extract_cores_range.
  - intros r I M B16.
    destruct (ExtractFacts.loader_reads_labels detailed r I) as [Ec Eb].
    split; [|rewrite Ec; apply ExtractFacts.extract_cores_range].
    unfold rows_on, resnet18_batch1.
    apply filter_In. split; [|apply Z.eqb_refl].
    apply filter_In. split; [exact I|].
    rewrite M, Eb. unfold _extract_batch_from_config.
    now rewrite (ExtractFacts.batch16_has_batch1 _ B16).
Qed.

Lemma loaded_rows_are_all_counted_witness :
  exists r,
    In r (extract_performance_metrics Samples.batch16_configuration)
    /\ str_in "batch16" (configuration r) = true
    /\ In r (rows_on (extract_performance_metrics
                        Samples.batch16_configuration) 4).
Proof.
  eexists. split; [now left|]. split; [reflexivity|].
  refine (proj1 (proj2 (loaded_rows_are_all_counted
                          Samples.batch16_configuration) _ _ _ _));
    [now left | reflexivity | reflexivity].
Defined.

End ExtractScalingEntryFacts.

(** ** The validation report *)

Module ReportFacts.
Import Json Validate Report.

Lemma rate_threshold (n f t : Z) :
  0 < n ->
  Qle_bool (inject_Z t) (inject_Z (n - f) / inject_Z n * 100)
  = (t * n <=? (n - f) * 100).
Proof.
  intros P.
  assert (Pq : (0 < inject_Z n)%Q)
    by (change 0%Q with (inject_Z 0); rewrite <- Zlt_Qlt; exact P).
  assert (E : (inject_Z (n - f) / inject_Z n * 100 * inject_Z n
               == inject_Z ((n - f) * 100))%Q).
  { rewrite inject_Z_mult. change (inject_Z 100) with 100%Q.
    field. intros Z. rewrite Z in Pq. now apply Qlt_irrefl in Pq. }
  destruct (t * n <=? (n - f) * 100) eqn:L.
  - apply Z.leb_le in L. apply Qle_bool_iff.
    apply (Qmult_le_r _ _ (inject_Z n) Pq).
    rewrite E, <- inject_Z_mult, <- Zle_Qle. exact L.
  - apply Z.leb_gt in L.
    destruct (Qle_bool (inject_Z t) (inject_Z (n - f) / inject_Z n * 100))
      eqn:B; [|reflexivity].
    apply Qle_bool_iff in B.
    apply (Qmult_le_r _ _ (inject_Z n) Pq) in B.
    rewrite E, <- inject_Z_mult, <- Zle_Qle in B. lia.
Qed.

Lemma peaks_total (measurements : list measurement) :
  exists peaks, identify_peak_configurations measurements = inr peaks.
Proof.
  destruct (GroupingFacts.scan_summaries (config_groups measurements) no_peaks)
    as (peaks & F & _).
  - apply Forall_forall. intros [k g] I. cbn [snd].
    exact (proj2 (PeakFacts.config_groups_in _ _ _ I)).
  - apply (group_by_nodup String.eqb String.eqb_eq). constructor.
  - intros k _ [].
  - exists peaks. exact F.
Qed.

Section WithSciPy.
Context {scipy : SciPy}.

(** The report of a non-empty data set whose reported total is not 0. *)
Lemma report_of_nonempty (summary_total : option Z) (data : benchmark)
    (m : measurement) (ms : list measurement) :
  extract_all_measurements data = m :: ms ->
  get summary_total 1 <> 0 ->
  exists stats peaks,
    reproduce_summary_statistics (m :: ms) = inr stats
    /\ identify_peak_configurations (m :: ms) = inr peaks
    /\ generate_validation_report summary_total data
       = inr {| dataset_info :=
                  {| Report.total_measurements := get summary_total 0;
                     extracted_valid_measurements := len (m :: ms);
                     Report.success_rate :=
                       (inject_Z (len (m :: ms))
                        / inject_Z (get summary_total 1%Z))%Q |};
                mathematical_consistency := ValidateFacts.loop_result (m :: ms);
                reproduced_statistics := stats;
                peak_configurations_found := peaks;
                scaling_analysis := analyze_scaling_performance (m :: ms);
                overall :=
                  assess (inject_Z (len (m :: ms)
                                    - consistency_failures
                                        (ValidateFacts.loop_result (m :: ms)))
                          / inject_Z (len (m :: ms)) * 100)%Q
                         (len (m :: ms)) |}.
Proof.
  intros E T.
  destruct (StatisticsFacts.reproduce_summary_statistics_nonempty m ms)
    as (lo1 & hi1 & lo2 & hi2 & lo3 & hi3 & lo4 & hi4 & S).
  destruct (peaks_total (m :: ms)) as [peaks P].
  eexists. exists peaks. split; [exact S|]. split; [exact P|].
  unfold generate_validation_report. rewrite E.
  unfold py_div at 1. rewrite (StatisticsFacts.inject_Z_nonzero _ T).
  cbn [bind ret].
  rewrite ValidateFacts.validate_nonempty. cbn [bind].
  rewrite S. cbn [bind]. rewrite P. cbn [bind].
  rewrite ConsistencyFacts.success_rate_value.
  reflexivity.
Qed.

Lemma report_fails (summary_total : option Z) (data : benchmark) :
  extract_all_measurements data = [] \/ get summary_total 1 = 0 ->
  generate_validation_report summary_total data = inl ZeroDivisionError.
Proof.
  intros H. unfold generate_validation_report, py_div at 1.
  destruct (Z.eq_dec (get summary_total 1) 0) as [Z|NZ];
    [now rewrite Z|].
  destruct H as [E|Z]; [|contradiction].
  rewrite (StatisticsFacts.inject_Z_nonzero _ NZ), E. reflexivity.
Qed.

(** A report that is returned is the one of [report_of_nonempty]. *)
Lemma report_inversion (summary_total : option Z) (data : benchmark)
    (report : report) :
  generate_validation_report summary_total data = inr report ->
  get summary_total 1 <> 0
  /\ 0 < len (extract_all_measurements data)
  /\ validate_mathematical_consistency (extract_all_measurements data)
     = inr (mathematical_consistency report)
  /\ overall report
     = assess (inject_Z (len (extract_all_measurements data)
                         - consistency_failures
                             (mathematical_consistency report))
               / inject_Z (len (extract_all_measurements data)) * 100)%Q
              (len (extract_all_measurements data)).
Proof.
  intros R.
  destruct (Z.eq_dec (get summary_total 1) 0) as [Z|NZ];
    [rewrite report_fails in R by (now right); discriminate|].
  destruct (extract_all_measurements data) as [|m ms] eqn:E;
    [rewrite report_fails in R by (now left); discriminate|].
  destruct (report_of_nonempty summary_total data m ms E NZ)
    as (stats & peaks & _ & _ & R').
  rewrite R' in R. injection R as <-.
  cbn [mathematical_consistency overall].
  split; [exact NZ|]. split.
  - rewrite len_cons. pose proof (len_nonneg ms). lia.
  - split; [apply ValidateFacts.validate_nonempty|reflexivity].
Qed.

Lemma assess_by_counts (n f : Z) :
  0 < n ->
  assess (inject_Z (n - f) / inject_Z n * 100)%Q n
  = {| mathematical_consistency_rate :=
         (inject_Z (n - f) / inject_Z n * 100)%Q;
       quality := if 20 * f <=? n then EXCELLENT
                  else if 10 * f <=? n then GOOD else POOR;
       validity := if 1000 <? n then HIGH
                   else if 100 <? n then MEDIUM else LOW;
       status := if (20 * f <=? n) && (1000 <? n) then PASSED else FAILED |}.
Proof.
  intros P. unfold assess.
  change 95%Q with (inject_Z 95). change 90%Q with (inject_Z 90).
  rewrite !(rate_threshold n f _ P).
  replace (95 * n <=? (n - f) * 100) with (20 * f <=? n)
    by (destruct (20 * f <=? n) eqn:A; symmetry;
        [apply Z.leb_le; apply Z.leb_le in A|apply Z.leb_gt; apply Z.leb_gt in A];
        lia).
  replace (90 * n <=? (n - f) * 100) with (10 * f <=? n)
    by (destruct (10 * f <=? n) eqn:A; symmetry;
        [apply Z.leb_le; apply Z.leb_le in A|apply Z.leb_gt; apply Z.leb_gt in A];
        lia).
  reflexivity.
Qed.


(** X22.  The verdict in terms of counts: with [n] valid measurements and
    [f] entries in the failure list, the data quality is EXCELLENT when
    [20 f <= n], GOOD when [10 f <= n], POOR otherwise; the statistical
    validity is HIGH above 1000 measurements, MEDIUM above 100, LOW
    otherwise; and the status is PASSED exactly when the quality is
    EXCELLENT and the validity HIGH. *)
Theorem report_verdict (summary_total : option Z) (data : benchmark)
    (report : report) :
  generate_validation_report summary_total data = inr report ->
  let n := len (extract_all_measurements data) in
  let f := consistency_failures (mathematical_consistency report) in
  0 < n
  /\ quality (overall report)
     = (if 20 * f <=? n then EXCELLENT
        else if 10 * f <=? n then GOOD else POOR)
  /\ validity (overall report)
     = (if 1000 <? n then HIGH else if 100 <? n then MEDIUM else LOW)
  /\ (status (overall report) = PASSED
      <-> quality (overall report) = EXCELLENT
          /\ validity (overall report) = HIGH)
  /\ (status (overall report) = PASSED <-> 20 * f <= n /\ 1000 < n).
Proof.
  intros R n f.
  destruct (report_inversion _ _ _ R) as (_ & P & _ & O).
  fold n f in P, O. rewrite O, (assess_by_counts n f P).
  cbn [quality validity status].
  split; [exact P|]. split; [reflexivity|]. split; [reflexivity|].
  destruct (Z.leb_spec (20 * f) n) as [A|A];
    destruct (Z.ltb_spec 1000 n) as [B|B]; cbn [andb];
    (split; split; intros H; try discriminate H; try (split; reflexivity);
     try (split; assumption); try reflexivity;
     destruct H as [H1 H2]; try lia;
     destruct (10 * f <=? n); destruct (100 <? n); discriminate).
Qed.


End WithSciPy.

Lemma report_verdict_witness :
  exists report,
    generate_validation_report (scipy := Reference.scipy) (Some 1)
      Samples.small_benchmark = inr report
    /\ (status (overall report) = PASSED
        <-> 20 * consistency_failures (mathematical_consistency report)
            <= len (extract_all_measurements Samples.small_benchmark)
            /\ 1000 < len (extract_all_measurements Samples.small_benchmark)).
Proof.
  eexists. split; [vm_compute; reflexivity|].
  refine (proj2 (proj2 (proj2 (proj2
            (report_verdict (scipy := Reference.scipy) (Some 1)
               Samples.small_benchmark _ _))))).
  vm_compute; reflexivity.
Defined.

End ReportFacts.

(** ** The run of the extraction script *)

Module ExtractRunFacts.
Import Extract.

(** X24.  [main] of the extraction script answers [True] exactly when the
    file has a valid measurement.  Without one the data frame is empty and
    has no columns, the statistics step raises a [KeyError] and [main]
    answers [False].  When the steps succeed, the statistics and the
    validation both count every valid measurement of the file. *)
Theorem extraction_run_succeeds_iff (scipy : SciPy) (data : Json.benchmark) :
  (ExtractRun.main data = true
   <-> Validate.extract_all_measurements data <> [])
  /\ (Validate.extract_all_measurements data = [] ->
      ExtractRun.run data = inl KeyError)
  /\ (forall processed checks pct,
        ExtractRun.run data = inr (processed, (checks, pct)) ->
        total_measurements processed
        = len (Validate.extract_all_measurements data)
        /\ passed_range_validation checks
           <= len (Validate.extract_all_measurements data)).
Proof.
  pose proof (LoaderFacts.loaders_same_length data) as L.
  unfold ExtractRun.main, ExtractRun.run.
  destruct (extract_performance_metrics (Json.get (Json.results data) []))
    as [|r df] eqn:E.
  - assert (N : Validate.extract_all_measurements data = []).
    { destruct (Validate.extract_all_measurements data) as [|m ms];
        [reflexivity|].
      rewrite len_cons in L. pose proof (len_nonneg ms).
      change (len (@nil row)) with 0 in L. lia. }
    rewrite N. cbn [calculate_real_statistics bind].
    split; [split; [discriminate|congruence]|].
    split; [reflexivity|]. discriminate.
  - assert (N : Validate.extract_all_measurements data <> []).
    { intros N. rewrite N, len_cons in L. pose proof (len_nonneg df).
      change (len (@nil Json.measurement)) with 0 in L. lia. }
    rewrite (RowValidationFacts.validate_measurements_value r df).
    cbn [calculate_real_statistics bind ret].
    split; [split; [intros _; exact N|reflexivity]|].
    split; [intros Z; now elim N|].
    intros processed checks pct [= <- <- _].
    cbn [total_measurements]. split; [exact L|].
    rewrite <- L. unfold ExtractValidationFacts.rows_result.
    rewrite ExtractValidationFacts.rows_range. cbn [passed_range_validation].
    pose proof (RowValidationFacts.len_filter_le
                  (fun item : Z * row =>
                     ExtractValidationFacts.ranges_ok (snd item))
                  (enumerate (r :: df))) as B.
    rewrite len_enumerate in B. lia.
Qed.

End ExtractRunFacts.

(** ** The reproduced summary statistics *)

Module SummaryFacts.
Import Json Validate StatisticsFacts.

(** The metrics that get an entry, with their columns; the latencies are
    collected but never summarised. *)
Definition summarised : list (string * (measurement -> Q)) :=
  [("power_consumption_watts", power_consumption_watts);
   ("throughput_fps", throughput_fps);
   ("efficiency_fps_per_watt", efficiency_fps_per_watt);
   ("temperature_celsius", temperature_celsius)].

Lemma describe_value (scipy : SciPy) (x : Q) (xs : list Q) :
  describe (x :: xs)
  = inr (base_entry (x :: xs) (DispersionFacts.list_min x xs)
           (PeakFacts.list_max x xs)).
Proof. reflexivity. Qed.

(** What an entry reports about its column: how many values it has, and a
    least and a greatest value.  These come from comparisons alone; the
    mean is not placed between them, since numpy's float mean of equal
    values can exceed them. *)
Definition bounds (column : measurement -> Q) (measurements : list measurement)
    (entry : metric_stats) : Prop :=
  count entry = len measurements
  /\ In (min entry) (map column measurements)
  /\ In (max entry) (map column measurements)
  /\ (min entry <= max entry)%Q
  /\ forall m, In m measurements ->
       (min entry <= column m <= max entry)%Q.

Lemma column_bounds (column : measurement -> Q) (m : measurement)
    (ms : list measurement) (entry : metric_stats) :
  count entry = len (map column (m :: ms)) ->
  min entry = DispersionFacts.list_min (column m) (map column ms) ->
  max entry = PeakFacts.list_max (column m) (map column ms) ->
  bounds column (m :: ms) entry.
Proof.
  intros C Lo Hi. unfold bounds. rewrite C, Lo, Hi. clear C Lo Hi.
  destruct (DispersionFacts.list_min_le (map column ms) (column m)) as [L1 L2].
  destruct (PeakFacts.list_max_ge (map column ms) (column m)) as [U1 U2].
  split; [apply len_map|].
  split; [apply DispersionFacts.list_min_in|].
  split; [apply PeakFacts.list_max_in|].
  split; [lra|].
  intros x [<-|I]; [split; assumption|].
  split; [apply L2|apply U2]; now apply in_map.
Qed.

(** X25.  When the summary statistics are returned they have one entry
    for power, throughput, efficiency and temperature, in this order, and
    none for latency.  Each entry counts every measurement, and its minimum
    and maximum are values of its column that bound the column. *)
Theorem reproduced_statistics_bound_their_columns (scipy : SciPy)
    (measurements : list measurement) (stats : list (string * metric_stats)) :
  reproduce_summary_statistics measurements = inr stats ->
  map fst stats = map fst summarised
  /\ forall name entry,
       In (name, entry) stats ->
       exists column,
         In (name, column) summarised /\ bounds column measurements entry.
Proof.
  destruct measurements as [|m ms]; [discriminate|].
  unfold reproduce_summary_statistics. cbn [map].
  rewrite !(describe_value scipy). cbn [bind ret mapM add_interval String.eqb
    Ascii.eqb Bool.eqb dict_get].
  intros [= <-]. split; [reflexivity|].
  intros name entry I. cbn [In] in I.
  destruct I as [I|[I|[I|[I|[]]]]]; injection I as <- <-.
  - exists power_consumption_watts. split; [cbn; auto|].
    now apply column_bounds.
  - exists throughput_fps. split; [cbn; auto|].
    now apply column_bounds.
  - exists efficiency_fps_per_watt. split; [cbn; auto|].
    now apply column_bounds.
  - exists temperature_celsius. split; [cbn; auto|].
    now apply column_bounds.
Qed.

Lemma reproduced_statistics_bound_their_columns_witness :
  exists stats,
    reproduce_summary_statistics (scipy := Reference.scipy)
      Samples.two_measurements = inr stats
    /\ map fst stats = map fst summarised.
Proof.
  eexists. split; [vm_compute; reflexivity|].
  refine (proj1 (reproduced_statistics_bound_their_columns Reference.scipy
                   Samples.two_measurements _ _)).
  vm_compute; reflexivity.
Defined.

End SummaryFacts.
